(** * Odoo WebRTC command-line scripts: the XML-RPC client wrapper

    A shallow embedding of the client class that every script of the
    repository repeats (constructor, [authenticate], [call_model]) and of the
    script operations built on it ([ensure_channel_member],
    [cleanup_existing_sessions], [test_channel_methods]).

    The scripts talk to a remote server through [xmlrpc.client.ServerProxy].
    The server, and the two pure library functions the code relies on
    ([str] of a value, the scheme [urllib.parse.urlsplit] finds in a URL),
    are the [platform] the program runs on; every statement below is
    quantified over it.  Terminal output is not part of the model: a [print]
    is represented only by the evaluation of the expressions it formats,
    since those can raise. *)

From Stdlib Require Import ZArith List String Ascii Bool Lia.
From stdpp Require Import gmap strings pretty.
Import ListNotations.

Local Open Scope string_scope.
Local Open Scope list_scope.
Local Open Scope Z_scope.

(** ** Python values carried over XML-RPC *)

#[local] Set Warnings "-register-all".

(** The values the scripts build and receive: [None], booleans, integers,
    text, lists and dictionaries with text keys (a dictionary keeps its
    insertion order). *)
Inductive pyval : Type :=
| VNone
| VBool (b : bool)
| VInt (n : Z)
| VStr (s : string)
| VList (l : list pyval)
| VDict (d : list (string * pyval)).

(** An exception object: its class name and the text [str(e)] yields.
    Re-raising keeps the object, hence both fields. *)
Record exn : Type := Exn { exn_class : string; exn_str : string }.

Inductive outcome (A : Type) : Type :=
| Ret (a : A)
| Raise (e : exn).
Arguments Ret {A} a.
Arguments Raise {A} e.

(** [bool(v)], as used by [if v:] and [if not v:]. *)
Definition truthy (v : pyval) : bool :=
  match v with
  | VNone => false
  | VBool b => b
  | VInt n => negb (n =? 0)
  | VStr s => negb (String.eqb s "")
  | VList l => match l with [] => false | _ :: _ => true end
  | VDict d => match d with [] => false | _ :: _ => true end
  end.

Definition TypeError (msg : string) : exn := Exn "TypeError" msg.
Definition IndexError (msg : string) : exn := Exn "IndexError" msg.
Definition OverflowError (msg : string) : exn := Exn "OverflowError" msg.
Definition OSError (msg : string) : exn := Exn "OSError" msg.

(** [KeyError(k)] for a text key [k]; [str] of it is the quoted key (the keys
    the scripts use are plain identifiers). *)
Definition KeyError (k : string) : exn := Exn "KeyError" ("'" +:+ k +:+ "'").

(** [type(v).__name__]. *)
Definition type_name (v : pyval) : string :=
  match v with
  | VNone => "NoneType"
  | VBool _ => "bool"
  | VInt _ => "int"
  | VStr _ => "str"
  | VList _ => "list"
  | VDict _ => "dict"
  end.

Definition not_subscriptable (v : pyval) : exn :=
  TypeError ("'" +:+ type_name v +:+ "' object is not subscriptable").

Fixpoint assoc (k : string) (d : list (string * pyval)) : option pyval :=
  match d with
  | [] => None
  | (k', v) :: r => if String.eqb k k' then Some v else assoc k r
  end.

(** [v[0]]. *)
Definition getitem_zero (v : pyval) : outcome pyval :=
  match v with
  | VList (x :: _) => Ret x
  | VList [] => Raise (IndexError "list index out of range")
  | VStr (String c _) => Ret (VStr (String c EmptyString))
  | VStr EmptyString => Raise (IndexError "string index out of range")
  | VDict _ => Raise (Exn "KeyError" "0")
  | _ => Raise (not_subscriptable v)
  end.

(** [v[k]] for a text key [k]. *)
Definition getitem_key (v : pyval) (k : string) : outcome pyval :=
  match v with
  | VDict d => match assoc k d with
               | Some x => Ret x
               | None => Raise (KeyError k)
               end
  | VList _ => Raise (TypeError "list indices must be integers or slices, not str")
  | VStr _ => Raise (TypeError "string indices must be integers, not 'str'")
  | _ => Raise (not_subscriptable v)
  end.

(** [len(v)]. *)
Definition py_len (v : pyval) : outcome Z :=
  match v with
  | VList l => Ret (Z.of_nat (List.length l))
  | VDict d => Ret (Z.of_nat (List.length d))
  | VStr s => Ret (Z.of_nat (String.length s))
  | _ => Raise (TypeError ("object of type '" +:+ type_name v +:+ "' has no len()"))
  end.

(** [sub in s] on text. *)
Fixpoint contains (sub s : string) : bool :=
  if String.prefix sub s then true
  else match s with
       | EmptyString => false
       | String _ r => contains sub r
       end.

(** [d[k] = b] on a dictionary kept in insertion order. *)
Fixpoint dict_set {A : Type} (k : string) (b : A) (d : list (string * A)) : list (string * A) :=
  match d with
  | [] => [(k, b)]
  | (k', x) :: r => if String.eqb k k' then (k, b) :: r else (k', x) :: dict_set k b r
  end.

(** [any(d.values())]. *)
Definition any_values (d : list (string * bool)) : bool := existsb snd d.

Definition AttributeError (msg : string) : exn := Exn "AttributeError" msg.
Definition ValueError (msg : string) : exn := Exn "ValueError" msg.

Definition no_attribute (v : pyval) (attr : string) : exn :=
  AttributeError ("'" +:+ type_name v +:+ "' object has no attribute '" +:+ attr +:+ "'").

(** [v.items()]: only a dictionary has the method. *)
Definition py_items (v : pyval) : outcome (list (string * pyval)) :=
  match v with
  | VDict d => Ret d
  | _ => Raise (no_attribute v "items")
  end.

(** [v.keys()]. *)
Definition py_keys (v : pyval) : outcome (list string) :=
  match v with
  | VDict d => Ret (map fst d)
  | _ => Raise (no_attribute v "keys")
  end.

(** [v.get(k)]: a missing key gives [None]. *)
Definition py_get (v : pyval) (k : string) : outcome pyval :=
  match v with
  | VDict d => match assoc k d with
               | Some x => Ret x
               | None => Ret VNone
               end
  | _ => Raise (no_attribute v "get")
  end.

Fixpoint chars (s : string) : list pyval :=
  match s with
  | EmptyString => []
  | String c r => VStr (String c EmptyString) :: chars r
  end.

(** The elements [for x in v] goes through: the items of a list, the keys of
    a dictionary, the characters of a text. *)
Definition py_iter (v : pyval) : outcome (list pyval) :=
  match v with
  | VList l => Ret l
  | VDict d => Ret (map (fun kv => VStr (fst kv)) d)
  | VStr s => Ret (chars s)
  | _ => Raise (TypeError ("'" +:+ type_name v +:+ "' object is not iterable"))
  end.

(** [range(start, 0, -step)] for a positive [step]: [start], [start - step],
    ... as long as the value is positive. *)
Fixpoint countdown (fuel : nat) (i step : Z) : list Z :=
  match fuel with
  | O => []
  | S fuel' => if 0 <? i then i :: countdown fuel' (i - step) step else []
  end.

Definition range_down (start step : Z) : list Z := countdown (Z.to_nat start) start step.

(** [s.upper()] on ASCII text, which is what the scripts pass for a call
    type: the letters [a] to [z] move to [A] to [Z], every other character
    stays. *)
Definition upper_char (c : ascii) : ascii :=
  let n := nat_of_ascii c in
  if ((97 <=? n) && (n <=? 122))%nat then ascii_of_nat (n - 32) else c.

Fixpoint py_upper (s : string) : string :=
  match s with
  | EmptyString => EmptyString
  | String c r => String (upper_char c) (py_upper r)
  end.

(** The line feed and the double quote of a string literal. *)
Definition nl : string := String (ascii_of_nat 10) EmptyString.
Definition dquote : string := String (ascii_of_nat 34) EmptyString.

(** ** xmlrpc.client: marshalling *)

Definition MAXINT : Z := 2 ^ 31 - 1.
Definition MININT : Z := - 2 ^ 31.

(** [Marshaller.__dump] with [allow_none] left at its default [False], which
    is how every script builds its [ServerProxy]: the first value, in
    traversal order, that cannot be written makes the call raise. [None] is
    the exception found, if any. *)
Fixpoint dump (v : pyval) : option exn :=
  match v with
  | VNone => Some (TypeError "cannot marshal None unless allow_none is enabled")
  | VBool _ => None
  | VInt n => if (n >? MAXINT) || (n <? MININT)
              then Some (OverflowError "int exceeds XML-RPC limits")
              else None
  | VStr _ => None
  | VList l =>
      (fix dump_array (l : list pyval) : option exn :=
         match l with
         | [] => None
         | x :: r => match dump x with
                     | Some e => Some e
                     | None => dump_array r
                     end
         end) l
  | VDict d =>
      (fix dump_struct (d : list (string * pyval)) : option exn :=
         match d with
         | [] => None
         | (_, x) :: r => match dump x with
                          | Some e => Some e
                          | None => dump_struct r
                          end
         end) d
  end.

(** [dumps(params, methodname)]: the parameters are written in order. *)
Fixpoint dumps (params : list pyval) : option exn :=
  match params with
  | [] => None
  | x :: r => match dump x with
              | Some e => Some e
              | None => dumps r
              end
  end.

(** ** The platform and the program state *)

(** One XML-RPC request as it leaves the process. *)
Record rpc : Type := Rpc {
  rpc_uri : string;
  rpc_method : string;
  rpc_params : list pyval
}.

(** What a request comes back with: a decoded value, or an exception raised
    by the transport or by the decoding of a fault response. *)
Inductive response : Type :=
| Returns (v : pyval)
| Faults (e : exn).

(** The surroundings of the program. [respond history rq] is the server's
    answer to [rq] after the requests of [history]. *)
Record platform : Type := Platform {
  py_str : pyval -> string;
  url_scheme : string -> string;
  respond : list rpc -> rpc -> response
}.

(** The instance attributes of a client object. *)
Record obj : Type := Obj {
  config : gmap string pyval;
  uid : pyval;
  url : string
}.

(** An assignment executed by a method: [self.uid = v] or
    [self.config[k] = v]. *)
Inductive write : Type :=
| WUid (v : pyval)
| WConfig (k : string) (v : pyval).

(** The state a method runs in: the client object, the requests issued on a
    proxy so far (oldest first), the assignments to the object's attributes
    executed since its construction (oldest first), and the platform. *)
Record world : Type := World {
  self : obj;
  sent : list rpc;
  written : list write;
  host : platform
}.

(** ** Statements that read and write the state and may raise *)

Definition M (A : Type) : Type := world -> outcome A * world.

Definition ret {A : Type} (a : A) : M A := fun w => (Ret a, w).

Definition raise {A : Type} (e : exn) : M A := fun w => (Raise e, w).

Definition bind {A B : Type} (m : M A) (k : A -> M B) : M B :=
  fun w => match m w with
           | (Ret a, w') => k a w'
           | (Raise e, w') => (Raise e, w')
           end.

Notation "x <- m ;; k" := (bind m (fun x => k))
  (at level 100, m at next level, right associativity).
Notation "m ;;; k" := (bind m (fun _ => k))
  (at level 100, right associativity).

(** [try: body  except Exception as e: handler e]. Every exception of the
    model is an [Exception]. *)
Definition try_except {A : Type} (body : M A) (handler : exn -> M A) : M A :=
  fun w => match body w with
           | (Ret a, w') => (Ret a, w')
           | (Raise e, w') => handler e w'
           end.

Definition lift {A : Type} (o : outcome A) : M A := fun w => (o, w).

Definition get_self : M obj := fun w => (Ret (self w), w).

Definition get_uid : M pyval := fun w => (Ret (uid (self w)), w).

Definition get_host : M platform := fun w => (Ret (host w), w).

(** [self.uid = v]. *)
Definition set_uid (v : pyval) : M unit :=
  fun w => (Ret tt, World (Obj (config (self w)) v (url (self w)))
                          (sent w) (written w ++ [WUid v]) (host w)).

(** [self.config[k]]. *)
Definition config_get (k : string) : M pyval :=
  fun w => match config (self w) !! k with
           | Some v => (Ret v, w)
           | None => (Raise (KeyError k), w)
           end.

(** [self.config[k] = v]. *)
Definition config_set (k : string) (v : pyval) : M unit :=
  fun w => (Ret tt, World (Obj (<[k := v]> (config (self w))) (uid (self w)) (url (self w)))
                          (sent w) (written w ++ [WConfig k v]) (host w)).

(** [xmlrpc.client.ServerProxy(uri)]: no connection is opened, only the
    scheme is checked. The proxy is identified by its address. *)
Definition supported (h : platform) (uri : string) : bool :=
  String.eqb (url_scheme h uri) "http" || String.eqb (url_scheme h uri) "https".

Definition ServerProxy (uri : string) : M string :=
  fun w => if supported (host w) uri then (Ret uri, w)
           else (Raise (OSError "unsupported XML-RPC protocol"), w).

(** The state once [rq] has left, and what the caller gets back for it. *)
Definition after_send (w : world) (rq : rpc) : world :=
  World (self w) (sent w ++ [rq]) (written w) (host w).

Definition answer (w : world) (rq : rpc) : outcome pyval :=
  match respond (host w) (sent w) rq with
  | Returns v => Ret v
  | Faults e => Raise e
  end.

(** A method call on a proxy, [proxy.method(p1, ..., pn)]: the parameters
    are marshalled, and only then the request is handed to the transport.
    [sent] records the request once, as the script issued it, and the answer
    is the one the proxy call ends with. How often the transport puts the
    request on the wire is not recorded: [Transport.request] of xmlrpc.client
    transmits it a second time when the first transmission met a dropped
    connection. *)
Definition rpc_call (proxy method : string) (params : list pyval) : M pyval :=
  fun w => match dumps params with
           | Some e => (Raise e, w)
           | None =>
               let rq := Rpc proxy method params in
               (answer w rq, after_send w rq)
           end.

(** The mutable default arguments [args=[]] and [kwargs={}] of [call_model];
    no method ever mutates them. *)
Definition default_args : pyval := VList [].
Definition default_kwargs : pyval := VDict [].

(** [time.sleep] converts its length to nanoseconds in a signed 64-bit
    integer: the longest length it takes is [(2^63 - 1) / 10^9] seconds. *)
Definition SLEEP_MAX : Z := 9223372036.


(** [time.sleep(seconds)] for an integer. The time that passes is not part of
    the model; the two refusals of the length are: the conversion overflows
    beyond [SLEEP_MAX] on either side, and a negative length that converts is
    turned down. A length that converts is slept until the monotonic clock
    reads its present value plus the length; the system call refuses a
    deadline beyond the range of the clock, which depends on the reading of
    the clock and is not modelled: the statements that let [sleep] return
    keep to lengths up to [SLEEP_SAFE]. *)
Definition sleep (seconds : Z) : M unit :=
  fun w => if (seconds <? - SLEEP_MAX) || (SLEEP_MAX <? seconds)
           then (Raise (OverflowError "timestamp too large to convert to C _PyTime_t"), w)
           else if seconds <? 0
           then (Raise (ValueError "sleep length must be non-negative"), w)
           else (Ret tt, w).

(** The constructor shared by all the classes:
    [self.config = config; self.uid = None; self.url = f"..."]. *)
Definition __init__ (h : platform) (config : gmap string pyval) : outcome obj :=
  match config !! "protocol" with
  | None => Raise (KeyError "protocol")
  | Some protocol =>
      match config !! "host" with
      | None => Raise (KeyError "host")
      | Some hst =>
          match config !! "port" with
          | None => Raise (KeyError "port")
          | Some port =>
              Ret (Obj config VNone
                     (py_str h protocol +:+ "://" +:+ py_str h hst +:+ ":" +:+ py_str h port))
          end
      end
  end.

(** ** call-channel-105-fixed.py, class OdooCallInitiator *)

Module CallChannel105Fixed.

Definition authenticate : M bool :=
  s <- get_self ;;
  common <- ServerProxy (url s +:+ "/xmlrpc/2/common") ;;
  r <- try_except
         (db <- config_get "database" ;;
          user <- config_get "username" ;;
          key <- config_get "api_key" ;;
          v <- rpc_call common "authenticate" [db; user; key; VDict []] ;;
          set_uid v ;;;
          u <- get_uid ;;
          if truthy u then ret (Some true) else ret None)
         (fun e => ret None) ;;
  match r with
  | Some b => ret b
  | None => ret false
  end.

Definition call_model (model method : string) (args kwargs : pyval) : M pyval :=
  s <- get_self ;;
  models <- ServerProxy (url s +:+ "/xmlrpc/2/object") ;;
  db <- config_get "database" ;;
  u <- get_uid ;;
  key <- config_get "api_key" ;;
  rpc_call models "execute_kw" [db; u; key; VStr model; VStr method; args; kwargs].

Definition ensure_channel_member (channel_id partner_id : pyval) : M pyval :=
  try_except
    (members <- call_model "discuss.channel.member" "search_read"
                  (VList [VList [VList [VStr "channel_id"; VStr "="; channel_id];
                                 VList [VStr "partner_id"; VStr "="; partner_id]]])
                  (VDict [("fields", VList [VStr "id"])]) ;;
     member_id <- (if truthy members
                   then first <- lift (getitem_zero members) ;;
                        lift (getitem_key first "id")
                   else call_model "discuss.channel.member" "create"
                          (VList [VDict [("channel_id", channel_id);
                                         ("partner_id", partner_id)]])
                          default_kwargs) ;;
     ret member_id)
    (fun e => ret VNone).

(** The notification is tried through [_sendmany], then [sendmany], then
    [create], each in the handler of the one before. [call_type] defaults to
    ['audio']. *)
Definition send_call_notification (channel_id session_id partner_id : pyval)
    (call_type : string) : M bool :=
  try_except
    (u <- get_uid ;;
     user_data <- call_model "res.users" "read" (VList [u])
                    (VDict [("fields", VList [VStr "name"; VStr "email"])]) ;;
     caller_name <- (if truthy user_data
                     then first <- lift (getitem_zero user_data) ;;
                          lift (getitem_key first "name")
                     else ret (VStr "CLI Caller")) ;;
     h <- get_host ;;
     let notification_data :=
       VDict [("id", session_id); ("channel_id", channel_id); ("partner_id", partner_id);
              ("is_camera_on", VBool (String.eqb call_type "video"));
              ("is_muted", VBool false); ("is_screen_sharing_on", VBool false);
              ("caller_name", caller_name); ("action", VStr "join");
              ("call_type", VStr call_type)] in
     let notifications :=
       VList [VList [VStr ("discuss.channel_" +:+ py_str h channel_id);
                     VDict [("type", VStr "discuss.channel.rtc.session/insert");
                            ("payload", notification_data)]]] in
     try_except
       (call_model "bus.bus" "_sendmany" (VList [notifications]) default_kwargs ;;;
        ret true)
       (fun e1 =>
          try_except
            (call_model "bus.bus" "sendmany" (VList [notifications]) default_kwargs ;;;
             ret true)
            (fun e2 =>
               try_except
                 (let bus_message :=
                    VDict [("channel", VStr ("discuss.channel_" +:+ py_str h channel_id));
                           ("message", notification_data)] in
                  call_model "bus.bus" "create" (VList [bus_message]) default_kwargs ;;;
                  ret true)
                 (fun e3 => ret false))))
    (fun e => ret false).

Definition get_channel_info (channel_id : pyval) : M pyval :=
  try_except
    (channels <- call_model "discuss.channel" "read" (VList [channel_id])
                   (VDict [("fields", VList [VStr "id"; VStr "name"; VStr "channel_type";
                                             VStr "channel_member_ids"])]) ;;
     if truthy channels then lift (getitem_zero channels) else ret VNone)
    (fun e => ret VNone).

Definition create_rtc_session (channel_id member_id partner_id : pyval)
    (call_type : string) : M pyval :=
  try_except
    (let session_data :=
       VDict [("channel_id", channel_id); ("channel_member_id", member_id);
              ("partner_id", partner_id);
              ("is_camera_on", VBool (String.eqb call_type "video"));
              ("is_muted", VBool false); ("is_screen_sharing_on", VBool false);
              ("is_deaf", VBool false)] in
     session_id <- call_model "discuss.channel.rtc.session" "create"
                     (VList [session_data]) default_kwargs ;;
     ret session_id)
    (fun e => ret VNone).

(** [delay_seconds] defaults to 30. The method returns [None]. *)
Definition cleanup_session (session_id : pyval) (delay_seconds : Z) : M unit :=
  try_except
    (sleep delay_seconds ;;;
     call_model "discuss.channel.rtc.session" "unlink" (VList [session_id])
       default_kwargs ;;;
     ret tt)
    (fun e => ret tt).

End CallChannel105Fixed.

(** ** debug-webrtc.py, class OdooWebRTCTester *)

Module DebugWebrtc.

(** Password first, then the API key; on success with the API key the
    [password] entry of the configuration is overwritten with it. *)
Definition authenticate : M bool :=
  s <- get_self ;;
  common <- ServerProxy (url s +:+ "/xmlrpc/2/common") ;;
  r1 <- try_except
          (db <- config_get "database" ;;
           user <- config_get "username" ;;
           pw <- config_get "password" ;;
           v <- rpc_call common "authenticate" [db; user; pw; VDict []] ;;
           set_uid v ;;;
           u <- get_uid ;;
           if truthy u then ret (Some true) else ret None)
          (fun e => ret None) ;;
  match r1 with
  | Some b => ret b
  | None =>
      r2 <- try_except
              (db <- config_get "database" ;;
               user <- config_get "username" ;;
               key <- config_get "api_key" ;;
               v <- rpc_call common "authenticate" [db; user; key; VDict []] ;;
               set_uid v ;;;
               u <- get_uid ;;
               if truthy u
               then key' <- config_get "api_key" ;;
                    config_set "password" key' ;;;
                    ret (Some true)
               else ret None)
              (fun e => ret None) ;;
      match r2 with
      | Some b => ret b
      | None => ret false
      end
  end.

Definition call_model (model method : string) (args kwargs : pyval) : M pyval :=
  s <- get_self ;;
  models <- ServerProxy (url s +:+ "/xmlrpc/2/object") ;;
  try_except
    (db <- config_get "database" ;;
     u <- get_uid ;;
     pw <- config_get "password" ;;
     rpc_call models "execute_kw" [db; u; pw; VStr model; VStr method; args; kwargs])
    (fun e => raise e).

Definition methods_to_test : list string :=
  ["rtc_join_call"; "rtc_leave_call"; "mobile_start_webrtc_call"; "mobile_answer_webrtc_call"].

(** One round of the loop over [methods_to_test]: the entry written to
    [method_results] for [method]. *)
Definition probe_method (channel : pyval) (method : string)
    (method_results : list (string * bool)) : M (list (string * bool)) :=
  try_except
    (cid <- lift (getitem_key channel "id") ;;
     call_model "discuss.channel" method (VList [cid]) default_kwargs ;;;
     ret (dict_set method true method_results))
    (fun e => if contains "does not exist" (exn_str e)
              then ret (dict_set method false method_results)
              else ret (dict_set method true method_results)).

Fixpoint probe_methods (channel : pyval) (methods : list string)
    (method_results : list (string * bool)) : M (list (string * bool)) :=
  match methods with
  | [] => ret method_results
  | method :: rest =>
      r <- probe_method channel method method_results ;;
      probe_methods channel rest r
  end.

Definition test_channel_methods : M bool :=
  try_except
    (channels <- call_model "discuss.channel" "search_read" (VList [VList []])
                   (VDict [("fields", VList [VStr "id"; VStr "name"; VStr "channel_type"]);
                           ("limit", VInt 1)]) ;;
     if negb (truthy channels) then ret false
     else
       channel <- lift (getitem_zero channels) ;;
       lift (getitem_key channel "name") ;;;
       lift (getitem_key channel "id") ;;;
       method_results <- probe_methods channel methods_to_test [] ;;
       ret (any_values method_results))
    (fun e => ret false).

(** The [print] joins the first ten of [fields.keys()]. *)
Definition test_rtc_session_model : M bool :=
  try_except
    (fields <- call_model "discuss.channel.rtc.session" "fields_get"
                 default_args default_kwargs ;;
     lift (py_keys fields) ;;;
     ret true)
    (fun e => ret false).

Definition test_create_rtc_session : M bool :=
  try_except
    (u <- get_uid ;;
     users <- call_model "res.users" "read" (VList [u])
                (VDict [("fields", VList [VStr "partner_id"])]) ;;
     user <- lift (getitem_zero users) ;;
     partner <- lift (getitem_key user "partner_id") ;;
     partner_id <- lift (getitem_zero partner) ;;
     channels <- call_model "discuss.channel" "search" (VList [VList []])
                   (VDict [("limit", VInt 1)]) ;;
     if negb (truthy channels) then ret false
     else
       channel_id <- lift (getitem_zero channels) ;;
       let session_data :=
         VDict [("channel_id", channel_id); ("partner_id", partner_id);
                ("is_camera_on", VBool false); ("is_muted", VBool false);
                ("is_screen_sharing_on", VBool false)] in
       session_id <- call_model "discuss.channel.rtc.session" "create"
                       (VList [session_data]) default_kwargs ;;
       call_model "discuss.channel.rtc.session" "unlink" (VList [session_id])
         default_kwargs ;;;
       ret true)
    (fun e => ret false).

Definition test_old_rtc_model : M bool :=
  try_except
    (fields <- call_model "mail.rtc.session" "fields_get" default_args default_kwargs ;;
     ret true)
    (fun e => ret false).

End DebugWebrtc.

(** ** quick-webrtc-fix.py, class QuickWebRTCFix *)

Module QuickWebrtcFix.

Definition authenticate : M bool :=
  s <- get_self ;;
  common <- ServerProxy (url s +:+ "/xmlrpc/2/common") ;;
  r <- try_except
         (db <- config_get "database" ;;
          user <- config_get "username" ;;
          key <- config_get "api_key" ;;
          v <- rpc_call common "authenticate" [db; user; key; VDict []] ;;
          set_uid v ;;;
          u <- get_uid ;;
          if truthy u then ret (Some true) else ret None)
         (fun e => ret None) ;;
  match r with
  | Some b => ret b
  | None => ret false
  end.

Definition call_model (model method : string) (args kwargs : pyval) : M pyval :=
  s <- get_self ;;
  models <- ServerProxy (url s +:+ "/xmlrpc/2/object") ;;
  db <- config_get "database" ;;
  u <- get_uid ;;
  key <- config_get "api_key" ;;
  rpc_call models "execute_kw" [db; u; key; VStr model; VStr method; args; kwargs].

(** The comprehension
    [[name for name, info in fields.items() if info.get('required')]]. *)
Fixpoint required_names (items : list (string * pyval)) : outcome (list string) :=
  match items with
  | [] => Ret []
  | (name, info) :: rest =>
      match py_get info "required" with
      | Raise e => Raise e
      | Ret required =>
          match required_names rest with
          | Raise e => Raise e
          | Ret names => Ret (if truthy required then name :: names else names)
          end
      end
  end.

Definition analyze_rtc_issue : M (list string) :=
  try_except
    (fields <- call_model "discuss.channel.rtc.session" "fields_get"
                 default_args default_kwargs ;;
     items <- lift (py_items fields) ;;
     required_fields <- lift (required_names items) ;;
     ret required_fields)
    (fun e => ret []).

(** The tuple returned is the list of its components: two when no channel is
    found, three otherwise. *)
Definition test_channel_member_creation : M (list pyval) :=
  try_except
    (u <- get_uid ;;
     user_data <- call_model "res.users" "read" (VList [u])
                    (VDict [("fields", VList [VStr "partner_id"])]) ;;
     user <- lift (getitem_zero user_data) ;;
     partner <- lift (getitem_key user "partner_id") ;;
     partner_id <- lift (getitem_zero partner) ;;
     channels <- call_model "discuss.channel" "search" (VList [VList []])
                   (VDict [("limit", VInt 1)]) ;;
     if negb (truthy channels) then ret [VNone; VNone]
     else
       channel_id <- lift (getitem_zero channels) ;;
       members <- call_model "discuss.channel.member" "search_read"
                    (VList [VList [VList [VStr "channel_id"; VStr "="; channel_id];
                                   VList [VStr "partner_id"; VStr "="; partner_id]]])
                    (VDict [("fields", VList [VStr "id"])]) ;;
       member_id <- (if truthy members
                     then first <- lift (getitem_zero members) ;;
                          lift (getitem_key first "id")
                     else call_model "discuss.channel.member" "create"
                            (VList [VDict [("channel_id", channel_id);
                                           ("partner_id", partner_id)]])
                            default_kwargs) ;;
       ret [channel_id; member_id; partner_id])
    (fun e => ret [VNone; VNone; VNone]).

Definition test_rtc_session_with_member (channel_id member_id partner_id : pyval) : M bool :=
  try_except
    (let session_data :=
       VDict [("channel_id", channel_id); ("channel_member_id", member_id);
              ("partner_id", partner_id); ("is_camera_on", VBool true);
              ("is_muted", VBool false); ("is_screen_sharing_on", VBool false);
              ("is_deaf", VBool false)] in
     session_id <- call_model "discuss.channel.rtc.session" "create"
                     (VList [session_data]) default_kwargs ;;
     call_model "discuss.channel.rtc.session" "unlink" (VList [session_id])
       default_kwargs ;;;
     ret true)
    (fun e => ret false).

(** Only prints. *)
Definition generate_mobile_solution : M unit := ret tt.

(** [channel_id, member_id, partner_id = ...]: the tuple must have three
    components. *)
Definition unpack3 (t : list pyval) : outcome (pyval * pyval * pyval) :=
  match t with
  | [a; b; c] => Ret (a, b, c)
  | _ => if (List.length t <? 3)%nat
         then Raise (ValueError ("not enough values to unpack (expected 3, got "
                                 +:+ pretty (List.length t) +:+ ")"))
         else Raise (ValueError "too many values to unpack (expected 3)")
  end.

(** The method returns [None]. *)
Definition run_analysis : M unit :=
  ok <- authenticate ;;
  if negb ok then ret tt
  else
    required_fields <- analyze_rtc_issue ;;
    if existsb (String.eqb "channel_member_id") required_fields
    then
      t <- test_channel_member_creation ;;
      ids <- lift (unpack3 t) ;;
      let '(channel_id, member_id, partner_id) := ids in
      if truthy channel_id && truthy member_id && truthy partner_id
      then
        success <- test_rtc_session_with_member channel_id member_id partner_id ;;
        if success then generate_mobile_solution else ret tt
      else ret tt
    else ret tt.

End QuickWebrtcFix.

(** ** scripts/enhanced-clean-and-call-105.py, class EnhancedOdooCallInitiator *)

Module EnhancedCleanAndCall105.

(** The handler prints the failure and raises the exception it caught. *)
Definition call_model (model method : string) (args kwargs : pyval) : M pyval :=
  s <- get_self ;;
  models <- ServerProxy (url s +:+ "/xmlrpc/2/object") ;;
  try_except
    (db <- config_get "database" ;;
     u <- get_uid ;;
     key <- config_get "api_key" ;;
     result <- rpc_call models "execute_kw"
                 [db; u; key; VStr model; VStr method; args; kwargs] ;;
     ret result)
    (fun e => raise e).

(** The loop that prints each session about to be deleted:
    [session['id']] and [session['channel_id'][0]]. *)
Fixpoint show_sessions (sessions : list pyval) : M unit :=
  match sessions with
  | [] => ret tt
  | session :: rest =>
      lift (getitem_key session "id") ;;;
      channel <- lift (getitem_key session "channel_id") ;;
      lift (getitem_zero channel) ;;;
      show_sessions rest
  end.

Definition cleanup_existing_sessions (channel_id : pyval) : M bool :=
  try_except
    (let search_domain :=
       if truthy channel_id
       then [VList [VStr "channel_id"; VStr "="; channel_id]]
       else [] in
     existing_sessions <- call_model "discuss.channel.rtc.session" "search"
                            (VList [VList search_domain]) default_kwargs ;;
     (if truthy existing_sessions
      then lift (py_len existing_sessions) ;;;
           session_details <- call_model "discuss.channel.rtc.session" "read"
                                (VList [existing_sessions])
                                (VDict [("fields", VList [VStr "id"; VStr "channel_id";
                                                          VStr "partner_id";
                                                          VStr "create_date"])]) ;;
           sessions <- lift (py_iter session_details) ;;
           show_sessions sessions ;;;
           call_model "discuss.channel.rtc.session" "unlink"
             (VList [existing_sessions]) default_kwargs ;;;
           lift (py_len existing_sessions) ;;;
           ret tt
      else ret tt) ;;;
     ret true)
    (fun e => ret true).

Definition get_channel_info (channel_id : pyval) : M pyval :=
  try_except
    (channels <- call_model "discuss.channel" "read" (VList [channel_id])
                   (VDict [("fields", VList [VStr "id"; VStr "name"; VStr "channel_type";
                                             VStr "channel_member_ids"])]) ;;
     if truthy channels
     then channel <- lift (getitem_zero channels) ;;
          lift (getitem_key channel "name") ;;;
          lift (getitem_key channel "channel_type") ;;;
          members <- lift (getitem_key channel "channel_member_ids") ;;
          lift (py_len members) ;;;
          ret channel
     else ret VNone)
    (fun e => ret VNone).

Definition ensure_channel_member (channel_id partner_id : pyval) : M pyval :=
  try_except
    (members <- call_model "discuss.channel.member" "search_read"
                  (VList [VList [VList [VStr "channel_id"; VStr "="; channel_id];
                                 VList [VStr "partner_id"; VStr "="; partner_id]]])
                  (VDict [("fields", VList [VStr "id"; VStr "channel_id";
                                            VStr "partner_id"])]) ;;
     member_id <- (if truthy members
                   then first <- lift (getitem_zero members) ;;
                        member_id <- lift (getitem_key first "id") ;;
                        member_detail <- call_model "discuss.channel.member" "read"
                                           (VList [member_id])
                                           (VDict [("fields", VList [VStr "id";
                                                                     VStr "channel_id";
                                                                     VStr "partner_id";
                                                                     VStr "create_date"])]) ;;
                        (if truthy member_detail
                         then lift (getitem_zero member_detail) ;;; ret tt
                         else ret tt) ;;;
                        ret member_id
                   else call_model "discuss.channel.member" "create"
                          (VList [VDict [("channel_id", channel_id);
                                         ("partner_id", partner_id)]])
                          default_kwargs) ;;
     ret member_id)
    (fun e => ret VNone).

(** The fields the verification prints: [session_info['id']],
    [session_info['channel_id'][0]], [session_info['partner_id'][0]],
    [session_info['channel_member_id'][0]], [session_info['is_camera_on']],
    [session_info['is_muted']], [session_info['create_date']]. *)
Definition show_verification (verification : pyval) : M unit :=
  session_info <- lift (getitem_zero verification) ;;
  lift (getitem_key session_info "id") ;;;
  channel <- lift (getitem_key session_info "channel_id") ;;
  lift (getitem_zero channel) ;;;
  partner <- lift (getitem_key session_info "partner_id") ;;
  lift (getitem_zero partner) ;;;
  member <- lift (getitem_key session_info "channel_member_id") ;;
  lift (getitem_zero member) ;;;
  lift (getitem_key session_info "is_camera_on") ;;;
  lift (getitem_key session_info "is_muted") ;;;
  lift (getitem_key session_info "create_date") ;;;
  ret tt.

Definition create_rtc_session (channel_id member_id partner_id : pyval)
    (call_type : string) : M pyval :=
  try_except
    (let session_data :=
       VDict [("channel_id", channel_id); ("channel_member_id", member_id);
              ("partner_id", partner_id);
              ("is_camera_on", VBool (String.eqb call_type "video"));
              ("is_muted", VBool false); ("is_screen_sharing_on", VBool false);
              ("is_deaf", VBool false)] in
     session_id <- call_model "discuss.channel.rtc.session" "create"
                     (VList [session_data]) default_kwargs ;;
     verification <- call_model "discuss.channel.rtc.session" "read"
                       (VList [session_id])
                       (VDict [("fields", VList [VStr "id"; VStr "channel_id";
                                                 VStr "partner_id";
                                                 VStr "channel_member_id";
                                                 VStr "is_camera_on"; VStr "is_muted";
                                                 VStr "create_date"])]) ;;
     (if truthy verification then show_verification verification else ret tt) ;;;
     ret session_id)
    (fun e => ret VNone).

(** The countdown of [cleanup_session]: every ten seconds the session is
    searched for; [Some tt] is the [return] taken when it is gone. A failed
    check is reported and the countdown goes on. *)
Fixpoint watch_session (session_id : pyval) (ticks : list Z) : M (option unit) :=
  match ticks with
  | [] => ret None
  | _ :: rest =>
      r <- try_except
             (session_check <- call_model "discuss.channel.rtc.session" "search"
                                 (VList [VList [VList [VStr "id"; VStr "="; session_id]]])
                                 default_kwargs ;;
              if truthy session_check then ret None else ret (Some tt))
             (fun e => ret None) ;;
      match r with
      | Some _ => ret (Some tt)
      | None => sleep 10 ;;; watch_session session_id rest
      end
  end.

(** [delay_seconds] defaults to 60. The method returns [None]. *)
Definition cleanup_session (session_id : pyval) (delay_seconds : Z) : M unit :=
  try_except
    (r <- watch_session session_id (range_down delay_seconds 10) ;;
     match r with
     | Some _ => ret tt
     | None =>
         final_check <- call_model "discuss.channel.rtc.session" "search_read"
                          (VList [VList [VList [VStr "id"; VStr "="; session_id]]])
                          (VDict [("fields", VList [VStr "id"; VStr "create_date"])]) ;;
         if truthy final_check
         then call_model "discuss.channel.rtc.session" "unlink" (VList [session_id])
                default_kwargs ;;;
              ret tt
         else ret tt
     end)
    (fun e => ret tt).

(** The loop of [diagnose_rtc_sessions] over all sessions: the names of the
    channel and of the partner are looked up under a bare [except: pass];
    the six prints that follow are not protected. *)
Fixpoint describe_sessions (sessions : list pyval) : M unit :=
  match sessions with
  | [] => ret tt
  | session :: rest =>
      try_except
        (channel <- lift (getitem_key session "channel_id") ;;
         channel_id <- lift (getitem_zero channel) ;;
         channel_info <- call_model "discuss.channel" "read" (VList [channel_id])
                           (VDict [("fields", VList [VStr "name"])]) ;;
         if truthy channel_info
         then first <- lift (getitem_zero channel_info) ;;
              lift (getitem_key first "name") ;;;
              ret tt
         else ret tt)
        (fun e => ret tt) ;;;
      try_except
        (partner <- lift (getitem_key session "partner_id") ;;
         partner_id <- lift (getitem_zero partner) ;;
         partner_info <- call_model "res.partner" "read" (VList [partner_id])
                           (VDict [("fields", VList [VStr "name"])]) ;;
         if truthy partner_info
         then first <- lift (getitem_zero partner_info) ;;
              lift (getitem_key first "name") ;;;
              ret tt
         else ret tt)
        (fun e => ret tt) ;;;
      lift (getitem_key session "id") ;;;
      channel <- lift (getitem_key session "channel_id") ;;
      lift (getitem_zero channel) ;;;
      partner <- lift (getitem_key session "partner_id") ;;
      lift (getitem_zero partner) ;;;
      lift (getitem_key session "is_camera_on") ;;;
      lift (getitem_key session "is_muted") ;;;
      lift (getitem_key session "create_date") ;;;
      describe_sessions rest
  end.

(** The loop over the sessions of channel 105: one print each. *)
Fixpoint list_sessions (sessions : list pyval) : M unit :=
  match sessions with
  | [] => ret tt
  | session :: rest =>
      lift (getitem_key session "id") ;;;
      partner <- lift (getitem_key session "partner_id") ;;
      lift (getitem_zero partner) ;;;
      list_sessions rest
  end.

(** The method returns [None]. *)
Definition diagnose_rtc_sessions : M unit :=
  try_except
    (all_sessions <- call_model "discuss.channel.rtc.session" "search_read"
                       (VList [VList []])
                       (VDict [("fields", VList [VStr "id"; VStr "channel_id";
                                                 VStr "partner_id"; VStr "is_camera_on";
                                                 VStr "is_muted"; VStr "create_date"])]) ;;
     lift (py_len all_sessions) ;;;
     (if truthy all_sessions
      then sessions <- lift (py_iter all_sessions) ;;
           describe_sessions sessions
      else ret tt) ;;;
     channel_105_sessions <- call_model "discuss.channel.rtc.session" "search_read"
                               (VList [VList [VList [VStr "channel_id"; VStr "=";
                                                     VInt 105]]])
                               (VDict [("fields", VList [VStr "id"; VStr "partner_id";
                                                         VStr "is_camera_on";
                                                         VStr "is_muted"])]) ;;
     lift (py_len channel_105_sessions) ;;;
     sessions <- lift (py_iter channel_105_sessions) ;;
     list_sessions sessions)
    (fun e => ret tt).

(** The loop that prints [setting['key']] and [setting['value']]. *)
Fixpoint show_settings (settings : list pyval) : M unit :=
  match settings with
  | [] => ret tt
  | setting :: rest =>
      lift (getitem_key setting "key") ;;;
      lift (getitem_key setting "value") ;;;
      show_settings rest
  end.

(** The settings check sits in a [try] of its own with a bare [except]. The
    method returns [None]. *)
Definition test_audio_permissions : M unit :=
  try_except
    (u <- get_uid ;;
     user_prefs <- call_model "res.users" "read" (VList [u])
                     (VDict [("fields", VList [VStr "name"; VStr "email";
                                               VStr "partner_id"])]) ;;
     (if truthy user_prefs
      then user <- lift (getitem_zero user_prefs) ;;
           lift (getitem_key user "name") ;;;
           user <- lift (getitem_zero user_prefs) ;;
           lift (getitem_key user "email") ;;;
           user <- lift (getitem_zero user_prefs) ;;
           partner <- lift (getitem_key user "partner_id") ;;
           lift (getitem_zero partner) ;;;
           ret tt
      else ret tt) ;;;
     try_except
       (rtc_settings <- call_model "ir.config_parameter" "search_read"
                          (VList [VList [VList [VStr "key"; VStr "like"; VStr "rtc"]]])
                          (VDict [("fields", VList [VStr "key"; VStr "value"])]) ;;
        if truthy rtc_settings
        then settings <- lift (py_iter rtc_settings) ;;
             show_settings settings
        else ret tt)
       (fun e => ret tt))
    (fun e => ret tt).

End EnhancedCleanAndCall105.

(** ** clean-and-call-105.py, class OdooCallInitiator *)

Module CleanAndCall105.

Definition call_model (model method : string) (args kwargs : pyval) : M pyval :=
  s <- get_self ;;
  models <- ServerProxy (url s +:+ "/xmlrpc/2/object") ;;
  db <- config_get "database" ;;
  u <- get_uid ;;
  key <- config_get "api_key" ;;
  rpc_call models "execute_kw" [db; u; key; VStr model; VStr method; args; kwargs].

(** [channel_id] defaults to [None]. The two [print]s of
    [len(existing_sessions)] are evaluated around the [unlink] call. *)
Definition cleanup_existing_sessions (channel_id : pyval) : M bool :=
  try_except
    (let search_domain :=
       if truthy channel_id
       then [VList [VStr "channel_id"; VStr "="; channel_id]]
       else [] in
     existing_sessions <- call_model "discuss.channel.rtc.session" "search"
                            (VList [VList search_domain]) default_kwargs ;;
     (if truthy existing_sessions
      then lift (py_len existing_sessions) ;;;
           call_model "discuss.channel.rtc.session" "unlink"
             (VList [existing_sessions]) default_kwargs ;;;
           lift (py_len existing_sessions) ;;;
           ret tt
      else ret tt) ;;;
     ret true)
    (fun e => ret true).

Definition ensure_channel_member (channel_id partner_id : pyval) : M pyval :=
  try_except
    (members <- call_model "discuss.channel.member" "search_read"
                  (VList [VList [VList [VStr "channel_id"; VStr "="; channel_id];
                                 VList [VStr "partner_id"; VStr "="; partner_id]]])
                  (VDict [("fields", VList [VStr "id"])]) ;;
     member_id <- (if truthy members
                   then first <- lift (getitem_zero members) ;;
                        lift (getitem_key first "id")
                   else call_model "discuss.channel.member" "create"
                          (VList [VDict [("channel_id", channel_id);
                                         ("partner_id", partner_id)]])
                          default_kwargs) ;;
     ret member_id)
    (fun e => ret VNone).

Definition get_channel_info (channel_id : pyval) : M pyval :=
  try_except
    (channels <- call_model "discuss.channel" "read" (VList [channel_id])
                   (VDict [("fields", VList [VStr "id"; VStr "name"; VStr "channel_type";
                                             VStr "channel_member_ids"])]) ;;
     if truthy channels then lift (getitem_zero channels) else ret VNone)
    (fun e => ret VNone).

Definition create_rtc_session (channel_id member_id partner_id : pyval)
    (call_type : string) : M pyval :=
  try_except
    (let session_data :=
       VDict [("channel_id", channel_id); ("channel_member_id", member_id);
              ("partner_id", partner_id);
              ("is_camera_on", VBool (String.eqb call_type "video"));
              ("is_muted", VBool false); ("is_screen_sharing_on", VBool false);
              ("is_deaf", VBool false)] in
     session_id <- call_model "discuss.channel.rtc.session" "create"
                     (VList [session_data]) default_kwargs ;;
     ret session_id)
    (fun e => ret VNone).

(** The countdown [for i in range(delay_seconds, 0, -5)] prints and sleeps
    five seconds. *)
Fixpoint count_down (ticks : list Z) : M unit :=
  match ticks with
  | [] => ret tt
  | _ :: rest => sleep 5 ;;; count_down rest
  end.

(** [delay_seconds] defaults to 45. The method returns [None]. *)
Definition cleanup_session (session_id : pyval) (delay_seconds : Z) : M unit :=
  try_except
    (count_down (range_down delay_seconds 5) ;;;
     call_model "discuss.channel.rtc.session" "unlink" (VList [session_id])
       default_kwargs ;;;
     ret tt)
    (fun e => ret tt).

Definition authenticate : M bool :=
  s <- get_self ;;
  common <- ServerProxy (url s +:+ "/xmlrpc/2/common") ;;
  r <- try_except
         (db <- config_get "database" ;;
          user <- config_get "username" ;;
          key <- config_get "api_key" ;;
          v <- rpc_call common "authenticate" [db; user; key; VDict []] ;;
          set_uid v ;;;
          u <- get_uid ;;
          if truthy u then ret (Some true) else ret None)
         (fun e => ret None) ;;
  match r with
  | Some b => ret b
  | None => ret false
  end.

(** The f-string of [send_call_notification_message] after [.strip()]: the
    text starts at the bell and ends at the last exclamation mark. *)
Definition call_message (call_type caller_name session_id : string) : string :=
  "🔔 <strong>INCOMING " +:+ py_upper call_type +:+ " CALL</strong> 🔔" +:+ nl +:+
  nl +:+
  "📞 From: " +:+ caller_name +:+ nl +:+
  "🎯 RTC Session: " +:+ session_id +:+ nl +:+
  "📱 Channel: 105" +:+ nl +:+
  nl +:+
  "🌐 <strong>CHECK ODOO WEB INTERFACE NOW!</strong>" +:+ nl +:+
  "• Go to General Settings → RTC sessions" +:+ nl +:+
  "• Look for active call notification" +:+ nl +:+
  "• You should see " +:+ dquote +:+ "Join Call" +:+ dquote +:+ " button" +:+ nl +:+
  nl +:+
  "🎉 This RTC session makes Odoo web show an active call!".

Definition send_call_notification_message (channel_id session_id : pyval)
    (call_type : string) : M bool :=
  try_except
    (u <- get_uid ;;
     user_data <- call_model "res.users" "read" (VList [u])
                    (VDict [("fields", VList [VStr "name"])]) ;;
     caller_name <- (if truthy user_data
                     then first <- lift (getitem_zero user_data) ;;
                          lift (getitem_key first "name")
                     else ret (VStr "CLI Caller")) ;;
     h <- get_host ;;
     call_model "discuss.channel" "message_post" (VList [channel_id])
       (VDict [("body", VStr (call_message call_type (py_str h caller_name)
                                (py_str h session_id)));
               ("message_type", VStr "comment");
               ("subject", VStr ("🔔 INCOMING " +:+ py_upper call_type +:+ " CALL"))]) ;;;
     ret true)
    (fun e => ret false).

(** Only prints; the one that can fail is the print of
    [channel_info['name']]. The method returns [None]. *)
Definition show_success_info (session_id channel_info : pyval) (call_type : string) : M unit :=
  lift (getitem_key channel_info "name") ;;;
  ret tt.

(** The user lookup returns [False] from its handler; the print of the
    channel's name and type is outside every [try]. *)
Definition initiate_call (channel_id : pyval) (call_type : string) : M bool :=
  cleanup_existing_sessions channel_id ;;;
  r <- try_except
         (u <- get_uid ;;
          user_data <- call_model "res.users" "read" (VList [u])
                         (VDict [("fields", VList [VStr "partner_id"; VStr "name"])]) ;;
          user <- lift (getitem_zero user_data) ;;
          partner <- lift (getitem_key user "partner_id") ;;
          partner_id <- lift (getitem_zero partner) ;;
          user' <- lift (getitem_zero user_data) ;;
          lift (getitem_key user' "name") ;;;
          ret (Some partner_id))
         (fun e => ret None) ;;
  match r with
  | None => ret false
  | Some partner_id =>
      channel_info <- get_channel_info channel_id ;;
      if negb (truthy channel_info) then ret false
      else
        lift (getitem_key channel_info "name") ;;;
        lift (getitem_key channel_info "channel_type") ;;;
        member_id <- ensure_channel_member channel_id partner_id ;;
        if negb (truthy member_id) then ret false
        else
          session_id <- create_rtc_session channel_id member_id partner_id call_type ;;
          if negb (truthy session_id) then ret false
          else
            send_call_notification_message channel_id session_id call_type ;;;
            show_success_info session_id channel_info call_type ;;;
            cleanup_session session_id 45 ;;;
            ret true
  end.

(** The banner prints three entries of the configuration before anything
    is sent. *)
Definition run : M bool :=
  config_get "database" ;;;
  config_get "username" ;;;
  config_get "target_channel_id" ;;;
  ok <- authenticate ;;
  if negb ok then ret false
  else
    target <- config_get "target_channel_id" ;;
    initiate_call target "audio".

End CleanAndCall105.

(** ** Sequences of invocations, expected requests *)

(** One invocation a script makes: model, method, positional and named
    arguments. *)
Record call : Type := Call {
  call_name : string;
  call_method : string;
  call_args : pyval;
  call_kwargs : pyval
}.

(** The invocations of [cs] one after the other on the same client, each
    outcome recorded (a script wraps each in its own [try]). *)
Fixpoint run_calls (invoke : string -> string -> pyval -> pyval -> M pyval)
    (cs : list call) (w : world) : list (outcome pyval) * world :=
  match cs with
  | [] => ([], w)
  | c :: r =>
      let (o, w1) := invoke (call_name c) (call_method c) (call_args c) (call_kwargs c) w in
      let (os, w2) := run_calls invoke r w1 in
      (o :: os, w2)
  end.

(** The parameters of an [execute_kw] request, in order: database, handle,
    secret, model, method, positional arguments, named arguments. *)
Definition execute_kw_params (db handle secret : pyval) (model method : string)
    (args kwargs : pyval) : list pyval :=
  [db; handle; secret; VStr model; VStr method; args; kwargs].

Definition execute_kw_request (c : obj) (db secret : pyval) (model method : string)
    (args kwargs : pyval) : rpc :=
  Rpc (url c +:+ "/xmlrpc/2/object") "execute_kw"
      (execute_kw_params db (uid c) secret model method args kwargs).

Definition authenticate_request (c : obj) (db user secret : pyval) : rpc :=
  Rpc (url c +:+ "/xmlrpc/2/common") "authenticate" [db; user; secret; VDict []].

(** The two requests of the create-if-absent pattern on
    [discuss.channel.member]. *)
Definition member_search (c : obj) (db key channel_id partner_id : pyval) : rpc :=
  execute_kw_request c db key "discuss.channel.member" "search_read"
    (VList [VList [VList [VStr "channel_id"; VStr "="; channel_id];
                   VList [VStr "partner_id"; VStr "="; partner_id]]])
    (VDict [("fields", VList [VStr "id"])]).

Definition member_create (c : obj) (db key channel_id partner_id : pyval) : rpc :=
  execute_kw_request c db key "discuss.channel.member" "create"
    (VList [VDict [("channel_id", channel_id); ("partner_id", partner_id)]])
    default_kwargs.

(** An answer of the authentication endpoint that grants nothing: a fault, or
    a value that is not a handle. *)
Definition rejected (r : response) : bool :=
  match r with
  | Returns v => negb (truthy v)
  | Faults _ => true
  end.

(** The value of [self.uid] once the assignment
    [self.uid = common.authenticate(...)] has met answer [r]: a fault leaves
    the assignment unexecuted. *)
Definition stored (r : response) (old : pyval) : pyval :=
  match r with
  | Returns v => v
  | Faults _ => old
  end.


(** The handle a request carries: its second parameter. *)
Definition handle_of (rq : rpc) : option pyval := nth_error (rpc_params rq) 1.

(** The verdict of the probe on one attempt, in the words of its messages:
    the method exists unless the attempt raised an exception whose text
    contains ['does not exist']. *)
Definition classified_existing (o : outcome pyval) : bool :=
  match o with
  | Ret _ => true
  | Raise e => negb (contains "does not exist" (exn_str e))
  end.

(** [m] sends at most [n] requests, whatever the state it starts in. *)
Definition sends_at_most {A : Type} (n : nat) (m : M A) : Prop :=
  forall w, exists l, sent (snd (m w)) = sent w ++ l /\ (List.length l <= n)%nat.

(** Either nothing leaves the process and the state is untouched, or exactly
    the expected request leaves and its answer is the outcome. *)
Inductive invocation (secret_key : string) (w : world) (model method : string)
    (args kwargs : pyval) : outcome pyval * world -> Prop :=
| invocation_unsent (e : exn) :
    invocation secret_key w model method args kwargs (Raise e, w)
| invocation_sent (db secret : pyval) :
    supported (host w) (url (self w) +:+ "/xmlrpc/2/object") = true ->
    config (self w) !! "database" = Some db ->
    config (self w) !! secret_key = Some secret ->
    dumps (execute_kw_params db (uid (self w)) secret model method args kwargs) = None ->
    invocation secret_key w model method args kwargs
      (answer w (execute_kw_request (self w) db secret model method args kwargs),
       after_send w (execute_kw_request (self w) db secret model method args kwargs)).

(** ** Vocabulary for what a method does to the state *)

(** The model, the method and the positional arguments an [execute_kw]
    request names: its fourth, fifth and sixth parameters. *)
Definition model_of (rq : rpc) : option pyval := nth_error (rpc_params rq) 3.
Definition method_of (rq : rpc) : option pyval := nth_error (rpc_params rq) 4.
Definition args_of (rq : rpc) : option pyval := nth_error (rpc_params rq) 5.

(** [rq] is the invocation of [method] on [model] with these arguments. *)
Definition is_invocation (model method : string) (args kwargs : pyval) (rq : rpc) : Prop :=
  exists db handle secret,
    rpc_params rq = execute_kw_params db handle secret model method args kwargs.

(** [rq] is an invocation that carries handle [h]. *)
Definition carries (h : pyval) (rq : rpc) : Prop :=
  rpc_method rq = "execute_kw" /\ handle_of rq = Some h.

(** [m] assigns no attribute of the client and sends at most [n] requests,
    each an invocation that carries the stored handle and satisfies [P]. *)
Definition invokes {A : Type} (n : nat) (P : rpc -> Prop) (m : M A) : Prop :=
  forall w,
    self (snd (m w)) = self w /\ written (snd (m w)) = written w /\
    host (snd (m w)) = host w /\
    exists l, sent (snd (m w)) = sent w ++ l /\ (List.length l <= n)%nat /\
              Forall (fun rq => carries (uid (self w)) rq /\ P rq) l.

Definition never_raises {A : Type} (m : M A) : Prop :=
  forall w, exists a, fst (m w) = Ret a.

(** The client can reach the object endpoint: the proxy is accepted, the two
    configuration entries exist and, with the stored handle, can be
    marshalled. *)
Definition ready (secret_key : string) (w : world) (db secret : pyval) : Prop :=
  supported (host w) (url (self w) +:+ "/xmlrpc/2/object") = true /\
  config (self w) !! "database" = Some db /\
  config (self w) !! secret_key = Some secret /\
  dumps [db; uid (self w); secret] = None.

(** [rq] names one of [methods]. *)
Definition calls (methods : list string) (rq : rpc) : Prop :=
  exists method, In method methods /\ method_of rq = Some (VStr method).

(** [m] assigns no attribute of the client, and every request it sends is an
    invocation that carries the stored handle and satisfies [P]; how many
    there are may depend on what the endpoint answers. *)
Definition only_invokes {A : Type} (P : rpc -> Prop) (m : M A) : Prop :=
  forall w,
    self (snd (m w)) = self w /\ written (snd (m w)) = written w /\
    host (snd (m w)) = host w /\
    exists l, sent (snd (m w)) = sent w ++ l /\
              Forall (fun rq => carries (uid (self w)) rq /\ P rq) l.


(** ** A concrete platform to run the scripts on *)

(** [str] on the values a URL is made of. *)
Definition demo_str (v : pyval) : string :=
  match v with
  | VStr s => s
  | VInt n => pretty n
  | VBool true => "True"
  | VBool false => "False"
  | VNone => "None"
  | _ => ""
  end.

Definition demo_scheme (u : string) : string :=
  if String.prefix "https://" u then "https"
  else if String.prefix "http://" u then "http"
  else "".

Definition demo_config : gmap string pyval :=
  list_to_map [("host", VStr "odoo.example.com"); ("port", VInt 443);
               ("database", VStr "db"); ("username", VStr "user");
               ("password", VStr "pw"); ("api_key", VStr "key");
               ("protocol", VStr "https")].

Definition secret_is (rq : rpc) (s : string) : bool :=
  match nth 2 (rpc_params rq) VNone with
  | VStr k => String.eqb k s
  | _ => false
  end.

Definition method_is (rq : rpc) (s : string) : bool :=
  match nth 4 (rpc_params rq) VNone with
  | VStr k => String.eqb k s
  | _ => false
  end.

(** Grants handle 7 to the API key and [False] to anything else; echoes the
    parameters of every invocation. *)
Definition key_only_server (history : list rpc) (rq : rpc) : response :=
  if String.eqb (rpc_method rq) "authenticate"
  then if secret_is rq "key" then Returns (VInt 7) else Returns (VBool false)
  else Returns (VList (rpc_params rq)).

(** Grants nothing. *)
Definition rejecting_server (history : list rpc) (rq : rpc) : response :=
  if String.eqb (rpc_method rq) "authenticate"
  then Returns (VBool false)
  else Faults (Exn "Fault" "<Fault 3: 'Access Denied'>").

(** Channel 105 has one member record, 42; creating one yields 43. *)
Definition member_server (history : list rpc) (rq : rpc) : response :=
  if method_is rq "search_read" then Returns (VList [VDict [("id", VInt 42)]])
  else if method_is rq "create" then Returns (VInt 43)
  else Returns (VBool true).

(** No member record yet. *)
Definition no_member_server (history : list rpc) (rq : rpc) : response :=
  if method_is rq "search_read" then Returns (VList [])
  else if method_is rq "create" then Returns (VInt 43)
  else Returns (VBool true).

(** One channel; [rtc_join_call] is missing on the model, the other probed
    methods fail on their arguments. *)
Definition probe_server (history : list rpc) (rq : rpc) : response :=
  if method_is rq "search_read"
  then Returns (VList [VDict [("id", VInt 5); ("name", VStr "general");
                              ("channel_type", VStr "channel")]])
  else if method_is rq "rtc_join_call"
  then Faults (Exn "Fault"
         "<Fault 1: 'The method discuss.channel.rtc_join_call does not exist'>")
  else Faults (Exn "Fault" "<Fault 1: 'missing 1 required positional argument'>").

(** Only [bus.bus] answers, and only to [create]: the older entry points are
    gone. *)
Definition bus_server (history : list rpc) (rq : rpc) : response :=
  if method_is rq "read" then Returns (VList [VDict [("name", VStr "Caller")]])
  else if method_is rq "create" then Returns (VInt 1)
  else Faults (Exn "Fault" "<Fault 1: 'Private methods cannot be called remotely'>").

(** Channel 105 is known by name only. *)
Definition bare_channel_server (history : list rpc) (rq : rpc) : response :=
  if method_is rq "read"
  then Returns (VList [VDict [("id", VInt 105); ("name", VStr "general")]])
  else Returns (VBool true).

(** Grants handle 7 and answers each invocation by the entry of [answers]
    for its method, [True] when there is none. *)
Definition table_server (answers : list (string * response))
    (history : list rpc) (rq : rpc) : response :=
  if String.eqb (rpc_method rq) "authenticate" then Returns (VInt 7)
  else match find (fun a => method_is rq (fst a)) answers with
       | Some a => snd a
       | None => Returns (VBool true)
       end.

Definition access_denied : response := Faults (Exn "Fault" "<Fault 3: 'Access Denied'>").

(** A description of three fields of the session model, two of them
    required. *)
Definition rtc_fields : list (string * pyval) :=
  [("channel_id", VDict [("type", VStr "many2one"); ("required", VBool true)]);
   ("channel_member_id", VDict [("type", VStr "many2one"); ("required", VBool true)]);
   ("is_muted", VDict [("type", VStr "boolean")])].

(** The session model requires [channel_member_id]; the user is partner 3;
    there is no channel. *)
Definition no_channel_server : list rpc -> rpc -> response :=
  table_server [("fields_get", Returns (VDict rtc_fields));
                ("read", Returns (VList [VDict [("partner_id",
                                                 VList [VInt 3; VStr "Caller"])]]));
                ("search", Returns (VList []))].

Definition model_is (rq : rpc) (s : string) : bool :=
  match nth 3 (rpc_params rq) VNone with
  | VStr k => String.eqb k s
  | _ => false
  end.


Definition demo_platform (server : list rpc -> rpc -> response) : platform :=
  Platform demo_str demo_scheme server.

(** A client as the constructor leaves it, on [demo_config]. *)
Definition fresh_client : obj :=
  Obj demo_config VNone "https://odoo.example.com:443".

Definition fresh_world (server : list rpc -> rpc -> response) : world :=
  World fresh_client [] [] (demo_platform server).

(** A client holding handle 7. *)
Definition logged_in_world (server : list rpc -> rpc -> response) : world :=
  World (Obj demo_config (VInt 7) "https://odoo.example.com:443") [] []
        (demo_platform server).

(** Two sessions, the second one without its creation date; every other
    invocation is answered with an empty list. *)
Definition session_server (history : list rpc) (rq : rpc) : response :=
  if method_is rq "search_read" && model_is rq "discuss.channel.rtc.session"
  then Returns (VList [VDict [("id", VInt 1); ("channel_id", VList [VInt 105; VStr "general"]);
                              ("partner_id", VList [VInt 3; VStr "Caller"]);
                              ("is_camera_on", VBool false); ("is_muted", VBool false);
                              ("create_date", VStr "2025-01-01 10:00:00")];
                       VDict [("id", VInt 2); ("channel_id", VList [VInt 105; VStr "general"]);
                              ("partner_id", VList [VInt 4; VStr "Callee"]);
                              ("is_camera_on", VBool false); ("is_muted", VBool false)]])
  else Returns (VList []).


(** * Properties *)

Example init_demo : __init__ (demo_platform key_only_server) demo_config = Ret fresh_client.
Proof. vm_compute. reflexivity. Qed.

Example auth_demo :
  fst (CallChannel105Fixed.authenticate (fresh_world key_only_server)) = Ret true.
Proof. vm_compute. reflexivity. Qed.

(** ** What one invocation does *)

Ltac run_monad :=
  unfold bind, ret, raise, lift, try_except, get_self, get_uid, set_uid,
    config_get, config_set, ServerProxy, rpc_call in *.

Lemma call_model_invocation w model method args kwargs :
  invocation "api_key" w model method args kwargs
    (CallChannel105Fixed.call_model model method args kwargs w).
Proof.
  unfold CallChannel105Fixed.call_model. run_monad.
  destruct (supported (host w) (url (self w) +:+ "/xmlrpc/2/object")) eqn:Hs;
    [| apply invocation_unsent].
  destruct (config (self w) !! "database") as [db|] eqn:Hdb; [| apply invocation_unsent].
  destruct (config (self w) !! "api_key") as [key|] eqn:Hkey; [| apply invocation_unsent].
  destruct (dumps [db; uid (self w); key; VStr model; VStr method; args; kwargs]) eqn:Hd;
    [apply invocation_unsent |].
  apply (invocation_sent "api_key" w model method args kwargs db key); assumption.
Qed.

Lemma try_except_reraise {A : Type} (m : M A) (w : world) :
  try_except m (fun e => raise e) w = m w.
Proof. unfold try_except, raise. destruct (m w) as [[a|e] w']; reflexivity. Qed.

Lemma bind_ret_r {A : Type} (m : M A) (w : world) :
  bind m (fun a => ret a) w = m w.
Proof. unfold bind, ret. destruct (m w) as [[a|e] w']; reflexivity. Qed.

Ltac split_scrutinee :=
  match goal with
  | |- context [match ?x with _ => _ end] =>
      lazymatch x with
      | context [match _ with _ => _ end] => fail
      | _ => destruct x eqn:?
      end
  | |- context [if ?x then _ else _] =>
      lazymatch x with
      | context [match _ with _ => _ end] => fail
      | _ => destruct x eqn:?
      end
  end.

Lemma enhanced_call_model_eq w model method args kwargs :
  EnhancedCleanAndCall105.call_model model method args kwargs w =
  CallChannel105Fixed.call_model model method args kwargs w.
Proof.
  unfold EnhancedCleanAndCall105.call_model, CallChannel105Fixed.call_model.
  run_monad. repeat (split_scrutinee; try reflexivity).
Qed.

Lemma enhanced_call_model_invocation w model method args kwargs :
  invocation "api_key" w model method args kwargs
    (EnhancedCleanAndCall105.call_model model method args kwargs w).
Proof. rewrite enhanced_call_model_eq. apply call_model_invocation. Qed.

Lemma debug_call_model_invocation w model method args kwargs :
  invocation "password" w model method args kwargs
    (DebugWebrtc.call_model model method args kwargs w).
Proof.
  unfold DebugWebrtc.call_model. run_monad.
  destruct (supported (host w) (url (self w) +:+ "/xmlrpc/2/object")) eqn:Hs;
    [| apply invocation_unsent].
  destruct (config (self w) !! "database") as [db|] eqn:Hdb; [| apply invocation_unsent].
  destruct (config (self w) !! "password") as [key|] eqn:Hkey; [| apply invocation_unsent].
  destruct (dumps [db; uid (self w); key; VStr model; VStr method; args; kwargs]) eqn:Hd;
    [apply invocation_unsent |].
  pose proof (invocation_sent "password" w model method args kwargs db key Hs Hdb Hkey Hd) as H.
  unfold execute_kw_request, execute_kw_params in H.
  destruct (answer w _) eqn:Ha in H |- *; exact H.
Qed.

Lemma init_uid h cfg c : __init__ h cfg = Ret c -> uid c = VNone /\ config c = cfg.
Proof.
  unfold __init__. intros H.
  destruct (cfg !! "protocol"); [| discriminate].
  destruct (cfg !! "host"); [| discriminate].
  destruct (cfg !! "port"); [| discriminate].
  injection H as <-. split; reflexivity.
Qed.

Lemma dumps_without_handle db secret model method args kwargs :
  dumps (execute_kw_params db VNone secret model method args kwargs) <> None.
Proof.
  unfold execute_kw_params. cbn [dumps]. destruct (dump db); discriminate.
Qed.

Lemma invocation_without_handle secret_key w model method args kwargs r :
  uid (self w) = VNone ->
  invocation secret_key w model method args kwargs r ->
  exists e, r = (Raise e, w).
Proof.
  intros Hu H. destruct H as [e | db secret Hs Hdb Hkey Hd].
  - exists e. reflexivity.
  - rewrite Hu in Hd. exfalso. exact (dumps_without_handle _ _ _ _ _ _ Hd).
Qed.

Lemma call_model_sends w model method args kwargs db key :
  supported (host w) (url (self w) +:+ "/xmlrpc/2/object") = true ->
  config (self w) !! "database" = Some db ->
  config (self w) !! "api_key" = Some key ->
  dumps [db; uid (self w); key; VStr model; VStr method; args; kwargs] = None ->
  CallChannel105Fixed.call_model model method args kwargs w =
  (answer w (execute_kw_request (self w) db key model method args kwargs),
   after_send w (execute_kw_request (self w) db key model method args kwargs)).
Proof.
  intros Hs Hdb Hkey Hd. unfold CallChannel105Fixed.call_model. run_monad.
  rewrite Hs, Hdb, Hkey, Hd. reflexivity.
Qed.

Lemma debug_call_model_sends w model method args kwargs db pw :
  supported (host w) (url (self w) +:+ "/xmlrpc/2/object") = true ->
  config (self w) !! "database" = Some db ->
  config (self w) !! "password" = Some pw ->
  dumps [db; uid (self w); pw; VStr model; VStr method; args; kwargs] = None ->
  DebugWebrtc.call_model model method args kwargs w =
  (answer w (execute_kw_request (self w) db pw model method args kwargs),
   after_send w (execute_kw_request (self w) db pw model method args kwargs)).
Proof.
  intros Hs Hdb Hkey Hd. unfold DebugWebrtc.call_model. run_monad.
  rewrite Hs, Hdb, Hkey, Hd. unfold execute_kw_request, execute_kw_params.
  destruct (answer w _); reflexivity.
Qed.

Lemma ready_after_send secret_key w db secret rq :
  ready secret_key w db secret -> ready secret_key (after_send w rq) db secret.
Proof. intros H. exact H. Qed.

Lemma ready_dumps secret_key w db secret model method args kwargs :
  ready secret_key w db secret ->
  dump args = None -> dump kwargs = None ->
  dumps [db; uid (self w); secret; VStr model; VStr method; args; kwargs] = None.
Proof.
  intros (_ & _ & _ & Hd) Ha Hk. revert Hd. cbn [dumps dump].
  destruct (dump db); [discriminate |].
  destruct (dump (uid (self w))); [discriminate |].
  destruct (dump secret); [discriminate |].
  rewrite Ha, Hk. reflexivity.
Qed.

(** C2 as stated fails. [authenticate] has not succeeded: the endpoint
    turned the credentials down and [authenticate] returned [False], leaving
    that [False] in [uid]. The invocation made next is not held back: its
    request, with [False] in the place of the handle, goes to the object
    endpoint. *)
Lemma invoke_before_authenticate_counterexample :
  let w := snd (CallChannel105Fixed.authenticate (fresh_world rejecting_server)) in
  let rq := execute_kw_request (self w) (VStr "db") (VStr "key") "res.users" "read"
              default_args default_kwargs in
  fst (CallChannel105Fixed.authenticate (fresh_world rejecting_server)) = Ret false /\
  uid (self w) = VBool false /\
  rpc_uri rq = "https://odoo.example.com:443/xmlrpc/2/object" /\
  handle_of rq = Some (VBool false) /\
  sent (snd (CallChannel105Fixed.call_model "res.users" "read" default_args default_kwargs w))
  = sent w ++ [rq] /\
  sent (snd (QuickWebrtcFix.call_model "res.users" "read" default_args default_kwargs w))
  = sent w ++ [rq] /\
  ~ (exists e, CallChannel105Fixed.call_model "res.users" "read" default_args
                 default_kwargs w = (Raise e, w)) /\
  ~ (exists e, QuickWebrtcFix.call_model "res.users" "read" default_args
                 default_kwargs w = (Raise e, w)).
Proof.
  cbv zeta. repeat split; try (vm_compute; reflexivity).
  - intros [e He]. apply (f_equal (fun r => List.length (sent (snd r)))) in He.
    vm_compute in He. discriminate He.
  - intros [e He]. apply (f_equal (fun r => List.length (sent (snd r)))) in He.
    vm_compute in He. discriminate He.
Qed.

(** C2, amended. An invocation is held back by marshalling alone. On a
    client whose [uid] is still the [None] of the constructor it raises and
    leaves the state it found: nothing was sent (the handle cannot be
    marshalled, so the call fails before the round trip, if not earlier). It
    does not ask whether [authenticate] succeeded: once the proxy is built,
    the two configuration entries are found and the stored value, the
    arguments and the named arguments can be marshalled, the request is sent
    and its answer is the outcome, whatever the stored value is. *)
Theorem invoke_held_back_by_marshalling_only w model method args kwargs :
  (uid (self w) = VNone ->
   (exists e, CallChannel105Fixed.call_model model method args kwargs w = (Raise e, w)) /\
   (exists e, QuickWebrtcFix.call_model model method args kwargs w = (Raise e, w))) /\
  (forall db key,
     ready "api_key" w db key -> dump args = None -> dump kwargs = None ->
     let rq := execute_kw_request (self w) db key model method args kwargs in
     CallChannel105Fixed.call_model model method args kwargs w =
     (answer w rq, after_send w rq) /\
     QuickWebrtcFix.call_model model method args kwargs w =
     (answer w rq, after_send w rq)).
Proof.
  split.
  - intros Hu. split.
    + apply (invocation_without_handle "api_key" w model method args kwargs _ Hu).
      apply call_model_invocation.
    + apply (invocation_without_handle "api_key" w model method args kwargs _ Hu).
      exact (call_model_invocation w model method args kwargs).
  - intros db key Hready Ha Hk rq.
    pose proof Hready as (Hs & Hdb & Hkey & _).
    pose proof (ready_dumps "api_key" w db key model method args kwargs Hready Ha Hk) as Hd.
    split.
    + exact (call_model_sends w model method args kwargs db key Hs Hdb Hkey Hd).
    + exact (call_model_sends w model method args kwargs db key Hs Hdb Hkey Hd).
Qed.

Lemma invoke_held_back_witness :
  (exists e, CallChannel105Fixed.call_model "res.users" "read" default_args default_kwargs
               (fresh_world key_only_server) = (Raise e, fresh_world key_only_server)) /\
  (exists e, QuickWebrtcFix.call_model "res.users" "read" default_args default_kwargs
               (fresh_world key_only_server) = (Raise e, fresh_world key_only_server)) /\
  let w := snd (CallChannel105Fixed.authenticate (fresh_world rejecting_server)) in
  fst (QuickWebrtcFix.call_model "res.users" "read" default_args default_kwargs w) =
  Raise (Exn "Fault" "<Fault 3: 'Access Denied'>") /\
  List.length (sent (snd (QuickWebrtcFix.call_model "res.users" "read" default_args
                            default_kwargs w))) = 2%nat.
Proof.
  destruct (invoke_held_back_by_marshalling_only (fresh_world key_only_server)
              "res.users" "read" default_args default_kwargs) as [Hnone _].
  destruct (Hnone eq_refl) as [H1 H2].
  split; [exact H1 |]. split; [exact H2 |].
  cbv zeta.
  destruct (invoke_held_back_by_marshalling_only
              (snd (CallChannel105Fixed.authenticate (fresh_world rejecting_server)))
              "res.users" "read" default_args default_kwargs) as [_ Hsent].
  destruct (Hsent (VStr "db") (VStr "key")) as [_ Hquick].
  - repeat split; reflexivity.
  - reflexivity.
  - reflexivity.
  - rewrite Hquick. split; reflexivity.
Defined.

Lemma app_one_inv {A : Type} (l : list A) (x y : A) : l ++ [x] = l ++ [y] -> x = y.
Proof. intros H. apply app_inv_head in H. congruence. Qed.

Lemma app_one_neq {A : Type} (l : list A) (x : A) : l <> l ++ [x].
Proof.
  intros H. apply (f_equal (@List.length A)) in H.
  rewrite List.length_app in H. cbn in H. lia.
Qed.

Lemma invocation_shape secret_key w model method args kwargs r :
  invocation secret_key w model method args kwargs r ->
  (forall l, sent (snd r) = sent w ++ l ->
     l = [] \/
     exists db secret,
       config (self w) !! "database" = Some db /\
       config (self w) !! secret_key = Some secret /\
       l = [Rpc (url (self w) +:+ "/xmlrpc/2/object") "execute_kw"
                [db; uid (self w); secret; VStr model; VStr method; args; kwargs]]) /\
  (forall rq v, sent (snd r) = sent w ++ [rq] ->
     respond (host w) (sent w) rq = Returns v -> fst r = Ret v).
Proof.
  intros [e | db secret Hs Hdb Hkey Hd]; cbn [fst snd after_send sent]; split.
  - intros l Hl. left. rewrite <- (app_nil_r (sent w)) in Hl at 1.
    apply app_inv_head in Hl. symmetry. exact Hl.
  - intros rq v Hsent. exfalso. exact (app_one_neq _ _ Hsent).
  - intros l Hl. right. exists db, secret. apply app_inv_head in Hl.
    repeat split; try assumption. symmetry. exact Hl.
  - intros rq v Hsent Hv. apply app_one_inv in Hsent. rewrite Hsent.
    unfold answer. rewrite Hv. reflexivity.
Qed.

(** C3. Whatever an invocation sends is one request to the object endpoint
    whose parameters are, in this order, the configured database name, the
    stored handle, the secret, the model name, the method name, the
    positional arguments and the named arguments; a value the endpoint
    returns for it is the value of the invocation, unchanged. The request
    does leave once the proxy is built, the two configuration entries are
    found and the payload is marshalled (any client holding a handle the
    server issued, any XML-RPC arguments). *)
Theorem invoke_payload_and_passthrough w model method args kwargs :
  let holds (invoke : string -> string -> pyval -> pyval -> M pyval) :=
    (forall l, sent (snd (invoke model method args kwargs w)) = sent w ++ l ->
       l = [] \/
       exists db key,
         config (self w) !! "database" = Some db /\
         config (self w) !! "api_key" = Some key /\
         l = [Rpc (url (self w) +:+ "/xmlrpc/2/object") "execute_kw"
                  [db; uid (self w); key; VStr model; VStr method; args; kwargs]]) /\
    (forall rq v, sent (snd (invoke model method args kwargs w)) = sent w ++ [rq] ->
       respond (host w) (sent w) rq = Returns v ->
       fst (invoke model method args kwargs w) = Ret v) /\
    (forall db key,
       supported (host w) (url (self w) +:+ "/xmlrpc/2/object") = true ->
       config (self w) !! "database" = Some db ->
       config (self w) !! "api_key" = Some key ->
       dumps [db; uid (self w); key; VStr model; VStr method; args; kwargs] = None ->
       sent (snd (invoke model method args kwargs w)) =
         sent w ++ [Rpc (url (self w) +:+ "/xmlrpc/2/object") "execute_kw"
                        [db; uid (self w); key; VStr model; VStr method; args; kwargs]] /\
       self (snd (invoke model method args kwargs w)) = self w) in
  holds CallChannel105Fixed.call_model /\ holds EnhancedCleanAndCall105.call_model.
Proof.
  intros holds.
  assert (H : holds CallChannel105Fixed.call_model).
  { unfold holds.
    destruct (invocation_shape "api_key" w model method args kwargs _
                (call_model_invocation w model method args kwargs)) as [Hshape Hpass].
    split; [exact Hshape |]. split; [exact Hpass |].
    intros db key Hs Hdb Hkey Hd.
    rewrite (call_model_sends w model method args kwargs db key Hs Hdb Hkey Hd).
    split; reflexivity. }
  split; [exact H |].
  unfold holds in *.
  destruct H as (H1 & H2 & H3).
  repeat split.
  - intros l. rewrite enhanced_call_model_eq. apply H1.
  - intros rq v. rewrite enhanced_call_model_eq. apply H2.
  - rewrite enhanced_call_model_eq. apply (H3 db key); assumption.
  - rewrite enhanced_call_model_eq. apply (H3 db key); assumption.
Qed.

Lemma invoke_payload_witness :
  sent (snd (CallChannel105Fixed.call_model "modelX" "methodY"
               (VList [VInt 1; VInt 2]) (VDict [("k", VStr "v")])
               (logged_in_world key_only_server))) =
  [Rpc "https://odoo.example.com:443/xmlrpc/2/object" "execute_kw"
       [VStr "db"; VInt 7; VStr "key"; VStr "modelX"; VStr "methodY";
        VList [VInt 1; VInt 2]; VDict [("k", VStr "v")]]] /\
  fst (CallChannel105Fixed.call_model "modelX" "methodY"
         (VList [VInt 1; VInt 2]) (VDict [("k", VStr "v")])
         (logged_in_world key_only_server)) =
  Ret (VList [VStr "db"; VInt 7; VStr "key"; VStr "modelX"; VStr "methodY";
              VList [VInt 1; VInt 2]; VDict [("k", VStr "v")]]).
Proof.
  destruct (invoke_payload_and_passthrough (logged_in_world key_only_server)
              "modelX" "methodY" (VList [VInt 1; VInt 2]) (VDict [("k", VStr "v")]))
    as [(_ & Hpass & Hsend) _].
  destruct (Hsend (VStr "db") (VStr "key") eq_refl eq_refl eq_refl eq_refl) as [Hsent _].
  split; [exact Hsent |].
  exact (Hpass _ _ Hsent eq_refl).
Defined.

(** C4. When the object endpoint answers the request of an invocation by a
    fault, the invocation raises that very exception object, same class and
    same text, after the one request: the handler of [call_model] raises
    what it caught. Stated for a client that can reach the endpoint
    and arguments that can be marshalled, so that the request does leave. *)
Theorem invoke_fault_round_trip w model method args kwargs e :
  dump args = None -> dump kwargs = None ->
  (forall db pw,
     ready "password" w db pw ->
     let rq := execute_kw_request (self w) db pw model method args kwargs in
     respond (host w) (sent w) rq = Faults e ->
     DebugWebrtc.call_model model method args kwargs w = (Raise e, after_send w rq)) /\
  (forall db key,
     ready "api_key" w db key ->
     let rq := execute_kw_request (self w) db key model method args kwargs in
     respond (host w) (sent w) rq = Faults e ->
     EnhancedCleanAndCall105.call_model model method args kwargs w =
     (Raise e, after_send w rq)).
Proof.
  intros Ha Hk. split.
  - intros db pw Hready rq Hfault.
    pose proof Hready as (Hs & Hdb & Hpw & _).
    rewrite (debug_call_model_sends w model method args kwargs db pw Hs Hdb Hpw
               (ready_dumps "password" w db pw model method args kwargs Hready Ha Hk)).
    fold rq. unfold answer. rewrite Hfault. reflexivity.
  - intros db key Hready rq Hfault.
    pose proof Hready as (Hs & Hdb & Hkey & _).
    rewrite enhanced_call_model_eq.
    rewrite (call_model_sends w model method args kwargs db key Hs Hdb Hkey
               (ready_dumps "api_key" w db key model method args kwargs Hready Ha Hk)).
    fold rq. unfold answer. rewrite Hfault. reflexivity.
Qed.

Lemma invoke_fault_witness :
  fst (DebugWebrtc.call_model "discuss.channel" "read" (VList [VInt 105]) default_kwargs
         (logged_in_world rejecting_server)) =
  Raise (Exn "Fault" "<Fault 3: 'Access Denied'>") /\
  fst (EnhancedCleanAndCall105.call_model "discuss.channel" "read" (VList [VInt 105])
         default_kwargs (logged_in_world rejecting_server)) =
  Raise (Exn "Fault" "<Fault 3: 'Access Denied'>") /\
  List.length (sent (snd (EnhancedCleanAndCall105.call_model "discuss.channel" "read"
                            (VList [VInt 105]) default_kwargs
                            (logged_in_world rejecting_server)))) = 1%nat.
Proof.
  destruct (invoke_fault_round_trip (logged_in_world rejecting_server)
              "discuss.channel" "read" (VList [VInt 105]) default_kwargs
              (Exn "Fault" "<Fault 3: 'Access Denied'>") eq_refl eq_refl)
    as [Hdebug Henhanced].
  rewrite (Hdebug (VStr "db") (VStr "pw")); [| repeat split; reflexivity | reflexivity].
  rewrite (Henhanced (VStr "db") (VStr "key")); [| repeat split; reflexivity | reflexivity].
  repeat split; reflexivity.
Defined.

(** ** Authentication *)

Lemma authenticate_sends w db user key :
  supported (host w) (url (self w) +:+ "/xmlrpc/2/common") = true ->
  config (self w) !! "database" = Some db ->
  config (self w) !! "username" = Some user ->
  config (self w) !! "api_key" = Some key ->
  dumps [db; user; key; VDict []] = None ->
  CallChannel105Fixed.authenticate w =
  match respond (host w) (sent w) (authenticate_request (self w) db user key) with
  | Returns v =>
      (Ret (truthy v),
       World (Obj (config (self w)) v (url (self w)))
             (sent w ++ [authenticate_request (self w) db user key])
             (written w ++ [WUid v]) (host w))
  | Faults e => (Ret false, after_send w (authenticate_request (self w) db user key))
  end.
Proof.
  intros Hs Hdb Huser Hkey Hd. unfold CallChannel105Fixed.authenticate. run_monad.
  rewrite Hs, Hdb, Huser, Hkey, Hd. unfold answer, authenticate_request.
  destruct (respond (host w) (sent w) _) as [v | e]; cbn.
  - destruct (truthy v); reflexivity.
  - reflexivity.
Qed.

Lemma debug_authenticate_rejected w db user pw key :
  supported (host w) (url (self w) +:+ "/xmlrpc/2/common") = true ->
  config (self w) !! "database" = Some db ->
  config (self w) !! "username" = Some user ->
  config (self w) !! "password" = Some pw ->
  config (self w) !! "api_key" = Some key ->
  dumps [db; user; pw; VDict []] = None ->
  dumps [db; user; key; VDict []] = None ->
  let by_pw := authenticate_request (self w) db user pw in
  let by_key := authenticate_request (self w) db user key in
  let r1 := respond (host w) (sent w) by_pw in
  let r2 := respond (host w) (sent w ++ [by_pw]) by_key in
  rejected r1 = true ->
  rejected r2 = true ->
  fst (DebugWebrtc.authenticate w) = Ret false /\
  sent (snd (DebugWebrtc.authenticate w)) = (sent w ++ [by_pw]) ++ [by_key] /\
  config (self (snd (DebugWebrtc.authenticate w))) = config (self w) /\
  uid (self (snd (DebugWebrtc.authenticate w))) = stored r2 (stored r1 (uid (self w))).
Proof.
  intros Hs Hdb Huser Hpw Hkey Hd1 Hd2 by_pw by_key r1 r2 H1 H2.
  unfold DebugWebrtc.authenticate. run_monad.
  rewrite Hs, Hdb, Huser, Hpw, Hd1. unfold answer, after_send.
  fold (authenticate_request (self w) db user pw). fold by_pw. fold r1.
  destruct r1 as [v1 | e1] eqn:E1; cbn -[dumps] in H1 |- *;
    [apply negb_true_iff in H1; rewrite H1; cbn -[dumps] |];
    repeat (first [rewrite Hdb | rewrite Huser | rewrite Hkey | rewrite Hd2]; cbn -[dumps]);
    fold (authenticate_request (self w) db user key); fold by_key; fold r2;
    (destruct r2 as [v2 | e2] eqn:E2; cbn -[dumps] in H2 |- *;
     [apply negb_true_iff in H2; rewrite H2; cbn -[dumps] |]; repeat split).
Qed.

(** C1 as stated fails: the endpoint answers [False], [authenticate] returns
    [False] instead of raising, and [uid], [None] before the call, is
    [False] after it. *)
Lemma authenticate_rejected_counterexample :
  let w := fresh_world rejecting_server in
  let r := CallChannel105Fixed.authenticate w in
  rejected (respond (host w) (sent w)
              (authenticate_request (self w) (VStr "db") (VStr "user") (VStr "key"))) = true /\
  fst r = Ret false /\
  uid (self w) = VNone /\
  uid (self (snd r)) = VBool false /\
  ~ ((exists e, fst r = Raise e) /\ uid (self (snd r)) = uid (self w)).
Proof.
  cbv zeta. repeat split; try (vm_compute; reflexivity).
  intros [[e He] _]. vm_compute in He. discriminate He.
Qed.

(** C1, amended. When the authentication endpoint grants nothing (a fault,
    or a value that is not a handle), [authenticate] returns [False] and
    raises nothing; the configuration is untouched; [uid] is unchanged after
    a fault and holds the returned value, which is not a handle, otherwise.
    The class of debug-webrtc.py does so once both of its credentials were
    turned down. *)
Theorem authenticate_rejected w db user key :
  supported (host w) (url (self w) +:+ "/xmlrpc/2/common") = true ->
  config (self w) !! "database" = Some db ->
  config (self w) !! "username" = Some user ->
  config (self w) !! "api_key" = Some key ->
  dumps [db; user; key; VDict []] = None ->
  let by_key := authenticate_request (self w) db user key in
  (let r := respond (host w) (sent w) by_key in
   rejected r = true ->
   fst (CallChannel105Fixed.authenticate w) = Ret false /\
   sent (snd (CallChannel105Fixed.authenticate w)) = sent w ++ [by_key] /\
   config (self (snd (CallChannel105Fixed.authenticate w))) = config (self w) /\
   uid (self (snd (CallChannel105Fixed.authenticate w))) = stored r (uid (self w)) /\
   (uid (self (snd (CallChannel105Fixed.authenticate w))) = uid (self w) \/
    truthy (uid (self (snd (CallChannel105Fixed.authenticate w)))) = false)) /\
  (forall pw,
   config (self w) !! "password" = Some pw ->
   dumps [db; user; pw; VDict []] = None ->
   let by_pw := authenticate_request (self w) db user pw in
   let r1 := respond (host w) (sent w) by_pw in
   let r2 := respond (host w) (sent w ++ [by_pw]) by_key in
   rejected r1 = true ->
   rejected r2 = true ->
   fst (DebugWebrtc.authenticate w) = Ret false /\
   sent (snd (DebugWebrtc.authenticate w)) = (sent w ++ [by_pw]) ++ [by_key] /\
   config (self (snd (DebugWebrtc.authenticate w))) = config (self w) /\
   uid (self (snd (DebugWebrtc.authenticate w))) = stored r2 (stored r1 (uid (self w)))).
Proof.
  intros Hs Hdb Huser Hkey Hd by_key. split.
  - intros r Hr. rewrite (authenticate_sends w db user key Hs Hdb Huser Hkey Hd).
    fold by_key. fold r. destruct r as [v | e]; cbn in Hr |- *.
    + apply negb_true_iff in Hr. rewrite Hr. repeat split. right. reflexivity.
    + repeat split. left. reflexivity.
  - intros pw Hpw Hd1.
    exact (debug_authenticate_rejected w db user pw key Hs Hdb Huser Hpw Hkey Hd1 Hd).
Qed.

Lemma authenticate_rejected_witness :
  fst (CallChannel105Fixed.authenticate (fresh_world rejecting_server)) = Ret false /\
  fst (DebugWebrtc.authenticate (fresh_world rejecting_server)) = Ret false.
Proof.
  pose proof (authenticate_rejected (fresh_world rejecting_server)
                (VStr "db") (VStr "user") (VStr "key")
                eq_refl eq_refl eq_refl eq_refl eq_refl) as [H1 H2].
  split.
  - exact (proj1 (H1 eq_refl)).
  - exact (proj1 (H2 (VStr "pw") eq_refl eq_refl eq_refl eq_refl)).
Defined.

(** ** Remote attempts per call *)

Ltac explore := repeat (cbn -[dumps] in *; split_scrutinee); cbn -[dumps] in *.

Lemma invocation_at_most_one secret_key w model method args kwargs r :
  invocation secret_key w model method args kwargs r ->
  self (snd r) = self w /\ written (snd r) = written w /\ host (snd r) = host w /\
  exists l, sent (snd r) = sent w ++ l /\ (List.length l <= 1)%nat /\
            Forall (fun rq => handle_of rq = Some (uid (self w))) l.
Proof.
  intros [e | db secret Hs Hdb Hkey Hd]; cbn [fst snd after_send self written host sent].
  - repeat split. exists []. rewrite app_nil_r. repeat split; [cbn; lia | constructor].
  - repeat split. eexists. split; [reflexivity |]. split; [cbn; lia |].
    constructor; [reflexivity | constructor].
Qed.



Section SendsAtMost.
Context {A B : Type}.

Lemma sends_ret (a : A) : sends_at_most 0 (ret a).
Proof. intros w. exists []. cbn. rewrite app_nil_r. split; [reflexivity | lia]. Qed.

Lemma sends_lift (o : outcome A) : sends_at_most 0 (lift o).
Proof. intros w. exists []. cbn. rewrite app_nil_r. split; [reflexivity | lia]. Qed.

Lemma sends_weaken (n n' : nat) (m : M A) :
  (n <= n')%nat -> sends_at_most n m -> sends_at_most n' m.
Proof.
  intros Hle H w. destruct (H w) as (l & Hl & Hn). exists l. split; [exact Hl | lia].
Qed.

Lemma sends_bind (n k : nat) (m : M A) (f : A -> M B) :
  sends_at_most n m -> (forall a, sends_at_most k (f a)) ->
  sends_at_most (n + k) (bind m f).
Proof.
  intros Hm Hf w. unfold bind. destruct (Hm w) as (l & Hl & Hn).
  destruct (m w) as [[a | e] w1]; cbn [snd] in *.
  - destruct (Hf a w1) as (l' & Hl' & Hk). exists (l ++ l').
    rewrite Hl', Hl, <- app_assoc. split; [reflexivity |].
    rewrite List.length_app. lia.
  - exists l. split; [exact Hl | lia].
Qed.

Lemma sends_try (n k : nat) (m : M A) (handler : exn -> M A) :
  sends_at_most n m -> (forall e, sends_at_most k (handler e)) ->
  sends_at_most (n + k) (try_except m handler).
Proof.
  intros Hm Hh w. unfold try_except. destruct (Hm w) as (l & Hl & Hn).
  destruct (m w) as [[a | e] w1]; cbn [snd] in *.
  - exists l. split; [exact Hl | lia].
  - destruct (Hh e w1) as (l' & Hl' & Hk). exists (l ++ l').
    rewrite Hl', Hl, <- app_assoc. split; [reflexivity |].
    rewrite List.length_app. lia.
Qed.
End SendsAtMost.

Lemma sends_get_uid : sends_at_most 0 get_uid.
Proof. intros w. exists []. cbn. rewrite app_nil_r. split; [reflexivity | lia]. Qed.

Lemma sends_get_host : sends_at_most 0 get_host.
Proof. intros w. exists []. cbn. rewrite app_nil_r. split; [reflexivity | lia]. Qed.

Lemma sends_call_model model method args kwargs :
  sends_at_most 1 (CallChannel105Fixed.call_model model method args kwargs).
Proof.
  intros w.
  destruct (invocation_at_most_one "api_key" w model method args kwargs _
              (call_model_invocation w model method args kwargs))
    as (_ & _ & _ & l & Hl & Hn & _).
  exists l. split; assumption.
Qed.


Lemma sends_enhanced_call_model model method args kwargs :
  sends_at_most 1 (EnhancedCleanAndCall105.call_model model method args kwargs).
Proof.
  intros w. rewrite enhanced_call_model_eq. apply sends_call_model.
Qed.

(** The fallback over method names is made of separate invocations: one read
    of the caller's name and up to three tries, four requests at most. *)
Lemma send_call_notification_attempts channel_id session_id partner_id call_type :
  sends_at_most 4
    (CallChannel105Fixed.send_call_notification channel_id session_id partner_id call_type).
Proof.
  unfold CallChannel105Fixed.send_call_notification.
  apply (sends_try 4 0); [| intros e; apply sends_ret].
  apply (sends_bind 0 4); [apply sends_get_uid | intros u].
  apply (sends_bind 1 3); [apply sends_call_model | intros user_data].
  apply (sends_bind 0 3).
  { destruct (truthy user_data); [| apply sends_ret].
    apply (sends_bind 0 0); [apply sends_lift | intros first; apply sends_lift]. }
  intros caller_name. apply (sends_bind 0 3); [apply sends_get_host | intros h].
  apply (sends_try 1 2).
  { apply (sends_bind 1 0); [apply sends_call_model | intros _; apply sends_ret]. }
  intros e1. apply (sends_try 1 1).
  { apply (sends_bind 1 0); [apply sends_call_model | intros _; apply sends_ret]. }
  intros e2. apply (sends_try 1 0).
  { apply (sends_bind 1 0); [apply sends_call_model | intros _; apply sends_ret]. }
  intros e3. apply sends_ret.
Qed.

Example send_call_notification_demo :
  let r := CallChannel105Fixed.send_call_notification (VInt 105) (VInt 9) (VInt 3) "audio"
             (logged_in_world bus_server) in
  fst r = Ret true /\
  map (fun rq => nth 4 (rpc_params rq) VNone) (sent (snd r)) =
  [VStr "read"; VStr "_sendmany"; VStr "sendmany"; VStr "create"].
Proof. vm_compute. split; reflexivity. Qed.










(** ** The handle over the lifetime of a client *)


Lemma authenticate_success w :
  match CallChannel105Fixed.authenticate w with
  | (Ret true, w') =>
      truthy (uid (self w')) = true /\
      written w' = written w ++ [WUid (uid (self w'))] /\
      config (self w') = config (self w) /\ url (self w') = url (self w)
  | _ => True
  end.
Proof.
  unfold CallChannel105Fixed.authenticate. run_monad. unfold answer, after_send.
  explore; try exact I; repeat split; assumption.
Qed.





Example lifetime_demo :
  map handle_of
    (sent (snd (run_calls DebugWebrtc.call_model
                  [Call "res.users" "read" (VList [VInt 7]) default_kwargs;
                   Call "discuss.channel" "read" (VList [VInt 105]) default_kwargs]
                  (snd (DebugWebrtc.authenticate (fresh_world key_only_server)))))) =
  [Some (VStr "user"); Some (VStr "user"); Some (VInt 7); Some (VInt 7)].
Proof. vm_compute. reflexivity. Qed.

(** ** Membership: search, then create if absent *)

Section EnsureChannelMember.
Variables (w : world) (channel_id partner_id db key : pyval).

Local Abbreviation search := (member_search (self w) db key channel_id partner_id).
Local Abbreviation create := (member_create (self w) db key channel_id partner_id).

Hypothesis proxy_ok : supported (host w) (url (self w) +:+ "/xmlrpc/2/object") = true.
Hypothesis has_db : config (self w) !! "database" = Some db.
Hypothesis has_key : config (self w) !! "api_key" = Some key.
Hypothesis marshals : dumps (rpc_params search) = None.

Lemma create_marshals : dumps (rpc_params create) = None.
Proof.
  revert marshals.
  unfold member_search, member_create, execute_kw_request, execute_kw_params,
    default_kwargs.
  cbn [rpc_params dumps dump].
  destruct (dump db); [discriminate |].
  destruct (dump (uid (self w))); [discriminate |].
  destruct (dump key); [discriminate |].
  destruct (dump channel_id); [discriminate |].
  destruct (dump partner_id); [discriminate |].
  reflexivity.
Qed.

Lemma ensure_channel_member_run (members : list pyval) :
  respond (host w) (sent w) search = Returns (VList members) ->
  CallChannel105Fixed.ensure_channel_member channel_id partner_id w =
  match members with
  | [] =>
      (match respond (host w) (sent w ++ [search]) create with
       | Returns v => Ret v
       | Faults e => Ret VNone
       end,
       after_send (after_send w search) create)
  | first :: _ =>
      (match getitem_key first "id" with
       | Ret i => Ret i
       | Raise e => Ret VNone
       end,
       after_send w search)
  end.
Proof.
  intros Hr. unfold CallChannel105Fixed.ensure_channel_member, try_except, bind.
  rewrite (call_model_sends w _ _ _ _ db key proxy_ok has_db has_key marshals).
  fold search.
  unfold answer at 1. rewrite Hr.
  destruct members as [| first rest]; cbn [truthy].
  - rewrite (call_model_sends (after_send w search) _ _ _ _ db key
               proxy_ok has_db has_key create_marshals).
    change (self (after_send w search)) with (self w).
    fold create.
    unfold answer. cbn [host sent after_send ret].
    destruct (respond (host w) (sent w ++ [search]) create); reflexivity.
  - unfold lift, ret. cbn [getitem_zero].
    destruct (getitem_key first "id"); reflexivity.
Qed.
End EnsureChannelMember.

(** C7. The operation first sends the [search_read] on
    [discuss.channel.member] with the domain made of the two key fields; it
    sends the [create] exactly when the list that search returned is empty.
    With a record found it returns the [id] of the first one; with none it
    returns what [create] returned. *)
Theorem ensure_channel_member_creates_iff_absent
    w channel_id partner_id db key (members : list pyval) :
  supported (host w) (url (self w) +:+ "/xmlrpc/2/object") = true ->
  config (self w) !! "database" = Some db ->
  config (self w) !! "api_key" = Some key ->
  let search :=
    Rpc (url (self w) +:+ "/xmlrpc/2/object") "execute_kw"
      [db; uid (self w); key; VStr "discuss.channel.member"; VStr "search_read";
       VList [VList [VList [VStr "channel_id"; VStr "="; channel_id];
                     VList [VStr "partner_id"; VStr "="; partner_id]]];
       VDict [("fields", VList [VStr "id"])]] in
  let create :=
    Rpc (url (self w) +:+ "/xmlrpc/2/object") "execute_kw"
      [db; uid (self w); key; VStr "discuss.channel.member"; VStr "create";
       VList [VDict [("channel_id", channel_id); ("partner_id", partner_id)]];
       VDict []] in
  dumps (rpc_params search) = None ->
  respond (host w) (sent w) search = Returns (VList members) ->
  let holds (ensure : pyval -> pyval -> M pyval) :=
    sent (snd (ensure channel_id partner_id w)) =
      sent w ++ search :: match members with
                          | [] => [create]
                          | _ :: _ => []
                          end /\
    (forall first rest i,
       members = first :: rest -> getitem_key first "id" = Ret i ->
       fst (ensure channel_id partner_id w) = Ret i) /\
    (forall v,
       members = [] -> respond (host w) (sent w ++ [search]) create = Returns v ->
       fst (ensure channel_id partner_id w) = Ret v) in
  holds CallChannel105Fixed.ensure_channel_member /\
  holds CleanAndCall105.ensure_channel_member.
Proof.
  intros Hs Hdb Hkey search create Hd Hr holds.
  assert (H : holds CallChannel105Fixed.ensure_channel_member).
  { unfold holds.
    rewrite (ensure_channel_member_run w channel_id partner_id db key Hs Hdb Hkey Hd
               members Hr).
    change (member_search (self w) db key channel_id partner_id) with search.
    change (member_create (self w) db key channel_id partner_id) with create.
    destruct members as [| m ms]; cbn [fst snd sent after_send].
    - split; [rewrite <- app_assoc; reflexivity |]. split.
      + intros first rest i Hm. discriminate Hm.
      + intros v _ Hv. rewrite Hv. reflexivity.
    - split; [reflexivity |]. split.
      + intros first rest i Hm Hi. injection Hm as <- <-. rewrite Hi. reflexivity.
      + intros v Hm. discriminate Hm. }
  split; exact H.
Qed.

Lemma ensure_channel_member_witness :
  CallChannel105Fixed.ensure_channel_member (VInt 105) (VInt 3)
    (logged_in_world member_server) =
    (Ret (VInt 42),
     after_send (logged_in_world member_server)
       (execute_kw_request (self (logged_in_world member_server)) (VStr "db") (VStr "key")
          "discuss.channel.member" "search_read"
          (VList [VList [VList [VStr "channel_id"; VStr "="; VInt 105];
                         VList [VStr "partner_id"; VStr "="; VInt 3]]])
          (VDict [("fields", VList [VStr "id"])]))) /\
  fst (CleanAndCall105.ensure_channel_member (VInt 105) (VInt 3)
         (logged_in_world no_member_server)) = Ret (VInt 43) /\
  List.length (sent (snd (CleanAndCall105.ensure_channel_member (VInt 105) (VInt 3)
                            (logged_in_world no_member_server)))) = 2%nat.
Proof.
  split; [vm_compute; reflexivity |].
  pose proof (ensure_channel_member_creates_iff_absent (logged_in_world no_member_server)
                (VInt 105) (VInt 3) (VStr "db") (VStr "key") []
                eq_refl eq_refl eq_refl eq_refl eq_refl) as [_ (Hsent & _ & Hcreate)].
  split.
  - exact (Hcreate (VInt 43) eq_refl eq_refl).
  - rewrite Hsent. reflexivity.
Defined.

(** ** Two invocations in a row *)

Lemma call_model_isolated w v model method args kwargs :
  self v = self w ->
  supported (host v) (url (self w) +:+ "/xmlrpc/2/object") =
  supported (host w) (url (self w) +:+ "/xmlrpc/2/object") ->
  (exists e,
     CallChannel105Fixed.call_model model method args kwargs w = (Raise e, w) /\
     CallChannel105Fixed.call_model model method args kwargs v = (Raise e, v)) \/
  (exists rq,
     CallChannel105Fixed.call_model model method args kwargs w = (answer w rq, after_send w rq) /\
     CallChannel105Fixed.call_model model method args kwargs v = (answer v rq, after_send v rq)).
Proof.
  intros Hself Hsup. destruct w as [c tw ww hw], v as [c' tv wv hv].
  cbn [self host] in Hself, Hsup. subst c'.
  unfold CallChannel105Fixed.call_model. run_monad.
  cbn -[dumps answer after_send]. rewrite Hsup. clear Hsup.
  explore; first [left; eexists; split; reflexivity | right; eexists; split; reflexivity].
Qed.

(** C8. Two invocations in a row on one client: the first one leaves every
    attribute of the client as it was and assigns nothing, so the second one
    sends the request it would send on its own, from any state [v] that
    holds the same client, and returns the same outcome whenever the
    endpoint answers that request the same way. *)
Theorem sequential_invocations_do_not_interfere
    (invoke : string -> string -> pyval -> pyval -> M pyval) w v c1 c2 :
  invoke = CallChannel105Fixed.call_model \/ invoke = QuickWebrtcFix.call_model ->
  self v = self w ->
  supported (host v) (url (self w) +:+ "/xmlrpc/2/object") =
  supported (host w) (url (self w) +:+ "/xmlrpc/2/object") ->
  let run c := invoke (call_name c) (call_method c) (call_args c) (call_kwargs c) in
  let w1 := snd (run c1 w) in
  let w2 := snd (run c2 w1) in
  self w1 = self w /\ written w1 = written w /\
  self w2 = self w /\ written w2 = written w /\
  exists l,
    sent w2 = sent w1 ++ l /\
    sent (snd (run c2 v)) = sent v ++ l /\
    ((forall rq, respond (host v) (sent v) rq = respond (host w1) (sent w1) rq) ->
     fst (run c2 v) = fst (run c2 w1)).
Proof.
  intros Hinvoke Hself Hsup run w1 w2.
  assert (Hrun : run = fun c => CallChannel105Fixed.call_model
                                  (call_name c) (call_method c) (call_args c) (call_kwargs c)).
  { unfold run. destruct Hinvoke as [-> | ->]; reflexivity. }
  clearbody run. subst run.
  pose proof (invocation_at_most_one "api_key" w _ _ _ _ _
                (call_model_invocation w (call_name c1) (call_method c1)
                   (call_args c1) (call_kwargs c1))) as (Hs1 & Hw1 & Hh1 & _).
  fold w1 in Hs1, Hw1, Hh1.
  pose proof (invocation_at_most_one "api_key" w1 _ _ _ _ _
                (call_model_invocation w1 (call_name c2) (call_method c2)
                   (call_args c2) (call_kwargs c2))) as (Hs2 & Hw2 & _ & _).
  fold w2 in Hs2, Hw2.
  repeat split; try congruence.
  assert (Hself' : self v = self w1) by congruence.
  assert (Hsup' : supported (host v) (url (self w1) +:+ "/xmlrpc/2/object") =
                  supported (host w1) (url (self w1) +:+ "/xmlrpc/2/object"))
    by (rewrite Hs1, Hh1; exact Hsup).
  destruct (call_model_isolated w1 v (call_name c2) (call_method c2)
              (call_args c2) (call_kwargs c2) Hself' Hsup')
    as [(e & Hw & Hv) | (rq & Hw & Hv)].
  - exists []. unfold w2. rewrite Hw, Hv. cbn [fst snd]. rewrite !app_nil_r.
    repeat split.
  - exists [rq]. unfold w2. rewrite Hw, Hv. cbn [fst snd after_send sent].
    repeat split. intros Hresp. unfold answer. rewrite Hresp. reflexivity.
Qed.

Lemma sequential_invocations_witness :
  let w := logged_in_world key_only_server in
  let c1 := Call "res.users" "read" (VList [VInt 7]) (VDict [("fields", VList [VStr "name"])]) in
  let c2 := Call "discuss.channel" "read" (VList [VInt 105]) default_kwargs in
  let run c := QuickWebrtcFix.call_model (call_name c) (call_method c) (call_args c)
                 (call_kwargs c) in
  self (snd (run c2 (snd (run c1 w)))) = self w /\
  fst (run c2 w) = fst (run c2 (snd (run c1 w))).
Proof.
  cbv zeta.
  pose proof (sequential_invocations_do_not_interfere QuickWebrtcFix.call_model
                (logged_in_world key_only_server) (logged_in_world key_only_server)
                (Call "res.users" "read" (VList [VInt 7])
                   (VDict [("fields", VList [VStr "name"])]))
                (Call "discuss.channel" "read" (VList [VInt 105]) default_kwargs)
                (or_intror eq_refl) eq_refl eq_refl)
    as (_ & _ & Hself & _ & l & _ & _ & Hsame).
  split; [exact Hself |]. apply Hsame. intros rq. reflexivity.
Defined.

(** ** Cleanup *)

(** C9. [cleanup_existing_sessions] returns [True] from every state and for
    every argument: with no session found, with sessions found and deleted,
    and when a remote call (or anything else in its body) raises. It never
    raises itself. *)
Theorem cleanup_always_true w channel_id :
  fst (CleanAndCall105.cleanup_existing_sessions channel_id w) = Ret true.
Proof.
  unfold CleanAndCall105.cleanup_existing_sessions, try_except. cbv zeta.
  unfold bind at 1.
  destruct (CleanAndCall105.call_model _ _ _ _ w) as [[existing_sessions | e] w1];
    [| reflexivity].
  unfold bind at 1.
  match goal with
  | |- context [(if ?c then ?m1 else ?m2) w1] =>
      destruct ((if c then m1 else m2) w1) as [[u | e] w2]
  end; reflexivity.
Qed.

Example cleanup_demo :
  fst (CleanAndCall105.cleanup_existing_sessions (VInt 105) (logged_in_world rejecting_server))
    = Ret true /\
  fst (CleanAndCall105.cleanup_existing_sessions VNone (logged_in_world no_member_server))
    = Ret true /\
  map (fun rq => nth 4 (rpc_params rq) VNone)
    (sent (snd (CleanAndCall105.cleanup_existing_sessions (VInt 105)
                  (logged_in_world key_only_server))))
    = [VStr "search"; VStr "unlink"].
Proof. vm_compute. repeat split. Qed.

(** ** The channel-methods probe *)

Lemma probe_method_verdict channel cid method results w :
  getitem_key channel "id" = Ret cid ->
  DebugWebrtc.probe_method channel method results w =
  (Ret (dict_set method
          (classified_existing
             (fst (DebugWebrtc.call_model "discuss.channel" method (VList [cid])
                     default_kwargs w)))
          results),
   snd (DebugWebrtc.call_model "discuss.channel" method (VList [cid]) default_kwargs w)).
Proof.
  intros Hid. unfold DebugWebrtc.probe_method, try_except, bind, lift. rewrite Hid.
  destruct (DebugWebrtc.call_model "discuss.channel" method (VList [cid]) default_kwargs w)
    as [[v | e] w1]; cbn [fst snd classified_existing].
  - reflexivity.
  - destruct (contains "does not exist" (exn_str e)); reflexivity.
Qed.

Lemma classified_existing_false o :
  classified_existing o = false <->
  exists e, o = Raise e /\ contains "does not exist" (exn_str e) = true.
Proof.
  destruct o as [v | e]; cbn.
  - split; [discriminate | intros (e & He & _); discriminate He].
  - rewrite negb_false_iff. split.
    + intros H. exists e. split; [reflexivity | exact H].
    + intros (e' & He & H). injection He as ->. exact H.
Qed.

(** Without a channel to probe on, nothing is classified and the probe
    reports failure. *)
Lemma probe_without_channel w :
  (forall e w0,
     DebugWebrtc.call_model "discuss.channel" "search_read" (VList [VList []])
       (VDict [("fields", VList [VStr "id"; VStr "name"; VStr "channel_type"]);
               ("limit", VInt 1)]) w = (Raise e, w0) ->
     DebugWebrtc.test_channel_methods w = (Ret false, w0)) /\
  (forall channels w0,
     DebugWebrtc.call_model "discuss.channel" "search_read" (VList [VList []])
       (VDict [("fields", VList [VStr "id"; VStr "name"; VStr "channel_type"]);
               ("limit", VInt 1)]) w = (Ret channels, w0) ->
     truthy channels = false ->
     DebugWebrtc.test_channel_methods w = (Ret false, w0)).
Proof.
  split.
  - intros e w0 H. unfold DebugWebrtc.test_channel_methods, try_except, bind.
    rewrite H. reflexivity.
  - intros channels w0 H Ht. unfold DebugWebrtc.test_channel_methods, try_except, bind.
    rewrite H, Ht. reflexivity.
Qed.

(** C10. On the channel the probe found, each method name is entered in
    [method_results] as non-existent exactly when its attempt raised an
    exception whose text contains ['does not exist'], and as existing when the
    attempt succeeded or raised anything else; the probe returns [True]
    exactly when one of the four names was entered as existing. *)
Theorem probe_classification w channels channel name cid w0 :
  DebugWebrtc.call_model "discuss.channel" "search_read" (VList [VList []])
    (VDict [("fields", VList [VStr "id"; VStr "name"; VStr "channel_type"]);
            ("limit", VInt 1)]) w = (Ret channels, w0) ->
  truthy channels = true ->
  getitem_zero channels = Ret channel ->
  getitem_key channel "name" = Ret name ->
  getitem_key channel "id" = Ret cid ->
  let attempt method v :=
    DebugWebrtc.call_model "discuss.channel" method (VList [cid]) default_kwargs v in
  let w1 := snd (attempt "rtc_join_call" w0) in
  let w2 := snd (attempt "rtc_leave_call" w1) in
  let w3 := snd (attempt "mobile_start_webrtc_call" w2) in
  let w4 := snd (attempt "mobile_answer_webrtc_call" w3) in
  let b1 := classified_existing (fst (attempt "rtc_join_call" w0)) in
  let b2 := classified_existing (fst (attempt "rtc_leave_call" w1)) in
  let b3 := classified_existing (fst (attempt "mobile_start_webrtc_call" w2)) in
  let b4 := classified_existing (fst (attempt "mobile_answer_webrtc_call" w3)) in
  (forall method results v,
     DebugWebrtc.probe_method channel method results v =
       (Ret (dict_set method (classified_existing (fst (attempt method v))) results),
        snd (attempt method v)) /\
     (classified_existing (fst (attempt method v)) = false <->
      exists e, fst (attempt method v) = Raise e /\
                contains "does not exist" (exn_str e) = true)) /\
  DebugWebrtc.probe_methods channel DebugWebrtc.methods_to_test [] w0 =
    (Ret [("rtc_join_call", b1); ("rtc_leave_call", b2);
          ("mobile_start_webrtc_call", b3); ("mobile_answer_webrtc_call", b4)], w4) /\
  DebugWebrtc.test_channel_methods w = (Ret (b1 || b2 || b3 || b4), w4) /\
  (fst (DebugWebrtc.test_channel_methods w) = Ret true <->
   b1 = true \/ b2 = true \/ b3 = true \/ b4 = true).
Proof.
  intros Hsearch Ht Hzero Hname Hid attempt w1 w2 w3 w4 b1 b2 b3 b4.
  assert (Hone : forall method results v,
             DebugWebrtc.probe_method channel method results v =
             (Ret (dict_set method (classified_existing (fst (attempt method v))) results),
              snd (attempt method v))).
  { intros method results v. exact (probe_method_verdict channel cid method results v Hid). }
  assert (Hall : DebugWebrtc.probe_methods channel DebugWebrtc.methods_to_test [] w0 =
                 (Ret [("rtc_join_call", b1); ("rtc_leave_call", b2);
                       ("mobile_start_webrtc_call", b3); ("mobile_answer_webrtc_call", b4)],
                  w4)).
  { unfold DebugWebrtc.methods_to_test. cbn [DebugWebrtc.probe_methods].
    unfold bind. rewrite Hone. fold w1. fold b1.
    rewrite Hone. fold w2. fold b2.
    rewrite Hone. fold w3. fold b3.
    rewrite Hone. fold w4. fold b4.
    reflexivity. }
  assert (Htest : DebugWebrtc.test_channel_methods w = (Ret (b1 || b2 || b3 || b4), w4)).
  { unfold DebugWebrtc.test_channel_methods, try_except.
    unfold bind at 1. rewrite Hsearch, Ht. cbn [negb].
    unfold bind, lift. rewrite Hzero, Hname, Hid.
    change (DebugWebrtc.probe_methods channel DebugWebrtc.methods_to_test [] w0)
      with ((fun m => m) (DebugWebrtc.probe_methods channel DebugWebrtc.methods_to_test [] w0)).
    cbv beta. rewrite Hall. unfold ret, any_values. cbn [existsb snd].
    rewrite orb_false_r, !orb_assoc. reflexivity. }
  split; [| split; [exact Hall | split; [exact Htest |]]].
  - intros method results v. split; [apply Hone | apply classified_existing_false].
  - rewrite Htest. cbn [fst]. split.
    + intros H. injection H as H.
      destruct b1; [left; reflexivity |]. destruct b2; [right; left; reflexivity |].
      destruct b3; [right; right; left; reflexivity |]. right; right; right. exact H.
    + intros [-> | [-> | [-> | ->]]]; rewrite ?orb_true_r; reflexivity.
Qed.

Lemma probe_classification_witness :
  fst (DebugWebrtc.test_channel_methods (logged_in_world probe_server)) = Ret true /\
  fst (DebugWebrtc.probe_methods
         (VDict [("id", VInt 5); ("name", VStr "general"); ("channel_type", VStr "channel")])
         DebugWebrtc.methods_to_test []
         (snd (DebugWebrtc.call_model "discuss.channel" "search_read" (VList [VList []])
                 (VDict [("fields", VList [VStr "id"; VStr "name"; VStr "channel_type"]);
                         ("limit", VInt 1)]) (logged_in_world probe_server)))) =
  Ret [("rtc_join_call", false); ("rtc_leave_call", true);
       ("mobile_start_webrtc_call", true); ("mobile_answer_webrtc_call", true)].
Proof.
  pose proof (probe_classification (logged_in_world probe_server)
                (VList [VDict [("id", VInt 5); ("name", VStr "general");
                               ("channel_type", VStr "channel")]])
                (VDict [("id", VInt 5); ("name", VStr "general");
                        ("channel_type", VStr "channel")])
                (VStr "general") (VInt 5)
                (snd (DebugWebrtc.call_model "discuss.channel" "search_read"
                        (VList [VList []])
                        (VDict [("fields", VList [VStr "id"; VStr "name"; VStr "channel_type"]);
                                ("limit", VInt 1)]) (logged_in_world probe_server)))
                eq_refl eq_refl eq_refl eq_refl eq_refl) as (_ & Hall & Htest & _).
  split.
  - rewrite Htest. vm_compute. reflexivity.
  - rewrite Hall. vm_compute. reflexivity.
Defined.

(** A failed [authenticate] can leave [False] in [uid]; unlike [None], that
    value is marshalled, and an invocation made then does reach the server. *)
Example invoke_after_failed_authenticate :
  let w := snd (CallChannel105Fixed.authenticate (fresh_world rejecting_server)) in
  uid (self w) = VBool false /\
  map handle_of
    (sent (snd (CallChannel105Fixed.call_model "res.users" "read" default_args
                  default_kwargs w))) =
  [Some (VStr "user"); Some (VBool false)].
Proof. vm_compute. split; reflexivity. Qed.

(** * Further properties of the scripts *)

(** ** Composition rules *)

Ltac sends_nothing :=
  split; [reflexivity |]; split; [reflexivity |]; split; [reflexivity |];
  exists []; rewrite app_nil_r; split; [reflexivity |]; split; [cbn; lia | constructor].

Section Invokes.
Context {A B : Type}.

Lemma invokes_ret (P : rpc -> Prop) (a : A) : invokes 0 P (ret a).
Proof.
  intros w. cbn. sends_nothing.
Qed.

Lemma invokes_lift (P : rpc -> Prop) (o : outcome A) : invokes 0 P (lift o).
Proof.
  intros w. cbn. sends_nothing.
Qed.

Lemma invokes_weaken (n n' : nat) (P Q : rpc -> Prop) (m : M A) :
  (n <= n')%nat -> (forall rq, P rq -> Q rq) -> invokes n P m -> invokes n' Q m.
Proof.
  intros Hn HPQ H w. destruct (H w) as (Hs & Hw & Hh & l & Hl & Hlen & Hall).
  repeat split; try assumption. exists l. repeat split; [assumption | lia |].
  eapply Forall_impl; [exact Hall |]. intros rq [Hc HP]. split; [exact Hc | auto].
Qed.

Lemma invokes_bind (n k : nat) (P : rpc -> Prop) (m : M A) (f : A -> M B) :
  invokes n P m -> (forall a, invokes k P (f a)) -> invokes (n + k) P (bind m f).
Proof.
  intros Hm Hf w. unfold bind.
  destruct (Hm w) as (Hs & Hw & Hh & l & Hl & Hlen & Hall).
  destruct (m w) as [[a | e] w1]; cbn [snd] in *.
  - destruct (Hf a w1) as (Hs' & Hw' & Hh' & l' & Hl' & Hlen' & Hall').
    repeat split; try congruence.
    exists (l ++ l'). rewrite Hl', Hl, <- app_assoc. repeat split.
    + rewrite List.length_app. lia.
    + apply Forall_app. split; [exact Hall |]. rewrite Hs in Hall'. exact Hall'.
  - repeat split; try assumption. exists l. repeat split; [assumption | lia | assumption].
Qed.

Lemma invokes_try (n k : nat) (P : rpc -> Prop) (m : M A) (handler : exn -> M A) :
  invokes n P m -> (forall e, invokes k P (handler e)) ->
  invokes (n + k) P (try_except m handler).
Proof.
  intros Hm Hh w. unfold try_except.
  destruct (Hm w) as (Hs & Hw & Hhost & l & Hl & Hlen & Hall).
  destruct (m w) as [[a | e] w1]; cbn [snd] in *.
  - repeat split; try assumption. exists l. repeat split; [assumption | lia | assumption].
  - destruct (Hh e w1) as (Hs' & Hw' & Hh' & l' & Hl' & Hlen' & Hall').
    repeat split; try congruence.
    exists (l ++ l'). rewrite Hl', Hl, <- app_assoc. repeat split.
    + rewrite List.length_app. lia.
    + apply Forall_app. split; [exact Hall |]. rewrite Hs in Hall'. exact Hall'.
Qed.

Lemma never_raises_try (m : M A) (handler : exn -> M A) :
  (forall e, never_raises (handler e)) -> never_raises (try_except m handler).
Proof.
  intros Hh w. unfold try_except. destruct (m w) as [[a | e] w1].
  - exists a. reflexivity.
  - apply Hh.
Qed.

Lemma never_raises_ret (a : A) : never_raises (ret a).
Proof. intros w. exists a. reflexivity. Qed.
End Invokes.

Lemma invokes_get_uid (P : rpc -> Prop) : invokes 0 P get_uid.
Proof.
  intros w. cbn. sends_nothing.
Qed.


Lemma invokes_sleep (P : rpc -> Prop) (seconds : Z) : invokes 0 P (sleep seconds).
Proof.
  intros w. unfold sleep.
  destruct ((seconds <? - SLEEP_MAX) || (SLEEP_MAX <? seconds));
    [| destruct (seconds <? 0)]; cbn; sends_nothing.
Qed.

Lemma invocation_invokes secret_key w model method args kwargs r :
  invocation secret_key w model method args kwargs r ->
  self (snd r) = self w /\ written (snd r) = written w /\ host (snd r) = host w /\
  exists l, sent (snd r) = sent w ++ l /\ (List.length l <= 1)%nat /\
            Forall (fun rq => carries (uid (self w)) rq /\
                              is_invocation model method args kwargs rq) l.
Proof.
  intros [e | db secret Hs Hdb Hkey Hd]; cbn [fst snd after_send self written host sent].
  - sends_nothing.
  - split; [reflexivity |]. split; [reflexivity |]. split; [reflexivity |].
    eexists. split; [reflexivity |]. split; [cbn; lia |].
    constructor; [| constructor]. split.
    + split; reflexivity.
    + exists db, (uid (self w)), secret. reflexivity.
Qed.

Lemma invokes_call_model model method args kwargs :
  invokes 1 (is_invocation model method args kwargs)
    (CallChannel105Fixed.call_model model method args kwargs).
Proof.
  intros w. exact (invocation_invokes "api_key" w model method args kwargs _
                     (call_model_invocation w model method args kwargs)).
Qed.

Lemma invokes_enhanced_call_model model method args kwargs :
  invokes 1 (is_invocation model method args kwargs)
    (EnhancedCleanAndCall105.call_model model method args kwargs).
Proof.
  intros w. exact (invocation_invokes "api_key" w model method args kwargs _
                     (enhanced_call_model_invocation w model method args kwargs)).
Qed.

Lemma invokes_debug_call_model model method args kwargs :
  invokes 1 (is_invocation model method args kwargs)
    (DebugWebrtc.call_model model method args kwargs).
Proof.
  intros w. exact (invocation_invokes "password" w model method args kwargs _
                     (debug_call_model_invocation w model method args kwargs)).
Qed.

(** ** A client that can reach the endpoint *)

Lemma call_model_ready w db key model method args kwargs :
  ready "api_key" w db key ->
  dump args = None -> dump kwargs = None ->
  CallChannel105Fixed.call_model model method args kwargs w =
  (answer w (execute_kw_request (self w) db key model method args kwargs),
   after_send w (execute_kw_request (self w) db key model method args kwargs)).
Proof.
  intros Hr Ha Hk. pose proof Hr as (Hs & Hdb & Hkey & _).
  apply call_model_sends; try assumption.
  exact (ready_dumps "api_key" w db key model method args kwargs Hr Ha Hk).
Qed.

Lemma enhanced_call_model_ready w db key model method args kwargs :
  ready "api_key" w db key ->
  dump args = None -> dump kwargs = None ->
  EnhancedCleanAndCall105.call_model model method args kwargs w =
  (answer w (execute_kw_request (self w) db key model method args kwargs),
   after_send w (execute_kw_request (self w) db key model method args kwargs)).
Proof. intros. rewrite enhanced_call_model_eq. apply call_model_ready; assumption. Qed.

Lemma debug_call_model_ready w db pw model method args kwargs :
  ready "password" w db pw ->
  dump args = None -> dump kwargs = None ->
  DebugWebrtc.call_model model method args kwargs w =
  (answer w (execute_kw_request (self w) db pw model method args kwargs),
   after_send w (execute_kw_request (self w) db pw model method args kwargs)).
Proof.
  intros Hr Ha Hk. pose proof Hr as (Hs & Hdb & Hkey & _).
  apply debug_call_model_sends; try assumption.
  exact (ready_dumps "password" w db pw model method args kwargs Hr Ha Hk).
Qed.

(** ** Looking a channel up *)

(** X1. [get_channel_info] never raises and leaves the state as its one
    [read] invocation left it. A truthy result is always the first element
    of what that read returned; a fault of the read, like an empty answer,
    comes back as [None]. *)
Theorem get_channel_info_reports w channel_id :
  let fields :=
    VDict [("fields", VList [VStr "id"; VStr "name"; VStr "channel_type";
                             VStr "channel_member_ids"])] in
  let holds (get : pyval -> M pyval) (call : string -> string -> pyval -> pyval -> M pyval) :=
    let read := call "discuss.channel" "read" (VList [channel_id]) fields w in
    snd (get channel_id w) = snd read /\
    exists v,
      fst (get channel_id w) = Ret v /\
      (truthy v = true ->
       exists channels, fst read = Ret channels /\ truthy channels = true /\
                        getitem_zero channels = Ret v) /\
      (forall c rest, fst read = Ret (VList (c :: rest)) -> v = c) /\
      (fst read = Ret (VList []) -> v = VNone) /\
      (forall e, fst read = Raise e -> v = VNone) in
  holds CallChannel105Fixed.get_channel_info CallChannel105Fixed.call_model /\
  holds CleanAndCall105.get_channel_info CleanAndCall105.call_model.
Proof.
  intros fields holds.
  assert (H : holds CallChannel105Fixed.get_channel_info CallChannel105Fixed.call_model).
  { unfold holds, CallChannel105Fixed.get_channel_info, try_except, bind. fold fields.
    destruct (CallChannel105Fixed.call_model "discuss.channel" "read" (VList [channel_id])
                fields w) as [[channels | e] w1]; cbn [fst snd].
    - destruct (truthy channels) eqn:Ht; unfold lift, ret.
      + destruct (getitem_zero channels) as [c | e] eqn:Hz; cbn [fst snd].
        * split; [reflexivity |]. exists c. split; [reflexivity |].
          split; [| split; [| split]].
          -- intros _. exists channels. split; [reflexivity |]. split; assumption.
          -- intros c' rest Hc. injection Hc as ->. cbn in Hz. congruence.
          -- intros Hc. injection Hc as ->. discriminate Ht.
          -- intros e He. discriminate He.
        * split; [reflexivity |]. exists VNone. split; [reflexivity |].
          split; [| split; [| split]].
          -- intros Hn. discriminate Hn.
          -- intros c rest Hc. injection Hc as ->. discriminate Hz.
          -- reflexivity.
          -- reflexivity.
      + cbn [fst snd]. split; [reflexivity |]. exists VNone. split; [reflexivity |].
        split; [| split; [| split]].
        * intros Hn. discriminate Hn.
        * intros c rest Hc. injection Hc as ->. discriminate Ht.
        * reflexivity.
        * reflexivity.
    - split; [reflexivity |]. exists VNone. split; [reflexivity |].
      split; [| split; [| split]].
      + intros Hn. discriminate Hn.
      + intros c rest Hc. discriminate Hc.
      + reflexivity.
      + reflexivity. }
  split; exact H.
Qed.

(** X2. The enhanced class reports a channel only if it can print it: with
    the same answer of the server, a first record that lacks [name],
    [channel_type] or a sized [channel_member_ids] comes back as [None],
    while the plain class returns that record. *)
Theorem enhanced_get_channel_info_strict w channel_id db key c rest :
  ready "api_key" w db key ->
  dump channel_id = None ->
  let read :=
    execute_kw_request (self w) db key "discuss.channel" "read" (VList [channel_id])
      (VDict [("fields", VList [VStr "id"; VStr "name"; VStr "channel_type";
                                VStr "channel_member_ids"])]) in
  respond (host w) (sent w) read = Returns (VList (c :: rest)) ->
  let complete :=
    exists name type members n,
      getitem_key c "name" = Ret name /\ getitem_key c "channel_type" = Ret type /\
      getitem_key c "channel_member_ids" = Ret members /\ py_len members = Ret n in
  snd (EnhancedCleanAndCall105.get_channel_info channel_id w) = after_send w read /\
  (complete -> fst (EnhancedCleanAndCall105.get_channel_info channel_id w) = Ret c) /\
  (~ complete -> fst (EnhancedCleanAndCall105.get_channel_info channel_id w) = Ret VNone) /\
  CallChannel105Fixed.get_channel_info channel_id w = (Ret c, after_send w read).
Proof.
  intros Hready Hd read Hresp complete.
  assert (Hk : dump (VDict [("fields", VList [VStr "id"; VStr "name"; VStr "channel_type";
                                              VStr "channel_member_ids"])]) = None)
    by reflexivity.
  assert (Ha : dump (VList [channel_id]) = None) by (cbn; rewrite Hd; reflexivity).
  unfold EnhancedCleanAndCall105.get_channel_info, CallChannel105Fixed.get_channel_info,
    try_except, bind.
  rewrite (enhanced_call_model_ready w db key _ _ _ _ Hready Ha Hk).
  rewrite (call_model_ready w db key _ _ _ _ Hready Ha Hk).
  fold read. unfold answer. rewrite Hresp. cbn [truthy getitem_zero lift ret].
  unfold complete.
  destruct (getitem_key c "name") as [name | e1];
    [| split; [reflexivity |]; split;
       [intros (? & ? & ? & ? & H & _); discriminate H | split; reflexivity]].
  destruct (getitem_key c "channel_type") as [type | e2];
    [| split; [reflexivity |]; split;
       [intros (? & ? & ? & ? & _ & H & _); discriminate H | split; reflexivity]].
  destruct (getitem_key c "channel_member_ids") as [members | e3];
    [| split; [reflexivity |]; split;
       [intros (? & ? & ? & ? & _ & _ & H & _); discriminate H | split; reflexivity]].
  destruct (py_len members) as [n | e4] eqn:Hlen;
    (split; [reflexivity |]; split; [| split; [| reflexivity]]).
  - reflexivity.
  - intros Hn. exfalso. apply Hn. exists name, type, members, n.
    split; [reflexivity |]. split; [reflexivity |]. split; [reflexivity | exact Hlen].
  - intros (? & ? & m & ? & _ & _ & Hm & H). injection Hm as <-.
    rewrite Hlen in H. discriminate H.
  - reflexivity.
Qed.

Lemma demo_ready server :
  ready "api_key" (logged_in_world server) (VStr "db") (VStr "key").
Proof. repeat split; reflexivity. Qed.

Lemma enhanced_get_channel_info_witness :
  fst (EnhancedCleanAndCall105.get_channel_info (VInt 105)
         (logged_in_world bare_channel_server)) = Ret VNone /\
  fst (CallChannel105Fixed.get_channel_info (VInt 105)
         (logged_in_world bare_channel_server)) =
  Ret (VDict [("id", VInt 105); ("name", VStr "general")]).
Proof.
  destruct (enhanced_get_channel_info_strict (logged_in_world bare_channel_server)
              (VInt 105) (VStr "db") (VStr "key")
              (VDict [("id", VInt 105); ("name", VStr "general")]) []
              (demo_ready bare_channel_server) eq_refl eq_refl)
    as (_ & _ & Hnone & Hplain).
  split.
  - apply Hnone. intros (name & type & members & n & _ & H & _). discriminate H.
  - rewrite Hplain. reflexivity.
Defined.

(** ** Creating the call session *)

Lemma try_bind_ret {A : Type} (m : M A) (a : A) (w : world) :
  try_except (bind m (fun x => ret x)) (fun e => ret a) w =
  (match fst (m w) with Ret x => Ret x | Raise _ => Ret a end, snd (m w)).
Proof.
  unfold try_except, bind, ret. destruct (m w) as [[x | e] w1]; reflexivity.
Qed.

(** X3. [create_rtc_session] never raises and assigns nothing. It sends at
    most one request: a [create] on [discuss.channel.rtc.session] whose
    record names the channel, the member and the partner it was given, is
    not muted, and has the camera on exactly for a ['video'] call. What the
    endpoint returns is returned; a fault comes back as [None]. *)
Theorem create_rtc_session_request w channel_id member_id partner_id call_type :
  let holds (create : pyval -> pyval -> pyval -> string -> M pyval) :=
    let r := create channel_id member_id partner_id call_type w in
    (exists v, fst r = Ret v) /\
    self (snd r) = self w /\ written (snd r) = written w /\
    (exists l, sent (snd r) = sent w ++ l /\ (List.length l <= 1)%nat /\
       Forall (fun rq =>
                 model_of rq = Some (VStr "discuss.channel.rtc.session") /\
                 method_of rq = Some (VStr "create") /\
                 exists data,
                   args_of rq = Some (VList [VDict data]) /\
                   assoc "channel_id" data = Some channel_id /\
                   assoc "channel_member_id" data = Some member_id /\
                   assoc "partner_id" data = Some partner_id /\
                   assoc "is_muted" data = Some (VBool false) /\
                   (assoc "is_camera_on" data = Some (VBool true) <->
                    call_type = "video")) l) /\
    (forall rq v, sent (snd r) = sent w ++ [rq] ->
                  respond (host w) (sent w) rq = Returns v -> fst r = Ret v) /\
    (forall rq e, sent (snd r) = sent w ++ [rq] ->
                  respond (host w) (sent w) rq = Faults e -> fst r = Ret VNone) in
  holds CallChannel105Fixed.create_rtc_session /\
  holds CleanAndCall105.create_rtc_session.
Proof.
  intros holds.
  assert (H : holds CallChannel105Fixed.create_rtc_session).
  { unfold holds, CallChannel105Fixed.create_rtc_session. cbv zeta.
    rewrite try_bind_ret.
    destruct (call_model_invocation w "discuss.channel.rtc.session" "create"
                (VList [VDict [("channel_id", channel_id); ("channel_member_id", member_id);
                               ("partner_id", partner_id);
                               ("is_camera_on", VBool (String.eqb call_type "video"));
                               ("is_muted", VBool false);
                               ("is_screen_sharing_on", VBool false);
                               ("is_deaf", VBool false)]]) default_kwargs)
      as [e | db key Hs Hdb Hkey Hd]; cbn [fst snd after_send self written sent].
    - split; [exists VNone; reflexivity |]. split; [reflexivity |]. split; [reflexivity |].
      split.
      + exists []. rewrite app_nil_r. split; [reflexivity |]. split; [cbn; lia | constructor].
      + split; intros rq v Hsent; exfalso; exact (app_one_neq _ _ Hsent).
    - split; [destruct (answer w _); eexists; reflexivity |].
      split; [reflexivity |]. split; [reflexivity |]. split.
      + eexists. split; [reflexivity |]. split; [cbn; lia |].
        constructor; [| constructor].
        split; [reflexivity |]. split; [reflexivity |].
        eexists. split; [reflexivity |]. cbn.
        split; [reflexivity |]. split; [reflexivity |]. split; [reflexivity |].
        split; [reflexivity |].
        destruct (String.eqb_spec call_type "video") as [-> | Hne]; split; intros H;
          try reflexivity; try congruence.
      + split; intros rq v Hsent Hv; apply app_one_inv in Hsent; rewrite Hsent;
          unfold answer; rewrite Hv; reflexivity. }
  split; exact H.
Qed.

Lemma create_rtc_session_witness :
  fst (CleanAndCall105.create_rtc_session (VInt 105) (VInt 42) (VInt 3) "audio"
         (logged_in_world member_server)) = Ret (VInt 43).
Proof.
  destruct (create_rtc_session_request (logged_in_world member_server)
              (VInt 105) (VInt 42) (VInt 3) "audio") as [_ (_ & _ & _ & _ & Hret & _)].
  eapply Hret; [vm_compute; reflexivity | reflexivity].
Defined.

(** X4. The enhanced [create_rtc_session] reads the session back after
    creating it. When the endpoint created session [sid] and then faults on
    that read, the method returns [None]: the session exists on the server,
    nothing but the [create] and the [read] was sent, and the caller is told
    the creation failed. With an empty answer to the read it returns [sid],
    as the plain class does after the [create] alone. *)
Theorem enhanced_create_rtc_session_unverified
    w db key channel_id member_id partner_id call_type sid :
  ready "api_key" w db key ->
  dump channel_id = None -> dump member_id = None -> dump partner_id = None ->
  let session_data :=
    VDict [("channel_id", channel_id); ("channel_member_id", member_id);
           ("partner_id", partner_id);
           ("is_camera_on", VBool (String.eqb call_type "video"));
           ("is_muted", VBool false); ("is_screen_sharing_on", VBool false);
           ("is_deaf", VBool false)] in
  let create :=
    execute_kw_request (self w) db key "discuss.channel.rtc.session" "create"
      (VList [session_data]) default_kwargs in
  let read :=
    execute_kw_request (self w) db key "discuss.channel.rtc.session" "read"
      (VList [sid])
      (VDict [("fields", VList [VStr "id"; VStr "channel_id"; VStr "partner_id";
                                VStr "channel_member_id"; VStr "is_camera_on";
                                VStr "is_muted"; VStr "create_date"])]) in
  respond (host w) (sent w) create = Returns sid ->
  dump sid = None ->
  (forall e,
     respond (host w) (sent w ++ [create]) read = Faults e ->
     EnhancedCleanAndCall105.create_rtc_session channel_id member_id partner_id call_type w =
     (Ret VNone, after_send (after_send w create) read)) /\
  (forall v,
     respond (host w) (sent w ++ [create]) read = Returns v -> truthy v = false ->
     EnhancedCleanAndCall105.create_rtc_session channel_id member_id partner_id call_type w =
     (Ret sid, after_send (after_send w create) read)) /\
  CallChannel105Fixed.create_rtc_session channel_id member_id partner_id call_type w =
  (Ret sid, after_send w create).
Proof.
  intros Hready Hc Hm Hp session_data create read Hcreate Hsid.
  assert (Hdata : dump (VList [session_data]) = None)
    by (cbn; rewrite Hc, Hm, Hp; reflexivity).
  assert (Hargs : dump (VList [sid]) = None) by (cbn; rewrite Hsid; reflexivity).
  assert (Hnone : dump default_kwargs = None) by reflexivity.
  assert (Hstep :
            EnhancedCleanAndCall105.call_model "discuss.channel.rtc.session" "create"
              (VList [session_data]) default_kwargs w = (Ret sid, after_send w create)).
  { rewrite (enhanced_call_model_ready w db key _ _ _ _ Hready Hdata Hnone).
    fold create. unfold answer. rewrite Hcreate. reflexivity. }
  assert (Hread :
            EnhancedCleanAndCall105.call_model "discuss.channel.rtc.session" "read"
              (VList [sid])
              (VDict [("fields", VList [VStr "id"; VStr "channel_id"; VStr "partner_id";
                                        VStr "channel_member_id"; VStr "is_camera_on";
                                        VStr "is_muted"; VStr "create_date"])])
              (after_send w create) =
            (answer (after_send w create) read, after_send (after_send w create) read)).
  { apply (enhanced_call_model_ready (after_send w create) db key);
      [exact (ready_after_send "api_key" w db key create Hready) | exact Hargs | reflexivity]. }
  split; [| split].
  - intros e He. unfold EnhancedCleanAndCall105.create_rtc_session, try_except. cbv zeta.
    fold session_data. unfold bind at 1. rewrite Hstep.
    unfold bind at 1. rewrite Hread. unfold answer. cbn [host sent after_send].
    rewrite He. reflexivity.
  - intros v Hv Ht. unfold EnhancedCleanAndCall105.create_rtc_session, try_except. cbv zeta.
    fold session_data. unfold bind at 1. rewrite Hstep.
    unfold bind at 1. rewrite Hread. unfold answer. cbn [host sent after_send].
    rewrite Hv. unfold bind. rewrite Ht. reflexivity.
  - unfold CallChannel105Fixed.create_rtc_session. cbv zeta. fold session_data.
    rewrite try_bind_ret.
    rewrite (call_model_ready w db key _ _ _ _ Hready Hdata Hnone).
    fold create. unfold answer. rewrite Hcreate. reflexivity.
Qed.

Lemma enhanced_create_rtc_session_witness :
  fst (EnhancedCleanAndCall105.create_rtc_session (VInt 105) (VInt 42) (VInt 3) "audio"
         (logged_in_world (table_server [("create", Returns (VInt 9));
                                         ("read", access_denied)]))) = Ret VNone /\
  fst (CallChannel105Fixed.create_rtc_session (VInt 105) (VInt 42) (VInt 3) "audio"
         (logged_in_world (table_server [("create", Returns (VInt 9));
                                         ("read", access_denied)]))) = Ret (VInt 9).
Proof.
  destruct (enhanced_create_rtc_session_unverified
              (logged_in_world (table_server [("create", Returns (VInt 9));
                                              ("read", access_denied)]))
              (VStr "db") (VStr "key") (VInt 105) (VInt 42) (VInt 3) "audio" (VInt 9)
              (demo_ready _) eq_refl eq_refl eq_refl eq_refl eq_refl)
    as (Hfault & _ & Hplain).
  split.
  - rewrite (Hfault _ eq_refl). reflexivity.
  - rewrite Hplain. reflexivity.
Defined.

(** ** Ending the call *)






Lemma never_raises_bind {A B : Type} (m : M A) (f : A -> M B) :
  never_raises m -> (forall a, never_raises (f a)) -> never_raises (bind m f).
Proof.
  intros Hm Hf w. unfold bind. destruct (Hm w) as [a Ha].
  destruct (m w) as [[a' | e] w1]; cbn [fst] in Ha; [| discriminate Ha].
  apply Hf.
Qed.

Lemma watch_session_never_raises session_id ticks :
  never_raises (EnhancedCleanAndCall105.watch_session session_id ticks).
Proof.
  induction ticks as [| t ticks IH]; cbn [EnhancedCleanAndCall105.watch_session].
  - apply never_raises_ret.
  - apply never_raises_bind.
    + apply never_raises_try. intros e. apply never_raises_ret.
    + intros [u |]; [apply never_raises_ret |].
      apply never_raises_bind; [| intros _; exact IH].
      intros w. exists tt. reflexivity.
Qed.

Lemma watch_session_invokes session_id ticks :
  invokes (List.length ticks)
    (is_invocation "discuss.channel.rtc.session" "search"
       (VList [VList [VList [VStr "id"; VStr "="; session_id]]]) default_kwargs)
    (EnhancedCleanAndCall105.watch_session session_id ticks).
Proof.
  induction ticks as [| t ticks IH]; cbn [EnhancedCleanAndCall105.watch_session List.length].
  - apply invokes_ret.
  - change (S (List.length ticks)) with ((1 + 0) + (0 + List.length ticks))%nat.
    apply invokes_bind.
    + apply invokes_try; [| intros e; apply invokes_ret].
      change 1%nat with (1 + 0)%nat. apply invokes_bind.
      * apply invokes_enhanced_call_model.
      * intros v. destruct (truthy v); apply invokes_ret.
    + intros [u |].
      * eapply (invokes_weaken 0); [lia | intros rq H; exact H | apply invokes_ret].
      * apply invokes_bind; [apply invokes_sleep | intros _; exact IH].
Qed.

(** X6. The enhanced [cleanup_session] never raises and assigns nothing.
    What it sends is a run of status checks, one per tick of the countdown
    at most, followed by nothing, by the final [search_read] alone, or by
    that [search_read] and the [unlink] of the session: the [unlink] is the
    last request, and it is sent only after the final check was answered with
    a non-empty result. *)
Theorem enhanced_cleanup_session_shape w session_id delay :
  let r := EnhancedCleanAndCall105.cleanup_session session_id delay w in
  let domain := VList [VList [VList [VStr "id"; VStr "="; session_id]]] in
  fst r = Ret tt /\ self (snd r) = self w /\ written (snd r) = written w /\
  exists checks tail,
    sent (snd r) = sent w ++ checks ++ tail /\
    (List.length checks <= List.length (range_down delay 10))%nat /\
    Forall (is_invocation "discuss.channel.rtc.session" "search" domain default_kwargs)
      checks /\
    (tail = [] \/
     (exists final,
        tail = [final] /\
        is_invocation "discuss.channel.rtc.session" "search_read" domain
          (VDict [("fields", VList [VStr "id"; VStr "create_date"])]) final) \/
     (exists final unlink v,
        tail = [final; unlink] /\
        is_invocation "discuss.channel.rtc.session" "search_read" domain
          (VDict [("fields", VList [VStr "id"; VStr "create_date"])]) final /\
        is_invocation "discuss.channel.rtc.session" "unlink" (VList [session_id])
          default_kwargs unlink /\
        respond (host w) (sent w ++ checks) final = Returns v /\ truthy v = true)).
Proof.
  intros r domain.
  enough (H : exists w',
             EnhancedCleanAndCall105.cleanup_session session_id delay w = (Ret tt, w') /\
             self w' = self w /\ written w' = written w /\
             exists checks tail,
               sent w' = sent w ++ checks ++ tail /\
               (List.length checks <= List.length (range_down delay 10))%nat /\
               Forall (is_invocation "discuss.channel.rtc.session" "search" domain
                         default_kwargs) checks /\
               (tail = [] \/
                (exists final,
                   tail = [final] /\
                   is_invocation "discuss.channel.rtc.session" "search_read" domain
                     (VDict [("fields", VList [VStr "id"; VStr "create_date"])]) final) \/
                (exists final unlink v,
                   tail = [final; unlink] /\
                   is_invocation "discuss.channel.rtc.session" "search_read" domain
                     (VDict [("fields", VList [VStr "id"; VStr "create_date"])]) final /\
                   is_invocation "discuss.channel.rtc.session" "unlink" (VList [session_id])
                     default_kwargs unlink /\
                   respond (host w) (sent w ++ checks) final = Returns v /\
                   truthy v = true))).
  { destruct H as (w' & Heq & H). unfold r. rewrite Heq. cbn [fst snd].
    split; [reflexivity | exact H]. }
  unfold EnhancedCleanAndCall105.cleanup_session, try_except.
  unfold bind at 1.
  destruct (watch_session_invokes session_id (range_down delay 10) w)
    as (Hself & Hwr & Hhost & checks & Hsent & Hlen & Hchecks).
  destruct (watch_session_never_raises session_id (range_down delay 10) w) as [o Ho].
  destruct (EnhancedCleanAndCall105.watch_session session_id (range_down delay 10) w)
    as [[o' | e] w1]; cbn [fst snd] in *; [| discriminate Ho].
  assert (Hsearch : Forall (is_invocation "discuss.channel.rtc.session" "search" domain
                              default_kwargs) checks).
  { eapply Forall_impl; [exact Hchecks |]. intros rq [_ H]. exact H. }
  assert (Hnone : exists checks tail : list rpc,
             sent w1 = sent w ++ checks ++ tail /\
             (List.length checks <= List.length (range_down delay 10))%nat /\
             Forall (is_invocation "discuss.channel.rtc.session" "search" domain
                       default_kwargs) checks /\
             (tail = [] \/
              (exists final,
                 tail = [final] /\
                 is_invocation "discuss.channel.rtc.session" "search_read" domain
                   (VDict [("fields", VList [VStr "id"; VStr "create_date"])]) final) \/
              (exists final unlink v,
                 tail = [final; unlink] /\
                 is_invocation "discuss.channel.rtc.session" "search_read" domain
                   (VDict [("fields", VList [VStr "id"; VStr "create_date"])]) final /\
                 is_invocation "discuss.channel.rtc.session" "unlink" (VList [session_id])
                   default_kwargs unlink /\
                 respond (host w) (sent w ++ checks) final = Returns v /\
                 truthy v = true))).
  { exists checks, []. rewrite app_nil_r.
    split; [exact Hsent |]. split; [exact Hlen |]. split; [exact Hsearch |].
    left. reflexivity. }
  destruct o' as [u |].
  - exists w1. cbn. destruct u. split; [reflexivity |]. split; [exact Hself |].
    split; [exact Hwr | exact Hnone].
  - unfold bind at 1. fold domain.
    destruct (enhanced_call_model_invocation w1 "discuss.channel.rtc.session" "search_read"
                domain (VDict [("fields", VList [VStr "id"; VStr "create_date"])]))
      as [e | db key Hs Hdb Hkey Hd].
    + exists w1. cbn. split; [reflexivity |]. split; [exact Hself |].
      split; [exact Hwr | exact Hnone].
    + set (final := execute_kw_request (self w1) db key "discuss.channel.rtc.session"
                      "search_read" domain
                      (VDict [("fields", VList [VStr "id"; VStr "create_date"])])).
      assert (Hfinal : is_invocation "discuss.channel.rtc.session" "search_read" domain
                         (VDict [("fields", VList [VStr "id"; VStr "create_date"])]) final).
      { exists db, (uid (self w1)), key. reflexivity. }
      assert (Hone : exists checks0 tail : list rpc,
                 sent (after_send w1 final) = sent w ++ checks0 ++ tail /\
                 (List.length checks0 <= List.length (range_down delay 10))%nat /\
                 Forall (is_invocation "discuss.channel.rtc.session" "search" domain
                           default_kwargs) checks0 /\
                 (tail = [] \/
                  (exists final0,
                     tail = [final0] /\
                     is_invocation "discuss.channel.rtc.session" "search_read" domain
                       (VDict [("fields", VList [VStr "id"; VStr "create_date"])]) final0) \/
                  (exists final0 unlink v,
                     tail = [final0; unlink] /\
                     is_invocation "discuss.channel.rtc.session" "search_read" domain
                       (VDict [("fields", VList [VStr "id"; VStr "create_date"])]) final0 /\
                     is_invocation "discuss.channel.rtc.session" "unlink"
                       (VList [session_id]) default_kwargs unlink /\
                     respond (host w) (sent w ++ checks0) final0 = Returns v /\
                     truthy v = true))).
      { exists checks, [final]. cbn [after_send sent]. rewrite Hsent, <- app_assoc.
        split; [reflexivity |]. split; [exact Hlen |]. split; [exact Hsearch |].
        right. left. exists final. split; [reflexivity | exact Hfinal]. }
      unfold answer. rewrite Hhost, Hsent.
      destruct (respond (host w) (sent w ++ checks) final) as [v | e] eqn:Hresp.
      * destruct (truthy v) eqn:Ht.
        -- unfold bind at 1.
           destruct (enhanced_call_model_invocation (after_send w1 final)
                       "discuss.channel.rtc.session" "unlink" (VList [session_id])
                       default_kwargs) as [e | db' key' Hs' Hdb' Hkey' Hd'].
           ++ exists (after_send w1 final). cbn -[after_send].
              split; [reflexivity |]. split; [exact Hself |]. split; [exact Hwr | exact Hone].
           ++ set (unlink := execute_kw_request (self (after_send w1 final)) db' key'
                               "discuss.channel.rtc.session" "unlink" (VList [session_id])
                               default_kwargs).
              exists (after_send (after_send w1 final) unlink).
              split; [destruct (answer (after_send w1 final) unlink); reflexivity |].
              split; [exact Hself |]. split; [exact Hwr |].
              exists checks, [final; unlink]. cbn [after_send sent].
              rewrite Hsent, <- !app_assoc.
              split; [reflexivity |]. split; [exact Hlen |]. split; [exact Hsearch |].
              right. right. exists final, unlink, v.
              split; [reflexivity |]. split; [exact Hfinal |].
              split; [exists db', (uid (self w1)), key'; reflexivity |].
              split; [exact Hresp | exact Ht].
        -- exists (after_send w1 final). cbn -[after_send].
           split; [reflexivity |]. split; [exact Hself |]. split; [exact Hwr | exact Hone].
      * exists (after_send w1 final). cbn -[after_send].
        split; [reflexivity |]. split; [exact Hself |]. split; [exact Hwr | exact Hone].
Qed.


Lemma range_down_nonpositive start step : start <= 0 -> range_down start step = [].
Proof.
  intros Hle. unfold range_down.
  destruct (Z.to_nat start) as [| n] eqn:Hn; [reflexivity | lia].
Qed.



(** ** The enhanced cleanup and membership check *)

(** X8. The enhanced [cleanup_existing_sessions] returns [True] from every
    state, like the plain one. It reads the sessions it found before deleting
    them: when that read faults, no [unlink] is sent and the sessions stay,
    where the plain class, given the same answer to its search, sends the
    [unlink]. *)
Theorem enhanced_cleanup_existing_sessions_read_first w channel_id :
  fst (EnhancedCleanAndCall105.cleanup_existing_sessions channel_id w) = Ret true /\
  forall db key sessions n e,
    ready "api_key" w db key ->
    dump channel_id = None ->
    let domain :=
      VList [VList (if truthy channel_id
                    then [VList [VStr "channel_id"; VStr "="; channel_id]]
                    else [])] in
    let search :=
      execute_kw_request (self w) db key "discuss.channel.rtc.session" "search"
        domain default_kwargs in
    let read :=
      execute_kw_request (self w) db key "discuss.channel.rtc.session" "read"
        (VList [sessions])
        (VDict [("fields", VList [VStr "id"; VStr "channel_id"; VStr "partner_id";
                                  VStr "create_date"])]) in
    let unlink :=
      execute_kw_request (self w) db key "discuss.channel.rtc.session" "unlink"
        (VList [sessions]) default_kwargs in
    respond (host w) (sent w) search = Returns sessions ->
    truthy sessions = true -> py_len sessions = Ret n -> dump sessions = None ->
    respond (host w) (sent w ++ [search]) read = Faults e ->
    snd (EnhancedCleanAndCall105.cleanup_existing_sessions channel_id w) =
      after_send (after_send w search) read /\
    snd (CleanAndCall105.cleanup_existing_sessions channel_id w) =
      after_send (after_send w search) unlink.
Proof.
  split.
  - unfold EnhancedCleanAndCall105.cleanup_existing_sessions, try_except. cbv zeta.
    unfold bind at 1.
    destruct (EnhancedCleanAndCall105.call_model _ _ _ _ w) as [[existing | e] w1];
      [| reflexivity].
    unfold bind at 1.
    match goal with
    | |- context [(if ?c then ?m1 else ?m2) w1] =>
        destruct ((if c then m1 else m2) w1) as [[u | e] w2]
    end; reflexivity.
  - intros db key sessions n e Hready Hd domain search read unlink Hsearch Ht Hlen Hs Hread.
    assert (Hdomain : dump domain = None).
    { unfold domain. destruct (truthy channel_id); cbn; [rewrite Hd |]; reflexivity. }
    assert (Hargs : dump (VList [sessions]) = None) by (cbn; rewrite Hs; reflexivity).
    assert (Hready1 : ready "api_key" (after_send w search) db key) by exact Hready.
    split.
    + unfold EnhancedCleanAndCall105.cleanup_existing_sessions, try_except. cbv zeta.
      fold domain. unfold bind at 1.
      rewrite (enhanced_call_model_ready w db key _ _ domain default_kwargs
                 Hready Hdomain eq_refl).
      fold search. unfold answer at 1. rewrite Hsearch, Ht.
      unfold bind at 1. unfold bind at 1. unfold lift at 1. rewrite Hlen.
      unfold bind at 1.
      rewrite (enhanced_call_model_ready (after_send w search) db key _ _ (VList [sessions])
                 (VDict [("fields", VList [VStr "id"; VStr "channel_id"; VStr "partner_id";
                                           VStr "create_date"])])
                 Hready1 Hargs eq_refl).
      change (execute_kw_request (self (after_send w search)) db key
                "discuss.channel.rtc.session" "read" (VList [sessions])
                (VDict [("fields", VList [VStr "id"; VStr "channel_id"; VStr "partner_id";
                                          VStr "create_date"])])) with read.
      unfold answer. cbn [host sent after_send]. rewrite Hread. reflexivity.
    + unfold CleanAndCall105.cleanup_existing_sessions, try_except. cbv zeta.
      fold domain. unfold bind at 1.
      rewrite (call_model_ready w db key _ _ domain default_kwargs Hready Hdomain eq_refl).
      fold search. unfold answer at 1. rewrite Hsearch, Ht.
      unfold bind at 1. unfold bind at 1. unfold lift at 1. rewrite Hlen.
      unfold bind at 1.
      rewrite (call_model_ready (after_send w search) db key _ _ (VList [sessions])
                 default_kwargs Hready1 Hargs eq_refl).
      change (execute_kw_request (self (after_send w search)) db key
                "discuss.channel.rtc.session" "unlink" (VList [sessions])
                default_kwargs) with unlink.
      destruct (answer (after_send w search) unlink); unfold bind, lift; rewrite ?Hlen;
        reflexivity.
Qed.

Lemma enhanced_cleanup_existing_sessions_witness :
  map (fun rq => nth 4 (rpc_params rq) VNone)
    (sent (snd (EnhancedCleanAndCall105.cleanup_existing_sessions (VInt 105)
                  (logged_in_world (table_server [("search", Returns (VList [VInt 9]));
                                                  ("read", access_denied)]))))) =
  [VStr "search"; VStr "read"] /\
  map (fun rq => nth 4 (rpc_params rq) VNone)
    (sent (snd (CleanAndCall105.cleanup_existing_sessions (VInt 105)
                  (logged_in_world (table_server [("search", Returns (VList [VInt 9]));
                                                  ("read", access_denied)]))))) =
  [VStr "search"; VStr "unlink"].
Proof.
  destruct (enhanced_cleanup_existing_sessions_read_first
              (logged_in_world (table_server [("search", Returns (VList [VInt 9]));
                                              ("read", access_denied)])) (VInt 105))
    as [_ H].
  destruct (H (VStr "db") (VStr "key") (VList [VInt 9]) 1
              (Exn "Fault" "<Fault 3: 'Access Denied'>")
              (demo_ready _) eq_refl eq_refl eq_refl eq_refl eq_refl eq_refl)
    as [Henhanced Hplain].
  rewrite Henhanced, Hplain. split; reflexivity.
Defined.

(** X9. The enhanced [ensure_channel_member] reads an existing membership
    back before returning it. When a member record is found and that read
    faults, the method returns [None] without creating anything: the caller
    is told there is no membership although there is one. When the read is
    answered with an empty result or with a list, the [id] found is
    returned. *)
Theorem enhanced_ensure_channel_member_verifies
    w db key channel_id partner_id first rest i :
  ready "api_key" w db key ->
  dump channel_id = None -> dump partner_id = None ->
  let search :=
    execute_kw_request (self w) db key "discuss.channel.member" "search_read"
      (VList [VList [VList [VStr "channel_id"; VStr "="; channel_id];
                     VList [VStr "partner_id"; VStr "="; partner_id]]])
      (VDict [("fields", VList [VStr "id"; VStr "channel_id"; VStr "partner_id"])]) in
  let read :=
    execute_kw_request (self w) db key "discuss.channel.member" "read" (VList [i])
      (VDict [("fields", VList [VStr "id"; VStr "channel_id"; VStr "partner_id";
                                VStr "create_date"])]) in
  respond (host w) (sent w) search = Returns (VList (first :: rest)) ->
  getitem_key first "id" = Ret i ->
  dump i = None ->
  (forall e,
     respond (host w) (sent w ++ [search]) read = Faults e ->
     EnhancedCleanAndCall105.ensure_channel_member channel_id partner_id w =
     (Ret VNone, after_send (after_send w search) read)) /\
  (forall detail,
     respond (host w) (sent w ++ [search]) read = Returns (VList detail) ->
     EnhancedCleanAndCall105.ensure_channel_member channel_id partner_id w =
     (Ret i, after_send (after_send w search) read)).
Proof.
  intros Hready Hc Hp search read Hsearch Hid Hi.
  assert (Hdomain : dump (VList [VList [VList [VStr "channel_id"; VStr "="; channel_id];
                                        VList [VStr "partner_id"; VStr "="; partner_id]]])
                    = None) by (cbn; rewrite Hc, Hp; reflexivity).
  assert (Hargs : dump (VList [i]) = None) by (cbn; rewrite Hi; reflexivity).
  assert (Hready1 : ready "api_key" (after_send w search) db key) by exact Hready.
  assert (Hstart :
            forall k : pyval -> M pyval,
              bind (EnhancedCleanAndCall105.call_model "discuss.channel.member" "search_read"
                      (VList [VList [VList [VStr "channel_id"; VStr "="; channel_id];
                                     VList [VStr "partner_id"; VStr "="; partner_id]]])
                      (VDict [("fields", VList [VStr "id"; VStr "channel_id";
                                                VStr "partner_id"])])) k w =
              k (VList (first :: rest)) (after_send w search)).
  { intros k. unfold bind at 1.
    rewrite (enhanced_call_model_ready w db key _ _ _
               (VDict [("fields", VList [VStr "id"; VStr "channel_id"; VStr "partner_id"])])
               Hready Hdomain eq_refl).
    fold search. unfold answer. rewrite Hsearch. reflexivity. }
  assert (Hcheck :
            EnhancedCleanAndCall105.call_model "discuss.channel.member" "read" (VList [i])
              (VDict [("fields", VList [VStr "id"; VStr "channel_id"; VStr "partner_id";
                                        VStr "create_date"])]) (after_send w search) =
            (answer (after_send w search) read, after_send (after_send w search) read)).
  { apply (enhanced_call_model_ready (after_send w search) db key);
      [exact Hready1 | exact Hargs | reflexivity]. }
  split.
  - intros e He. unfold EnhancedCleanAndCall105.ensure_channel_member, try_except.
    rewrite Hstart. cbn [truthy].
    unfold bind at 1. unfold bind at 1. unfold lift at 1. cbn [getitem_zero].
    unfold bind at 1. unfold lift at 1. rewrite Hid.
    unfold bind at 1. rewrite Hcheck. unfold answer. cbn [host sent after_send].
    rewrite He. reflexivity.
  - intros detail Hd. unfold EnhancedCleanAndCall105.ensure_channel_member, try_except.
    rewrite Hstart. cbn [truthy].
    unfold bind at 1. unfold bind at 1. unfold lift at 1. cbn [getitem_zero].
    unfold bind at 1. unfold lift at 1. rewrite Hid.
    unfold bind at 1. rewrite Hcheck. unfold answer. cbn [host sent after_send].
    rewrite Hd. destruct detail as [| d0 ds]; reflexivity.
Qed.

Lemma enhanced_ensure_channel_member_witness :
  fst (EnhancedCleanAndCall105.ensure_channel_member (VInt 105) (VInt 3)
         (logged_in_world (table_server
            [("search_read", Returns (VList [VDict [("id", VInt 42)]]));
             ("read", access_denied)]))) = Ret VNone.
Proof.
  destruct (enhanced_ensure_channel_member_verifies
              (logged_in_world (table_server
                 [("search_read", Returns (VList [VDict [("id", VInt 42)]]));
                  ("read", access_denied)]))
              (VStr "db") (VStr "key") (VInt 105) (VInt 3)
              (VDict [("id", VInt 42)]) [] (VInt 42)
              (demo_ready _) eq_refl eq_refl eq_refl eq_refl eq_refl) as [Hfault _].
  rewrite (Hfault _ eq_refl). reflexivity.
Defined.

(** ** quick-webrtc-fix.py: the analysis *)

Lemma required_names_of_dicts (items : list (string * pyval)) :
  Forall (fun kv => exists info, snd kv = VDict info) items ->
  QuickWebrtcFix.required_names items =
  Ret (map fst (List.filter
                  (fun kv => match py_get (snd kv) "required" with
                             | Ret v => truthy v
                             | Raise _ => false
                             end) items)).
Proof.
  induction 1 as [| [name info] items [d Hd] _ IH]; [reflexivity |].
  cbn [QuickWebrtcFix.required_names List.filter snd] in *. subst info.
  cbn [py_get]. rewrite IH.
  destruct (assoc "required" d) as [v |]; cbn [truthy]; [| reflexivity].
  destruct (truthy v); reflexivity.
Qed.

Lemma required_names_not_dict (items : list (string * pyval)) :
  Exists (fun kv => forall info, snd kv <> VDict info) items ->
  exists e, QuickWebrtcFix.required_names items = Raise e.
Proof.
  induction 1 as [[name info] items Hn | [name info] items _ [e IH]];
    cbn [QuickWebrtcFix.required_names snd] in *.
  - destruct info; try (eexists; reflexivity). exfalso. exact (Hn d eq_refl).
  - destruct (py_get info "required"); [| eexists; reflexivity].
    rewrite IH. eexists. reflexivity.
Qed.

(** X10. [analyze_rtc_issue] never raises and leaves the state as its one
    [fields_get] invocation left it. From an answer that maps every field to
    a dictionary it returns, in the order of the answer, exactly the names
    of the fields whose ['required'] entry is truthy. A fault, or a single
    field whose description is not a dictionary, gives the empty list. *)
Theorem analyze_rtc_issue_lists_required w :
  let fields_get :=
    QuickWebrtcFix.call_model "discuss.channel.rtc.session" "fields_get"
      default_args default_kwargs w in
  snd (QuickWebrtcFix.analyze_rtc_issue w) = snd fields_get /\
  (exists names, fst (QuickWebrtcFix.analyze_rtc_issue w) = Ret names) /\
  (forall fields,
     fst fields_get = Ret (VDict fields) ->
     Forall (fun kv => exists info, snd kv = VDict info) fields ->
     fst (QuickWebrtcFix.analyze_rtc_issue w) =
     Ret (map fst (List.filter
                     (fun kv => match py_get (snd kv) "required" with
                                | Ret v => truthy v
                                | Raise _ => false
                                end) fields))) /\
  (forall fields,
     fst fields_get = Ret (VDict fields) ->
     Exists (fun kv => forall info, snd kv <> VDict info) fields ->
     fst (QuickWebrtcFix.analyze_rtc_issue w) = Ret []) /\
  (forall e, fst fields_get = Raise e -> fst (QuickWebrtcFix.analyze_rtc_issue w) = Ret []).
Proof.
  intros fields_get. unfold fields_get, QuickWebrtcFix.analyze_rtc_issue, try_except, bind.
  destruct (QuickWebrtcFix.call_model "discuss.channel.rtc.session" "fields_get"
              default_args default_kwargs w) as [[v | e] w1]; cbn [fst snd].
  - unfold lift, ret.
    destruct (py_items v) as [items | e] eqn:Hitems; cbn [fst snd].
    + destruct v; try discriminate Hitems. injection Hitems as <-.
      destruct (QuickWebrtcFix.required_names d) as [names | e] eqn:Hnames; cbn [fst snd].
      * split; [reflexivity |]. split; [eexists; reflexivity |].
        split; [| split; [| intros e He; discriminate He]].
        -- intros fields Hf Hall. injection Hf as <-.
           rewrite (required_names_of_dicts d Hall) in Hnames. symmetry. exact Hnames.
        -- intros fields Hf Hex. injection Hf as <-.
           destruct (required_names_not_dict d Hex) as [e He]. congruence.
      * split; [reflexivity |]. split; [eexists; reflexivity |].
        split; [| split; [| intros e' He; discriminate He]].
        -- intros fields Hf Hall. injection Hf as <-.
           rewrite (required_names_of_dicts d Hall) in Hnames. discriminate Hnames.
        -- reflexivity.
    + split; [reflexivity |]. split; [eexists; reflexivity |].
      split; [| split; [| intros e' He; discriminate He]].
      * intros fields Hf. injection Hf as ->. discriminate Hitems.
      * intros fields Hf. injection Hf as ->. discriminate Hitems.
  - split; [reflexivity |]. split; [eexists; reflexivity |].
    split; [| split; [| reflexivity]]; intros fields Hf; discriminate Hf.
Qed.

Lemma analyze_rtc_issue_witness :
  fst (QuickWebrtcFix.analyze_rtc_issue
         (logged_in_world (table_server [("fields_get", Returns (VDict rtc_fields))]))) =
  Ret ["channel_id"; "channel_member_id"].
Proof.
  destruct (analyze_rtc_issue_lists_required
              (logged_in_world (table_server [("fields_get", Returns (VDict rtc_fields))])))
    as (_ & _ & H & _).
  rewrite (H rtc_fields eq_refl).
  - reflexivity.
  - repeat constructor; eexists; reflexivity.
Defined.

Lemma quick_call_model_ready w db key model method args kwargs :
  ready "api_key" w db key ->
  dump args = None -> dump kwargs = None ->
  QuickWebrtcFix.call_model model method args kwargs w =
  (answer w (execute_kw_request (self w) db key model method args kwargs),
   after_send w (execute_kw_request (self w) db key model method args kwargs)).
Proof. exact (call_model_ready w db key model method args kwargs). Qed.

Ltac step_scrutinee :=
  match goal with
  | |- context [match ?x with _ => _ end] =>
      lazymatch x with
      | context [match _ with _ => _ end] => fail
      | _ => destruct x eqn:?
      end
  | |- context [if ?x then _ else _] =>
      lazymatch x with
      | context [match _ with _ => _ end] => fail
      | _ => destruct x eqn:?
      end
  end; cbv beta iota zeta.

Lemma test_channel_member_creation_tuple w :
  exists t, fst (QuickWebrtcFix.test_channel_member_creation w) = Ret t /\
            (List.length t = 3%nat \/ t = [VNone; VNone]).
Proof.
  unfold QuickWebrtcFix.test_channel_member_creation, try_except, bind, lift, ret, get_uid.
  repeat step_scrutinee;
    (eexists; split; [reflexivity |]; first [left; reflexivity | right; reflexivity]).
Qed.

(** X11. [test_channel_member_creation] never raises. The tuple it returns
    has three components, except when the channel search comes back empty:
    then it is the pair [(None, None)], after the two requests made so far. *)
Theorem test_channel_member_creation_arity w :
  (exists t, fst (QuickWebrtcFix.test_channel_member_creation w) = Ret t /\
             (List.length t = 3%nat \/ t = [VNone; VNone])) /\
  forall db key user_data user partner partner_id channels,
    ready "api_key" w db key ->
    let read :=
      execute_kw_request (self w) db key "res.users" "read" (VList [uid (self w)])
        (VDict [("fields", VList [VStr "partner_id"])]) in
    let search :=
      execute_kw_request (self w) db key "discuss.channel" "search" (VList [VList []])
        (VDict [("limit", VInt 1)]) in
    respond (host w) (sent w) read = Returns user_data ->
    getitem_zero user_data = Ret user ->
    getitem_key user "partner_id" = Ret partner ->
    getitem_zero partner = Ret partner_id ->
    respond (host w) (sent w ++ [read]) search = Returns channels ->
    truthy channels = false ->
    QuickWebrtcFix.test_channel_member_creation w =
    (Ret [VNone; VNone], after_send (after_send w read) search).
Proof.
  split.
  - exact (test_channel_member_creation_tuple w).
  - intros db key user_data user partner partner_id channels Hready read search
      Hread Huser Hpartner Hid Hsearch Ht.
    assert (Huid : dump (VList [uid (self w)]) = None).
    { destruct Hready as (_ & _ & _ & Hd). revert Hd. cbn [dumps dump].
      destruct (dump db); [discriminate |].
      destruct (dump (uid (self w))); [discriminate | reflexivity]. }
    unfold QuickWebrtcFix.test_channel_member_creation, try_except.
    unfold bind at 1. unfold get_uid at 1. cbv beta iota.
    unfold bind at 1.
    rewrite (quick_call_model_ready w db key "res.users" "read" (VList [uid (self w)])
               (VDict [("fields", VList [VStr "partner_id"])]) Hready Huid eq_refl).
    fold read. unfold answer at 1. rewrite Hread.
    unfold bind at 1. unfold lift at 1. rewrite Huser.
    unfold bind at 1. unfold lift at 1. rewrite Hpartner.
    unfold bind at 1. unfold lift at 1. rewrite Hid.
    unfold bind at 1.
    rewrite (quick_call_model_ready (after_send w read) db key "discuss.channel" "search"
               (VList [VList []]) (VDict [("limit", VInt 1)])
               (ready_after_send "api_key" w db key read Hready) eq_refl eq_refl).
    change (execute_kw_request (self (after_send w read)) db key "discuss.channel" "search"
              (VList [VList []]) (VDict [("limit", VInt 1)])) with search.
    unfold answer. cbn [host sent after_send]. rewrite Hsearch, Ht. reflexivity.
Qed.

Lemma test_channel_member_creation_witness :
  fst (QuickWebrtcFix.test_channel_member_creation (logged_in_world no_channel_server)) =
  Ret [VNone; VNone] /\
  List.length (sent (snd (QuickWebrtcFix.test_channel_member_creation
                            (logged_in_world no_channel_server)))) = 2%nat.
Proof.
  destruct (test_channel_member_creation_arity (logged_in_world no_channel_server))
    as [_ H].
  rewrite (H (VStr "db") (VStr "key")
             (VList [VDict [("partner_id", VList [VInt 3; VStr "Caller"])]])
             (VDict [("partner_id", VList [VInt 3; VStr "Caller"])])
             (VList [VInt 3; VStr "Caller"]) (VInt 3) (VList [])
             (demo_ready no_channel_server) eq_refl eq_refl eq_refl eq_refl eq_refl eq_refl).
  split; reflexivity.
Defined.

Lemma quick_call_model_invokes (P : rpc -> Prop) model method args kwargs :
  (forall rq, is_invocation model method args kwargs rq -> P rq) ->
  invokes 1 P (QuickWebrtcFix.call_model model method args kwargs).
Proof.
  intros HP. apply (invokes_weaken 1 1 (is_invocation model method args kwargs) P);
    [lia | exact HP |].
  exact (invokes_call_model model method args kwargs).
Qed.

Lemma analyze_rtc_issue_invokes : invokes 1 (fun _ => True) QuickWebrtcFix.analyze_rtc_issue.
Proof.
  unfold QuickWebrtcFix.analyze_rtc_issue.
  apply (invokes_try 1 0); [| intros e; apply invokes_ret].
  apply (invokes_bind 1 0); [apply quick_call_model_invokes; auto | intros fields].
  apply (invokes_bind 0 0); [apply invokes_lift | intros items].
  apply (invokes_bind 0 0); [apply invokes_lift | intros names; apply invokes_ret].
Qed.

Lemma test_channel_member_creation_invokes :
  invokes 4 (fun _ => True) QuickWebrtcFix.test_channel_member_creation.
Proof.
  unfold QuickWebrtcFix.test_channel_member_creation.
  apply (invokes_try 4 0); [| intros e; apply invokes_ret].
  apply (invokes_bind 0 4); [apply invokes_get_uid | intros u].
  apply (invokes_bind 1 3); [apply quick_call_model_invokes; auto | intros user_data].
  apply (invokes_bind 0 3); [apply invokes_lift | intros user].
  apply (invokes_bind 0 3); [apply invokes_lift | intros partner].
  apply (invokes_bind 0 3); [apply invokes_lift | intros partner_id].
  apply (invokes_bind 1 2); [apply quick_call_model_invokes; auto | intros channels].
  destruct (negb (truthy channels)).
  { apply (invokes_weaken 0 2 (fun _ => True)); [lia | auto | apply invokes_ret]. }
  apply (invokes_bind 0 2); [apply invokes_lift | intros channel_id].
  apply (invokes_bind 1 1); [apply quick_call_model_invokes; auto | intros members].
  apply (invokes_bind 1 0); [| intros member_id; apply invokes_ret].
  destruct (truthy members).
  - apply (invokes_weaken 0 1 (fun _ => True)); [lia | auto |].
    apply (invokes_bind 0 0); [apply invokes_lift | intros first; apply invokes_lift].
  - apply quick_call_model_invokes; auto.
Qed.

Lemma test_rtc_session_with_member_invokes (P : rpc -> Prop)
    channel_id member_id partner_id :
  (forall rq args,
     (is_invocation "discuss.channel.rtc.session" "create"
        (VList [VDict [("channel_id", channel_id); ("channel_member_id", member_id);
                       ("partner_id", partner_id); ("is_camera_on", VBool true);
                       ("is_muted", VBool false); ("is_screen_sharing_on", VBool false);
                       ("is_deaf", VBool false)]]) default_kwargs rq \/
      is_invocation "discuss.channel.rtc.session" "unlink" args default_kwargs rq) ->
     P rq) ->
  invokes 2 P (QuickWebrtcFix.test_rtc_session_with_member channel_id member_id partner_id).
Proof.
  intros HP. unfold QuickWebrtcFix.test_rtc_session_with_member. cbv zeta.
  apply (invokes_try 2 0); [| intros e; apply invokes_ret].
  apply (invokes_bind 1 1).
  - apply quick_call_model_invokes. intros rq H. apply (HP rq VNone). left. exact H.
  - intros session_id. apply (invokes_bind 1 0); [| intros _; apply invokes_ret].
    apply quick_call_model_invokes. intros rq H. apply (HP rq (VList [session_id])).
    right. exact H.
Qed.

Lemma run_analysis_rest_invokes :
  invokes 7 (fun _ => True)
    (required_fields <- QuickWebrtcFix.analyze_rtc_issue ;;
     if existsb (String.eqb "channel_member_id") required_fields
     then
       t <- QuickWebrtcFix.test_channel_member_creation ;;
       ids <- lift (QuickWebrtcFix.unpack3 t) ;;
       let '(channel_id, member_id, partner_id) := ids in
       if truthy channel_id && truthy member_id && truthy partner_id
       then
         success <- QuickWebrtcFix.test_rtc_session_with_member
                      channel_id member_id partner_id ;;
         if success then QuickWebrtcFix.generate_mobile_solution else ret tt
       else ret tt
     else ret tt).
Proof.
  apply (invokes_bind 1 6); [exact analyze_rtc_issue_invokes | intros names].
  destruct (existsb (String.eqb "channel_member_id") names);
    [| apply (invokes_weaken 0 6 (fun _ => True)); [lia | auto | apply invokes_ret]].
  apply (invokes_bind 4 2); [exact test_channel_member_creation_invokes | intros t].
  apply (invokes_bind 0 2); [apply invokes_lift | intros [[channel_id member_id] partner_id]].
  destruct (truthy channel_id && truthy member_id && truthy partner_id);
    [| apply (invokes_weaken 0 2 (fun _ => True)); [lia | auto | apply invokes_ret]].
  apply (invokes_bind 2 0).
  - apply test_rtc_session_with_member_invokes. auto.
  - intros success. destruct success; apply invokes_ret.
Qed.

(** X12. [run_analysis] proceeds to the invocations only after
    [authenticate] returned [True]: otherwise it ends in the state
    [authenticate] left. After a successful authentication it assigns no
    attribute, sends at most seven requests, and each of them is an
    invocation that carries the handle [authenticate] stored, a truthy
    value. *)
Theorem run_analysis_gate w :
  (fst (QuickWebrtcFix.authenticate w) <> Ret true ->
   snd (QuickWebrtcFix.run_analysis w) = snd (QuickWebrtcFix.authenticate w)) /\
  (forall w1,
     QuickWebrtcFix.authenticate w = (Ret true, w1) ->
     truthy (uid (self w1)) = true /\
     self (snd (QuickWebrtcFix.run_analysis w)) = self w1 /\
     written (snd (QuickWebrtcFix.run_analysis w)) = written w1 /\
     exists l,
       sent (snd (QuickWebrtcFix.run_analysis w)) = sent w1 ++ l /\
       (List.length l <= 7)%nat /\
       Forall (carries (uid (self w1))) l).
Proof.
  split.
  - intros Hfail. unfold QuickWebrtcFix.run_analysis, bind.
    destruct (QuickWebrtcFix.authenticate w) as [[[|] | e] w1]; cbn [fst snd] in *;
      [congruence | reflexivity | reflexivity].
  - intros w1 Hauth.
    pose proof (authenticate_success w) as Hsucc.
    change (CallChannel105Fixed.authenticate w) with (QuickWebrtcFix.authenticate w) in Hsucc.
    rewrite Hauth in Hsucc. destruct Hsucc as (Ht & _).
    split; [exact Ht |].
    pose proof (run_analysis_rest_invokes w1) as Hrest.
    match type of Hrest with
    | context [?rest w1] =>
        assert (Heq : QuickWebrtcFix.run_analysis w = rest w1)
          by (unfold QuickWebrtcFix.run_analysis; unfold bind at 1; rewrite Hauth;
              reflexivity)
    end.
    rewrite Heq. destruct Hrest as (Hself & Hwr & _ & l & Hl & Hlen & Hall).
    split; [exact Hself |]. split; [exact Hwr |].
    exists l. split; [exact Hl |]. split; [exact Hlen |].
    eapply Forall_impl; [exact Hall |]. intros rq [Hc _]. exact Hc.
Qed.

Lemma run_analysis_gate_witness :
  fst (QuickWebrtcFix.authenticate (fresh_world no_channel_server)) = Ret true /\
  exists l,
    sent (snd (QuickWebrtcFix.run_analysis (fresh_world no_channel_server))) =
    sent (snd (QuickWebrtcFix.authenticate (fresh_world no_channel_server))) ++ l /\
    Forall (carries (VInt 7)) l.
Proof.
  split; [reflexivity |].
  destruct (run_analysis_gate (fresh_world no_channel_server)) as [_ H].
  destruct (H (snd (QuickWebrtcFix.authenticate (fresh_world no_channel_server))) eq_refl)
    as (_ & _ & _ & l & Hl & _ & Hall).
  exists l. split; [exact Hl | exact Hall].
Defined.

Lemma analyze_rtc_issue_never_raises : never_raises QuickWebrtcFix.analyze_rtc_issue.
Proof.
  apply never_raises_try. intros e. apply never_raises_ret.
Qed.

Lemma test_rtc_session_with_member_never_raises channel_id member_id partner_id :
  never_raises (QuickWebrtcFix.test_rtc_session_with_member channel_id member_id partner_id).
Proof.
  apply never_raises_try. intros e. apply never_raises_ret.
Qed.

(** X13. [run_analysis] unpacks three values from what
    [test_channel_member_creation] returned. When the session model requires
    [channel_member_id] and no channel is found, that is the pair
    [(None, None)] and the script ends in [ValueError]. Apart from an
    exception of [authenticate], this is the only exception [run_analysis]
    raises. *)
Theorem run_analysis_unpack_error w :
  (forall w1 w2 w3 names,
     QuickWebrtcFix.authenticate w = (Ret true, w1) ->
     QuickWebrtcFix.analyze_rtc_issue w1 = (Ret names, w2) ->
     In "channel_member_id" names ->
     QuickWebrtcFix.test_channel_member_creation w2 = (Ret [VNone; VNone], w3) ->
     QuickWebrtcFix.run_analysis w =
     (Raise (ValueError "not enough values to unpack (expected 3, got 2)"), w3)) /\
  (forall e,
     fst (QuickWebrtcFix.run_analysis w) = Raise e ->
     fst (QuickWebrtcFix.authenticate w) = Raise e \/
     e = ValueError "not enough values to unpack (expected 3, got 2)").
Proof.
  split.
  - intros w1 w2 w3 names Hauth Hnames Hin Htuple.
    assert (Hex : existsb (String.eqb "channel_member_id") names = true).
    { apply existsb_exists. exists "channel_member_id". split; [exact Hin |].
      apply String.eqb_refl. }
    unfold QuickWebrtcFix.run_analysis.
    unfold bind at 1. rewrite Hauth. cbv beta iota. cbn [negb].
    unfold bind at 1. rewrite Hnames. cbv beta iota. rewrite Hex.
    unfold bind at 1. rewrite Htuple. reflexivity.
  - intros e. unfold QuickWebrtcFix.run_analysis.
    unfold bind at 1.
    destruct (QuickWebrtcFix.authenticate w) as [[[|] | e1] w1]; cbn [fst negb];
      [| discriminate | intros H; left; injection H as ->; reflexivity].
    unfold bind at 1.
    destruct (analyze_rtc_issue_never_raises w1) as [names Hnames].
    destruct (QuickWebrtcFix.analyze_rtc_issue w1) as [[names' | e1] w2];
      cbn [fst] in Hnames; [| discriminate Hnames].
    destruct (existsb (String.eqb "channel_member_id") names'); [| discriminate].
    unfold bind at 1.
    destruct (test_channel_member_creation_tuple w2) as (t & Ht & Hshape).
    destruct (QuickWebrtcFix.test_channel_member_creation w2) as [[t' | e1] w3];
      cbn [fst] in Ht; [| discriminate Ht].
    injection Ht as ->.
    destruct Hshape as [Hlen | ->].
    + destruct t as [| a [| b [| c [| d t]]]]; try discriminate Hlen.
      unfold bind at 1. unfold lift. cbn [QuickWebrtcFix.unpack3].
      destruct (truthy a && truthy b && truthy c); [| discriminate].
      unfold bind.
      destruct (test_rtc_session_with_member_never_raises a b c w3) as [ok Hok].
      destruct (QuickWebrtcFix.test_rtc_session_with_member a b c w3) as [[ok' | e1] w4];
        cbn [fst] in Hok; [| discriminate Hok].
      destruct ok'; discriminate.
    + unfold bind at 1. unfold lift. intros H. right.
      cbn in H. injection H as <-. reflexivity.
Qed.

Lemma run_analysis_unpack_error_witness :
  QuickWebrtcFix.run_analysis (fresh_world no_channel_server) =
  (Raise (ValueError "not enough values to unpack (expected 3, got 2)"),
   snd (QuickWebrtcFix.run_analysis (fresh_world no_channel_server))) /\
  List.length (sent (snd (QuickWebrtcFix.run_analysis (fresh_world no_channel_server)))) =
  4%nat.
Proof.
  destruct (run_analysis_unpack_error (fresh_world no_channel_server)) as [H _].
  rewrite (H _ _ _ ["channel_id"; "channel_member_id"] eq_refl eq_refl
             (or_intror (or_introl eq_refl)) eq_refl).
  split; reflexivity.
Defined.

Lemma call_model_unmarshalled w db key model method args kwargs e :
  ready "api_key" w db key -> dump args = Some e ->
  CallChannel105Fixed.call_model model method args kwargs w = (Raise e, w).
Proof.
  intros (Hs & Hdb & Hkey & Hd) Ha. unfold CallChannel105Fixed.call_model. run_monad.
  rewrite Hs, Hdb, Hkey. revert Hd. cbn [dumps dump].
  destruct (dump db); [discriminate |].
  destruct (dump (uid (self w))); [discriminate |].
  destruct (dump key); [discriminate |].
  intros _. rewrite Ha. reflexivity.
Qed.

Lemma dump_singleton v : dump (VList [v]) = dump v.
Proof. cbn [dump]. destruct (dump v); reflexivity. Qed.

(** X14. [test_rtc_session_with_member] on a client that can reach the
    endpoint, with identifiers that can be marshalled: it answers [True]
    exactly when the [create] and the [unlink] of what the [create] returned
    both came back. A fault of the [create] ends it after one request; so
    does an identifier the client cannot marshal, and a fault of the
    [unlink] ends it after two: in both cases the answer is [False] and the
    session stays on the server. *)
Theorem test_rtc_session_with_member_outcomes w db key channel_id member_id partner_id :
  ready "api_key" w db key ->
  dump channel_id = None -> dump member_id = None -> dump partner_id = None ->
  let run := QuickWebrtcFix.test_rtc_session_with_member channel_id member_id partner_id w in
  let create :=
    execute_kw_request (self w) db key "discuss.channel.rtc.session" "create"
      (VList [VDict [("channel_id", channel_id); ("channel_member_id", member_id);
                     ("partner_id", partner_id); ("is_camera_on", VBool true);
                     ("is_muted", VBool false); ("is_screen_sharing_on", VBool false);
                     ("is_deaf", VBool false)]]) default_kwargs in
  match respond (host w) (sent w) create with
  | Faults e => run = (Ret false, after_send w create)
  | Returns session_id =>
      let unlink :=
        execute_kw_request (self w) db key "discuss.channel.rtc.session" "unlink"
          (VList [session_id]) default_kwargs in
      match dump session_id with
      | Some e => run = (Ret false, after_send w create)
      | None =>
          match respond (host w) (sent w ++ [create]) unlink with
          | Returns _ => run = (Ret true, after_send (after_send w create) unlink)
          | Faults e => run = (Ret false, after_send (after_send w create) unlink)
          end
      end
  end.
Proof.
  intros Hready Hc Hm Hp run create.
  assert (Hdata : dump (VList [VDict [("channel_id", channel_id);
                                      ("channel_member_id", member_id);
                                      ("partner_id", partner_id);
                                      ("is_camera_on", VBool true);
                                      ("is_muted", VBool false);
                                      ("is_screen_sharing_on", VBool false);
                                      ("is_deaf", VBool false)]]) = None).
  { cbn [dump]. rewrite Hc, Hm, Hp. reflexivity. }
  assert (Hstart : run =
            let (o, w') :=
              match answer w create with
              | Ret session_id =>
                  (QuickWebrtcFix.call_model "discuss.channel.rtc.session" "unlink"
                     (VList [session_id]) default_kwargs ;;; ret true)
                    (after_send w create)
              | Raise e => (Raise e, after_send w create)
              end in
            match o with
            | Ret a => (Ret a, w')
            | Raise _ => (Ret false, w')
            end).
  { unfold run, QuickWebrtcFix.test_rtc_session_with_member, try_except. cbv zeta.
    unfold bind at 1.
    rewrite (quick_call_model_ready w db key "discuss.channel.rtc.session" "create" _
               default_kwargs Hready Hdata eq_refl).
    reflexivity. }
  rewrite Hstart. clear Hstart. unfold answer.
  destruct (respond (host w) (sent w) create) as [session_id | e]; [| reflexivity].
  cbv zeta. unfold bind.
  destruct (dump session_id) as [e |] eqn:Hsid.
  - change QuickWebrtcFix.call_model with CallChannel105Fixed.call_model.
    rewrite (call_model_unmarshalled (after_send w create) db key
               "discuss.channel.rtc.session" "unlink" (VList [session_id]) default_kwargs e
               (ready_after_send "api_key" w db key create Hready)
               (eq_trans (dump_singleton session_id) Hsid)).
    reflexivity.
  - rewrite (quick_call_model_ready (after_send w create) db key
               "discuss.channel.rtc.session" "unlink" (VList [session_id]) default_kwargs
               (ready_after_send "api_key" w db key create Hready)
               (eq_trans (dump_singleton session_id) Hsid) eq_refl).
    unfold answer. cbn [host sent after_send self].
    destruct (respond (host w) (sent w ++ [create]) _) as [r | e]; reflexivity.
Qed.

Lemma test_rtc_session_with_member_witness :
  QuickWebrtcFix.test_rtc_session_with_member (VInt 5) (VInt 42) (VInt 3)
    (logged_in_world member_server) =
  (Ret true,
   snd (QuickWebrtcFix.test_rtc_session_with_member (VInt 5) (VInt 42) (VInt 3)
          (logged_in_world member_server))) /\
  fst (QuickWebrtcFix.test_rtc_session_with_member (VInt 5) (VInt 42) (VInt 3)
         (logged_in_world (fun _ _ => Returns VNone))) = Ret false.
Proof.
  split.
  - exact (test_rtc_session_with_member_outcomes (logged_in_world member_server)
             (VStr "db") (VStr "key") (VInt 5) (VInt 42) (VInt 3)
             (demo_ready member_server) eq_refl eq_refl eq_refl).
  - exact (f_equal fst
             (test_rtc_session_with_member_outcomes
                (logged_in_world (fun _ _ => Returns VNone))
                (VStr "db") (VStr "key") (VInt 5) (VInt 42) (VInt 3)
                (demo_ready (fun _ _ => Returns VNone)) eq_refl eq_refl eq_refl)).
Defined.

(** ** The tests of debug-webrtc.py *)

Lemma debug_call_model_invokes (P : rpc -> Prop) model method args kwargs :
  (forall rq, is_invocation model method args kwargs rq -> P rq) ->
  invokes 1 P (DebugWebrtc.call_model model method args kwargs).
Proof.
  intros HP. apply (invokes_weaken 1 1 (is_invocation model method args kwargs) P);
    [lia | exact HP |].
  exact (invokes_debug_call_model model method args kwargs).
Qed.

(** X15. [test_create_rtc_session] never raises, assigns nothing and sends
    at most four requests. Whatever the endpoint answers, a [create] it sends
    carries one record with exactly the five keys of the source, the camera
    off: the record never names a channel member. *)
Theorem test_create_rtc_session_omits_member :
  never_raises DebugWebrtc.test_create_rtc_session /\
  invokes 4
    (fun rq =>
       method_of rq = Some (VStr "create") ->
       exists data,
         args_of rq = Some (VList [VDict data]) /\
         map fst data = ["channel_id"; "partner_id"; "is_camera_on"; "is_muted";
                         "is_screen_sharing_on"] /\
         assoc "channel_member_id" data = None /\
         assoc "is_camera_on" data = Some (VBool false))
    DebugWebrtc.test_create_rtc_session.
Proof.
  split.
  { apply never_raises_try. intros e. apply never_raises_ret. }
  unfold DebugWebrtc.test_create_rtc_session.
  apply (invokes_try 4 0); [| intros e; apply invokes_ret].
  apply (invokes_bind 0 4); [apply invokes_get_uid | intros u].
  apply (invokes_bind 1 3).
  { apply debug_call_model_invokes. intros rq (db & h & s & Hrq) Hm.
    unfold method_of in Hm. rewrite Hrq in Hm. discriminate Hm. }
  intros users.
  apply (invokes_bind 0 3); [apply invokes_lift | intros user].
  apply (invokes_bind 0 3); [apply invokes_lift | intros partner].
  apply (invokes_bind 0 3); [apply invokes_lift | intros partner_id].
  apply (invokes_bind 1 2).
  { apply debug_call_model_invokes. intros rq (db & h & s & Hrq) Hm.
    unfold method_of in Hm. rewrite Hrq in Hm. discriminate Hm. }
  intros channels.
  destruct (negb (truthy channels)).
  { eapply (invokes_weaken 0 2); [lia | intros rq H; exact H | apply invokes_ret]. }
  apply (invokes_bind 0 2); [apply invokes_lift | intros channel_id].
  cbv zeta.
  apply (invokes_bind 1 1).
  { apply debug_call_model_invokes. intros rq (db & h & s & Hrq) _.
    eexists. unfold args_of. rewrite Hrq. cbn [execute_kw_params nth_error].
    split; [reflexivity |]. split; [reflexivity |]. split; reflexivity. }
  intros session_id.
  apply (invokes_bind 1 0); [| intros _; apply invokes_ret].
  apply debug_call_model_invokes. intros rq (db & h & s & Hrq) Hm.
  unfold method_of in Hm. rewrite Hrq in Hm. discriminate Hm.
Qed.

(** X16. The two model checks differ in what they accept. On a client that
    can reach the endpoint each sends one [fields_get]. [test_old_rtc_model]
    answers [True] as soon as the request returns, whatever it returns;
    [test_rtc_session_model] lists the keys of the answer and answers [True]
    only for a dict. A fault gives [False] in both. *)
Theorem model_checks_differ w db pw :
  ready "password" w db pw ->
  let fields_get model :=
    execute_kw_request (self w) db pw model "fields_get" default_args default_kwargs in
  DebugWebrtc.test_rtc_session_model w =
  (Ret match respond (host w) (sent w) (fields_get "discuss.channel.rtc.session") with
       | Returns (VDict _) => true
       | _ => false
       end,
   after_send w (fields_get "discuss.channel.rtc.session")) /\
  DebugWebrtc.test_old_rtc_model w =
  (Ret match respond (host w) (sent w) (fields_get "mail.rtc.session") with
       | Returns _ => true
       | Faults _ => false
       end,
   after_send w (fields_get "mail.rtc.session")).
Proof.
  intros Hready fields_get. split.
  - unfold DebugWebrtc.test_rtc_session_model, try_except, bind.
    rewrite (debug_call_model_ready w db pw "discuss.channel.rtc.session" "fields_get"
               default_args default_kwargs Hready eq_refl eq_refl).
    fold (fields_get "discuss.channel.rtc.session"). unfold answer.
    destruct (respond (host w) (sent w) (fields_get "discuss.channel.rtc.session"))
      as [[| | | | |] | e]; reflexivity.
  - unfold DebugWebrtc.test_old_rtc_model, try_except, bind.
    rewrite (debug_call_model_ready w db pw "mail.rtc.session" "fields_get"
               default_args default_kwargs Hready eq_refl eq_refl).
    fold (fields_get "mail.rtc.session"). unfold answer.
    destruct (respond (host w) (sent w) (fields_get "mail.rtc.session")) as [v | e];
      reflexivity.
Qed.

Lemma demo_ready_password server :
  ready "password" (logged_in_world server) (VStr "db") (VStr "pw").
Proof. repeat split; reflexivity. Qed.

Lemma model_checks_differ_witness :
  fst (DebugWebrtc.test_rtc_session_model
         (logged_in_world (fun _ _ => Returns (VBool true)))) = Ret false /\
  fst (DebugWebrtc.test_old_rtc_model
         (logged_in_world (fun _ _ => Returns (VBool true)))) = Ret true.
Proof.
  destruct (model_checks_differ (logged_in_world (fun _ _ => Returns (VBool true)))
              (VStr "db") (VStr "pw") (demo_ready_password _)) as [H1 H2].
  rewrite H1, H2. split; reflexivity.
Defined.

(** ** The fallback over the bus methods *)

(** X17. [send_call_notification] on a client that can reach the endpoint,
    once the caller's name is read: the three bus methods are tried in the
    order [_sendmany], [sendmany], [create], each after the fault of the one
    before. The first one that returns ends the method with [True]; the
    answer is [False] only after all three came back as faults. *)
Theorem send_call_notification_fallback w db key channel_id session_id partner_id
    call_type user_data caller_name :
  ready "api_key" w db key ->
  let read :=
    execute_kw_request (self w) db key "res.users" "read" (VList [uid (self w)])
      (VDict [("fields", VList [VStr "name"; VStr "email"])]) in
  respond (host w) (sent w) read = Returns user_data ->
  (if truthy user_data
   then match getitem_zero user_data with
        | Ret first => getitem_key first "name"
        | Raise e => Raise e
        end
   else Ret (VStr "CLI Caller")) = Ret caller_name ->
  dump channel_id = None -> dump session_id = None -> dump partner_id = None ->
  dump caller_name = None ->
  let notification_data :=
    VDict [("id", session_id); ("channel_id", channel_id); ("partner_id", partner_id);
           ("is_camera_on", VBool (String.eqb call_type "video"));
           ("is_muted", VBool false); ("is_screen_sharing_on", VBool false);
           ("caller_name", caller_name); ("action", VStr "join");
           ("call_type", VStr call_type)] in
  let target := VStr ("discuss.channel_" +:+ py_str (host w) channel_id) in
  let notifications :=
    VList [VList [target; VDict [("type", VStr "discuss.channel.rtc.session/insert");
                                 ("payload", notification_data)]]] in
  let bus method record :=
    execute_kw_request (self w) db key "bus.bus" method (VList [record]) default_kwargs in
  let r1 := bus "_sendmany" notifications in
  let r2 := bus "sendmany" notifications in
  let r3 := bus "create" (VDict [("channel", target); ("message", notification_data)]) in
  let w0 := after_send w read in
  let w1 := after_send w0 r1 in
  let w2 := after_send w1 r2 in
  CallChannel105Fixed.send_call_notification channel_id session_id partner_id call_type w =
  match respond (host w) (sent w0) r1 with
  | Returns _ => (Ret true, w1)
  | Faults _ =>
      match respond (host w) (sent w1) r2 with
      | Returns _ => (Ret true, w2)
      | Faults _ =>
          (Ret match respond (host w) (sent w2) r3 with
               | Returns _ => true
               | Faults _ => false
               end,
           after_send w2 r3)
      end
  end.
Proof.
  intros Hready read Hread Hname Hc Hs Hp Hn notification_data target notifications bus
    r1 r2 r3 w0 w1 w2.
  assert (Huid : dump (VList [uid (self w)]) = None).
  { destruct Hready as (_ & _ & _ & Hd). revert Hd. cbn [dumps dump].
    destruct (dump db); [discriminate |].
    destruct (dump (uid (self w))); [discriminate | reflexivity]. }
  assert (Hdata : dump notification_data = None).
  { unfold notification_data. cbn [dump]. rewrite Hs, Hc, Hp, Hn. reflexivity. }
  assert (Hnotes : dump (VList [notifications]) = None).
  { unfold notifications. cbn [dump] in *. unfold target. rewrite Hdata. reflexivity. }
  assert (Hmsg : dump (VList [VDict [("channel", target); ("message", notification_data)]])
                 = None).
  { cbn [dump] in *. unfold target. rewrite Hdata. reflexivity. }
  assert (Hr0 : ready "api_key" w0 db key) by exact Hready.
  assert (Hr1 : ready "api_key" w1 db key) by exact Hready.
  assert (Hr2 : ready "api_key" w2 db key) by exact Hready.
  unfold CallChannel105Fixed.send_call_notification.
  unfold try_except at 1. unfold bind at 1. unfold get_uid at 1. cbv beta iota.
  unfold bind at 1.
  rewrite (call_model_ready w db key "res.users" "read" (VList [uid (self w)])
             (VDict [("fields", VList [VStr "name"; VStr "email"])]) Hready Huid eq_refl).
  fold read. fold w0. unfold answer at 1. rewrite Hread.
  unfold bind at 1.
  assert (Hcaller :
            (if truthy user_data
             then first <- lift (getitem_zero user_data) ;; lift (getitem_key first "name")
             else ret (VStr "CLI Caller")) w0 = (Ret caller_name, w0)).
  { destruct (truthy user_data).
    - unfold bind, lift. destruct (getitem_zero user_data) as [first | e];
        [| discriminate Hname]. rewrite Hname. reflexivity.
    - injection Hname as <-. reflexivity. }
  rewrite Hcaller. clear Hcaller.
  unfold bind at 1. unfold get_host at 1. cbv beta iota zeta.
  change (host w0) with (host w).
  fold target. fold notification_data. fold notifications.
  unfold try_except at 1. unfold bind at 1.
  rewrite (call_model_ready w0 db key "bus.bus" "_sendmany" (VList [notifications])
             default_kwargs Hr0 Hnotes eq_refl).
  change (execute_kw_request (self w0) db key "bus.bus" "_sendmany" (VList [notifications])
            default_kwargs) with r1.
  fold w1. unfold answer at 1. change (host w0) with (host w).
  destruct (respond (host w) (sent w0) r1) as [v1 | e1]; [reflexivity |].
  unfold try_except at 1. unfold bind at 1.
  rewrite (call_model_ready w1 db key "bus.bus" "sendmany" (VList [notifications])
             default_kwargs Hr1 Hnotes eq_refl).
  change (execute_kw_request (self w1) db key "bus.bus" "sendmany" (VList [notifications])
            default_kwargs) with r2.
  fold w2. unfold answer at 1. change (host w1) with (host w).
  destruct (respond (host w) (sent w1) r2) as [v2 | e2]; [reflexivity |].
  unfold try_except at 1. cbv zeta. unfold bind at 1.
  rewrite (call_model_ready w2 db key "bus.bus" "create"
             (VList [VDict [("channel", target); ("message", notification_data)]])
             default_kwargs Hr2 Hmsg eq_refl).
  change (execute_kw_request (self w2) db key "bus.bus" "create"
            (VList [VDict [("channel", target); ("message", notification_data)]])
            default_kwargs) with r3.
  unfold answer at 1. change (host w2) with (host w).
  destruct (respond (host w) (sent w2) r3) as [v3 | e3]; reflexivity.
Qed.

Lemma send_call_notification_fallback_witness :
  fst (CallChannel105Fixed.send_call_notification (VInt 105) (VInt 9) (VInt 3) "audio"
         (logged_in_world bus_server)) = Ret true /\
  map method_of
    (sent (snd (CallChannel105Fixed.send_call_notification (VInt 105) (VInt 9) (VInt 3)
                  "audio" (logged_in_world bus_server)))) =
  [Some (VStr "read"); Some (VStr "_sendmany"); Some (VStr "sendmany");
   Some (VStr "create")].
Proof.
  rewrite (send_call_notification_fallback (logged_in_world bus_server)
             (VStr "db") (VStr "key") (VInt 105) (VInt 9) (VInt 3) "audio"
             (VList [VDict [("name", VStr "Caller")]]) (VStr "Caller")
             (demo_ready bus_server) eq_refl eq_refl eq_refl eq_refl eq_refl eq_refl).
  split; reflexivity.
Defined.

(** ** clean-and-call-105.py from [run] to the last [unlink] *)

Lemma calls_invocation (methods : list string) model method args kwargs rq :
  In method methods -> is_invocation model method args kwargs rq -> calls methods rq.
Proof.
  intros Hin (db & h & s & Hrq). exists method. split; [exact Hin |].
  unfold method_of. rewrite Hrq. reflexivity.
Qed.



Ltac in_list := cbn [In]; tauto.




















Lemma clean_handled {A : Type} (m : M A) (a : A) :
  never_raises (try_except m (fun e => ret a)).
Proof. apply never_raises_try. intros e. apply never_raises_ret. Qed.




(** ** The diagnostics of the enhanced script *)

Section OnlyInvokes.
Context {A B : Type}.

Lemma invokes_only (n : nat) (P : rpc -> Prop) (m : M A) :
  invokes n P m -> only_invokes P m.
Proof.
  intros H w. destruct (H w) as (Hs & Hw & Hh & l & Hl & _ & Hall).
  split; [exact Hs |]. split; [exact Hw |]. split; [exact Hh |].
  exists l. split; [exact Hl | exact Hall].
Qed.

Lemma only_invokes_bind (P : rpc -> Prop) (m : M A) (f : A -> M B) :
  only_invokes P m -> (forall a, only_invokes P (f a)) -> only_invokes P (bind m f).
Proof.
  intros Hm Hf w. unfold bind.
  destruct (Hm w) as (Hs & Hw & Hh & l & Hl & Hall).
  destruct (m w) as [[a | e] w1]; cbn [snd] in *.
  - destruct (Hf a w1) as (Hs' & Hw' & Hh' & l' & Hl' & Hall').
    split; [congruence |]. split; [congruence |]. split; [congruence |].
    exists (l ++ l'). rewrite Hl', Hl, <- app_assoc. split; [reflexivity |].
    apply Forall_app. split; [exact Hall |]. rewrite Hs in Hall'. exact Hall'.
  - split; [exact Hs |]. split; [exact Hw |]. split; [exact Hh |].
    exists l. split; [exact Hl | exact Hall].
Qed.

Lemma only_invokes_try (P : rpc -> Prop) (m : M A) (handler : exn -> M A) :
  only_invokes P m -> (forall e, only_invokes P (handler e)) ->
  only_invokes P (try_except m handler).
Proof.
  intros Hm Hh w. unfold try_except.
  destruct (Hm w) as (Hs & Hw & Hhost & l & Hl & Hall).
  destruct (m w) as [[a | e] w1]; cbn [snd] in *.
  - split; [exact Hs |]. split; [exact Hw |]. split; [exact Hhost |].
    exists l. split; [exact Hl | exact Hall].
  - destruct (Hh e w1) as (Hs' & Hw' & Hh' & l' & Hl' & Hall').
    split; [congruence |]. split; [congruence |]. split; [congruence |].
    exists (l ++ l'). rewrite Hl', Hl, <- app_assoc. split; [reflexivity |].
    apply Forall_app. split; [exact Hall |]. rewrite Hs in Hall'. exact Hall'.
Qed.

Lemma invokes_bind_lift (n : nat) (P : rpc -> Prop) (o : outcome A) (f : A -> M B) :
  (forall a, o = Ret a -> invokes n P (f a)) -> invokes n P (bind (lift o) f).
Proof.
  intros Hf. destruct o as [a | e].
  - intros w. exact (Hf a eq_refl w).
  - intros w. cbn. sends_nothing.
Qed.
End OnlyInvokes.

Lemma enhanced_call_model_invokes (methods : list string) model method args kwargs :
  In method methods ->
  invokes 1 (calls methods) (EnhancedCleanAndCall105.call_model model method args kwargs).
Proof.
  intros Hin.
  apply (invokes_weaken 1 1 (is_invocation model method args kwargs) (calls methods));
    [lia | intros rq; apply calls_invocation; exact Hin |].
  exact (invokes_enhanced_call_model model method args kwargs).
Qed.

Lemma describe_sessions_invokes sessions :
  invokes (2 * List.length sessions) (calls ["search_read"; "read"])
    (EnhancedCleanAndCall105.describe_sessions sessions).
Proof.
  induction sessions as [| session rest IH];
    cbn [EnhancedCleanAndCall105.describe_sessions].
  - apply invokes_ret.
  - apply (invokes_weaken (1 + (1 + 2 * List.length rest)) _
             (calls ["search_read"; "read"]) (calls ["search_read"; "read"]));
      [cbn [List.length]; lia | intros rq H; exact H |].
    apply invokes_bind.
    { apply (invokes_try 1 0); [| intros e; apply invokes_ret].
      apply (invokes_bind 0 1); [apply invokes_lift | intros channel].
      apply (invokes_bind 0 1); [apply invokes_lift | intros channel_id].
      apply (invokes_bind 1 0); [apply enhanced_call_model_invokes; in_list | intros info].
      destruct (truthy info); [| apply invokes_ret].
      apply (invokes_bind 0 0); [apply invokes_lift | intros first].
      apply (invokes_bind 0 0); [apply invokes_lift | intros _; apply invokes_ret]. }
    intros _. apply invokes_bind.
    { apply (invokes_try 1 0); [| intros e; apply invokes_ret].
      apply (invokes_bind 0 1); [apply invokes_lift | intros partner].
      apply (invokes_bind 0 1); [apply invokes_lift | intros partner_id].
      apply (invokes_bind 1 0); [apply enhanced_call_model_invokes; in_list | intros info].
      destruct (truthy info); [| apply invokes_ret].
      apply (invokes_bind 0 0); [apply invokes_lift | intros first].
      apply (invokes_bind 0 0); [apply invokes_lift | intros _; apply invokes_ret]. }
    intros _.
    apply (invokes_bind 0 _); [apply invokes_lift | intros _].
    apply (invokes_bind 0 _); [apply invokes_lift | intros channel].
    apply (invokes_bind 0 _); [apply invokes_lift | intros _].
    apply (invokes_bind 0 _); [apply invokes_lift | intros partner].
    apply (invokes_bind 0 _); [apply invokes_lift | intros _].
    apply (invokes_bind 0 _); [apply invokes_lift | intros _].
    apply (invokes_bind 0 _); [apply invokes_lift | intros _].
    apply (invokes_bind 0 _); [apply invokes_lift | intros _].
    exact IH.
Qed.

Lemma list_sessions_invokes (P : rpc -> Prop) sessions :
  invokes 0 P (EnhancedCleanAndCall105.list_sessions sessions).
Proof.
  induction sessions as [| session rest IH];
    cbn [EnhancedCleanAndCall105.list_sessions].
  - apply invokes_ret.
  - apply (invokes_bind 0 0); [apply invokes_lift | intros _].
    apply (invokes_bind 0 0); [apply invokes_lift | intros partner].
    apply (invokes_bind 0 0); [apply invokes_lift | intros _; exact IH].
Qed.

Lemma show_settings_invokes (P : rpc -> Prop) settings :
  invokes 0 P (EnhancedCleanAndCall105.show_settings settings).
Proof.
  induction settings as [| setting rest IH];
    cbn [EnhancedCleanAndCall105.show_settings].
  - apply invokes_ret.
  - apply (invokes_bind 0 0); [apply invokes_lift | intros _].
    apply (invokes_bind 0 0); [apply invokes_lift | intros _; exact IH].
Qed.

Lemma diagnose_after_search_invokes all_sessions :
  invokes (2 * List.length (match py_iter all_sessions with
                            | Ret sessions => sessions
                            | Raise _ => []
                            end) + 1)
    (calls ["search_read"; "read"])
    (lift (py_len all_sessions) ;;;
     (if truthy all_sessions
      then sessions <- lift (py_iter all_sessions) ;;
           EnhancedCleanAndCall105.describe_sessions sessions
      else ret tt) ;;;
     channel_105_sessions <-
       EnhancedCleanAndCall105.call_model "discuss.channel.rtc.session" "search_read"
         (VList [VList [VList [VStr "channel_id"; VStr "="; VInt 105]]])
         (VDict [("fields", VList [VStr "id"; VStr "partner_id"; VStr "is_camera_on";
                                   VStr "is_muted"])]) ;;
     lift (py_len channel_105_sessions) ;;;
     sessions <- lift (py_iter channel_105_sessions) ;;
     EnhancedCleanAndCall105.list_sessions sessions).
Proof.
  apply (invokes_bind 0 _); [apply invokes_lift | intros _].
  apply invokes_bind.
  - destruct (truthy all_sessions).
    + apply invokes_bind_lift. intros sessions ->. apply describe_sessions_invokes.
    + apply (invokes_weaken 0 _ (calls ["search_read"; "read"])
               (calls ["search_read"; "read"]));
        [lia | intros rq H; exact H | apply invokes_ret].
  - intros _.
    apply (invokes_bind 1 0); [apply enhanced_call_model_invokes; in_list | intros found].
    apply (invokes_bind 0 0); [apply invokes_lift | intros _].
    apply (invokes_bind 0 0); [apply invokes_lift | intros sessions].
    apply list_sessions_invokes.
Qed.

(** X20. The two diagnostics of the enhanced script only read.
    [diagnose_rtc_sessions] and [test_audio_permissions] never raise and
    assign nothing, and every request they send is a [search_read] or a
    [read] that carries the stored handle; [test_audio_permissions] sends at
    most two. *)
Theorem diagnostics_read_only :
  never_raises EnhancedCleanAndCall105.diagnose_rtc_sessions /\
  only_invokes (calls ["search_read"; "read"])
    EnhancedCleanAndCall105.diagnose_rtc_sessions /\
  never_raises EnhancedCleanAndCall105.test_audio_permissions /\
  invokes 2 (calls ["search_read"; "read"]) EnhancedCleanAndCall105.test_audio_permissions.
Proof.
  split; [apply clean_handled |].
  split.
  { unfold EnhancedCleanAndCall105.diagnose_rtc_sessions.
    apply only_invokes_try; [| intros e; apply (invokes_only 0); apply invokes_ret].
    apply only_invokes_bind.
    - apply (invokes_only 1). apply enhanced_call_model_invokes. in_list.
    - intros all_sessions.
      exact (invokes_only _ _ _ (diagnose_after_search_invokes all_sessions)). }
  split; [apply clean_handled |].
  unfold EnhancedCleanAndCall105.test_audio_permissions.
  apply (invokes_try 2 0); [| intros e; apply invokes_ret].
  apply (invokes_bind 0 2); [apply invokes_get_uid | intros u].
  apply (invokes_bind 1 1); [apply enhanced_call_model_invokes; in_list | intros prefs].
  apply (invokes_bind 0 1).
  { destruct (truthy prefs); [| apply invokes_ret].
    apply (invokes_bind 0 0); [apply invokes_lift | intros user].
    apply (invokes_bind 0 0); [apply invokes_lift | intros _].
    apply (invokes_bind 0 0); [apply invokes_lift | intros user'].
    apply (invokes_bind 0 0); [apply invokes_lift | intros _].
    apply (invokes_bind 0 0); [apply invokes_lift | intros user''].
    apply (invokes_bind 0 0); [apply invokes_lift | intros partner].
    apply (invokes_bind 0 0); [apply invokes_lift | intros _; apply invokes_ret]. }
  intros _.
  apply (invokes_try 1 0); [| intros e; apply invokes_ret].
  apply (invokes_bind 1 0); [apply enhanced_call_model_invokes; in_list | intros settings].
  destruct (truthy settings); [| apply invokes_ret].
  apply (invokes_bind 0 0); [apply invokes_lift | intros l; apply show_settings_invokes].
Qed.

(** X21. How much [diagnose_rtc_sessions] sends is set by the answer to its
    first request: on a client that can reach the endpoint, when the search
    for all sessions returns [v], the method sends at most two requests for
    each element of [v] beside its two searches, and its first request is
    that search. *)
Theorem diagnose_rtc_sessions_bound w db key v :
  ready "api_key" w db key ->
  let search :=
    execute_kw_request (self w) db key "discuss.channel.rtc.session" "search_read"
      (VList [VList []])
      (VDict [("fields", VList [VStr "id"; VStr "channel_id"; VStr "partner_id";
                                VStr "is_camera_on"; VStr "is_muted";
                                VStr "create_date"])]) in
  respond (host w) (sent w) search = Returns v ->
  exists l,
    sent (snd (EnhancedCleanAndCall105.diagnose_rtc_sessions w)) = sent w ++ search :: l /\
    (List.length l <= 2 * List.length (match py_iter v with
                                       | Ret sessions => sessions
                                       | Raise _ => []
                                       end) + 1)%nat.
Proof.
  intros Hready search Hresp.
  unfold EnhancedCleanAndCall105.diagnose_rtc_sessions, try_except.
  unfold bind at 1.
  rewrite (enhanced_call_model_ready w db key "discuss.channel.rtc.session" "search_read"
             (VList [VList []])
             (VDict [("fields", VList [VStr "id"; VStr "channel_id"; VStr "partner_id";
                                       VStr "is_camera_on"; VStr "is_muted";
                                       VStr "create_date"])]) Hready eq_refl eq_refl).
  fold search. unfold answer. rewrite Hresp.
  destruct (diagnose_after_search_invokes v (after_send w search))
    as (_ & _ & _ & l & Hl & Hlen & _).
  match type of Hl with
  | sent (snd (?rest _)) = _ => destruct (rest (after_send w search)) as [[u | e] w2]
  end; unfold ret; cbv beta iota; cbn [snd after_send sent] in *;
    (exists l; split; [rewrite Hl, <- app_assoc; reflexivity | exact Hlen]).
Qed.

Lemma diagnose_rtc_sessions_witness :
  map method_of
    (sent (snd (EnhancedCleanAndCall105.diagnose_rtc_sessions
                  (logged_in_world session_server)))) =
  [Some (VStr "search_read"); Some (VStr "read"); Some (VStr "read");
   Some (VStr "read"); Some (VStr "read")] /\
  exists l,
    sent (snd (EnhancedCleanAndCall105.diagnose_rtc_sessions
                 (logged_in_world session_server))) =
    [] ++ execute_kw_request (self (logged_in_world session_server)) (VStr "db") (VStr "key")
            "discuss.channel.rtc.session" "search_read" (VList [VList []])
            (VDict [("fields", VList [VStr "id"; VStr "channel_id"; VStr "partner_id";
                                      VStr "is_camera_on"; VStr "is_muted";
                                      VStr "create_date"])]) :: l /\
    (List.length l <= 5)%nat.
Proof.
  split; [vm_compute; reflexivity |].
  exact (diagnose_rtc_sessions_bound (logged_in_world session_server) (VStr "db")
           (VStr "key") _ (demo_ready session_server) eq_refl).
Defined.
